(** * BigDL: the Python glue of the toolkit, embedded and checked

    The development follows four source files of the repository:

    - [python/orca/.../learn/tf2/estimator.py]: the estimator factory
      [Estimator.from_keras];
    - [pyspark/dl/dataset/imagenet.py]: the image-folder reader [read_local];
    - [pyspark/bigdl/models/ml_pipeline/dl_classifier_lenet.py]: the mnist
      reader [get_mnist];
    - [python/nano/.../tf/keras/inference/optimizer.py]: the inference
      optimizer, [TFAccelerationOption.optimize], [InferenceOptimizer.trace],
      [InferenceOptimizer.quantize], [InferenceOptimizer.optimize] and
      [_accuracy_calculate_helper].

    Python code is embedded shallowly.  A function that can raise returns in
    a sum [exn + A]; a function that also acts on the frameworks, the clock or
    the receiver's attributes is a state-passing function in the monad [SE].
    What the Python code calls outside of these files (TensorFlow, OpenVINO,
    ONNX Runtime, Spark, the file system) is a parameter of the development. *)

From Stdlib Require Import ZArith Ascii String List.
From Stdlib Require Import Floats.PrimFloat.
From stdpp Require Import base option list sorting strings pretty.

Open Scope Z_scope.
Open Scope string_scope.
Open Scope list_scope.

(** ** Python exceptions

    The instances of Python's [Exception] that the embedded code raises or
    lets through.  [InvalidInputError] is what the helper
    [invalidInputError] raises; [Raised] is any exception coming out of a
    framework call, with its text. *)

Inductive exn : Type :=
| ValueError (msg : string)
| KeyError (key : string)
| AttributeError (msg : string)
| UnboundLocalError (name : string)
| ImportError (name : string)
| TypeError (msg : string)
| InvalidInputError (errMsg : string)
| Raised (text : string).

(** [str(e)], as [print(e)] shows it. *)
Definition exn_str (e : exn) : string :=
  match e with
  | ValueError msg => msg
  | KeyError key => "'" +:+ key +:+ "'"
  | AttributeError msg => msg
  | UnboundLocalError name => name
  | ImportError name => name
  | TypeError msg => msg
  | InvalidInputError errMsg => errMsg
  | Raised text => text
  end.

(** ** The error monad of code without side effects *)

Definition res (A : Type) : Type := exn + A.

Definition res_bind {A B : Type} (r : res A) (k : A -> res B) : res B :=
  match r with
  | inl e => inl e
  | inr a => k a
  end.

Definition res_map {A B : Type} (f : A -> B) (r : res A) : res B :=
  res_bind r (fun a => inr (f a)).

(** [for x in l: acc = body(acc, x)], stopping at the first exception. *)
Fixpoint res_fold {A B : Type} (body : B -> A -> res B) (l : list A) (acc : B)
  : res B :=
  match l with
  | [] => inr acc
  | x :: l' => res_bind (body acc x) (res_fold body l')
  end.

(** ** Ordered dictionaries

    A Python [dict] keeps its keys in the order of their first insertion;
    assigning to a key that is present replaces the value in place. *)

Module PyDict.
Abbreviation t V := (list (string * V)).

Section PyDict.
Context {V : Type}.

Definition keys (d : t V) : list string := map fst d.

Fixpoint get (d : t V) (k : string) : option V :=
  match d with
  | [] => None
  | (k', v) :: d' => if String.eqb k' k then Some v else get d' k
  end.

(** [d[k] = v] *)
Fixpoint set (k : string) (v : V) (d : t V) : t V :=
  match d with
  | [] => [(k, v)]
  | (k', v') :: d' =>
      if String.eqb k' k then (k', v) :: d' else (k', v') :: set k v d'
  end.

(** [d.update(other)] *)
Definition update_from (other : t V) (d : t V) : t V :=
  fold_left (fun acc kv => set (fst kv) (snd kv) acc) other d.
End PyDict.
End PyDict.

(** ** orca: the estimator factory (estimator.py) *)

Module Estimator.
Section Estimator.
(** The Python values handed through: creator functions and the [config]
    dictionary. *)
Variables (Creator Config : Type).

(** The keyword arguments the factory gives to [TensorFlow2Estimator]. *)
Record TensorFlow2Estimator_kwargs : Type := {
  tf2_model_creator : Creator;
  tf2_config : option Config;
  tf2_verbose : bool;
  tf2_workers_per_node : Z;
  tf2_backend : string;
  tf2_compile_args_creator : option Creator;
  tf2_cpu_binding : bool
}.

(** The keyword arguments the factory gives to [SparkTFEstimator]. *)
Record SparkTFEstimator_kwargs : Type := {
  spark_model_creator : Creator;
  spark_config : option Config;
  spark_verbose : bool;
  spark_compile_args_creator : option Creator;
  spark_workers_per_node : Z
}.

(** The two estimator classes live in [ray_estimator.py] and
    [pyspark_estimator.py]; importing and constructing them is the
    backends' business and may raise. *)
Variables (TensorFlow2Estimator SparkTFEstimator : Type).
Variable TensorFlow2Estimator_init :
  TensorFlow2Estimator_kwargs -> res TensorFlow2Estimator.
Variable SparkTFEstimator_init :
  SparkTFEstimator_kwargs -> res SparkTFEstimator.

(** What [from_keras] can return. *)
Inductive estimator : Type :=
| IsTensorFlow2Estimator (e : TensorFlow2Estimator)
| IsSparkTFEstimator (e : SparkTFEstimator).

Definition from_keras (model_creator : Creator) (config : option Config)
    (verbose : bool) (workers_per_node : Z)
    (compile_args_creator : option Creator) (backend : string)
    (cpu_binding : bool) : res estimator :=
  if bool_decide (backend ∈ ["tf2"; "horovod"]) then
    res_map IsTensorFlow2Estimator
      (TensorFlow2Estimator_init
         {| tf2_model_creator := model_creator; tf2_config := config;
            tf2_verbose := verbose; tf2_workers_per_node := workers_per_node;
            tf2_backend := backend;
            tf2_compile_args_creator := compile_args_creator;
            tf2_cpu_binding := cpu_binding |})
  else if String.eqb backend "spark" then
    res_map IsSparkTFEstimator
      (SparkTFEstimator_init
         {| spark_model_creator := model_creator; spark_config := config;
            spark_verbose := verbose;
            spark_compile_args_creator := compile_args_creator;
            spark_workers_per_node := workers_per_node |})
  else
    inl (ValueError ("Only horovod, tf2 and spark backends are supported"
                       +:+ " for now, got backend: " +:+ backend)).

(** The defaults of the signature: [config=None], [verbose=False],
    [workers_per_node=1], [compile_args_creator=None], [backend="tf2"],
    [cpu_binding=False]. *)
Definition from_keras_default (model_creator : Creator) : res estimator :=
  from_keras model_creator None false 1 None "tf2" false.
End Estimator.
End Estimator.

(** ** The Sample of the dataset readers *)

(** Modelled from the spec: the class [Sample] of [util/common.py] is not
    among the sources; the glossary describes it as a single
    (features, label) pair, and [Sample.from_ndarray(features, label)] builds
    it from the two. *)
Record Sample (ndarray : Type) : Type := from_ndarray {
  features : ndarray;
  label : Z
}.
Arguments from_ndarray {ndarray} _ _.
Arguments features {ndarray} _.
Arguments label {ndarray} _.

(** ** pyspark: reading an image folder (imagenet.py) *)

Module imagenet.

(** [os.path.join] of posixpath, for two components. *)
Definition join (a b : string) : string :=
  if String.prefix "/" b then b
  else if String.eqb a "" then a +:+ b
  else if String.eqb (String.substring (String.length a - 1) 1 a) "/"
       then a +:+ b
  else a +:+ "/" +:+ b.

(** [l.index(x)]: the position of the first element equal to [x]. *)
Fixpoint index (l : list string) (x : string) : res nat :=
  match l with
  | [] => inl (ValueError (x +:+ " is not in list"))
  | y :: l' => if String.eqb y x then inr O else res_map S (index l' x)
  end.

(** The order of [list.sort()] on [str]. *)
Definition str_le (a b : string) : Prop := String.leb a b = true.

#[local] Instance str_le_dec a b : Decision (str_le a b).
Proof. unfold str_le. apply _. Defined.

Definition sort (l : list string) : list string := merge_sort str_le l.

Section read_local.
(** numpy arrays and the image operations of OpenCV and numpy. *)
Variable ndarray : Type.
Variable listdir : string -> res (list string).
Variable imread : string -> Z -> ndarray.
Variable cv2_resize : ndarray -> Z -> Z -> ndarray.
Variable ndarray_and : ndarray -> Z -> ndarray.
Variable ndarray_div : ndarray -> float -> ndarray.

Definition resize_image (img : ndarray) (resize_width resize_height : Z)
  : ndarray :=
  cv2_resize img resize_width resize_height.

(** The inner loop: [for f in listdir(join(folder, d)):
    images.append((join(join(folder, d), f), dirs.index(d)+1))]. *)
Definition append_image (folder : string) (dirs : list string) (d : string)
    (images : list (string * Z)) (f : string) : res (list (string * Z)) :=
  res_bind (index dirs d) (fun i =>
  inr (images ++ [(join (join folder d) f, Z.of_nat i + 1)])).

(** The outer loop: [for d in dirs: ...]. *)
Definition append_directory (folder : string) (dirs : list string)
    (images : list (string * Z)) (d : string) : res (list (string * Z)) :=
  res_bind (listdir (join folder d)) (fun files =>
  res_fold (append_image folder dirs d) files images).

(** Lines 36 to 42: the image list before it is handed to Spark. *)
Definition read_local_images (folder : string) : res (list (string * Z)) :=
  res_bind (listdir folder) (fun dirs =>
  let dirs := sort dirs in
  res_fold (append_directory folder dirs) dirs []).

(** The four [map]s of lines 45 to 51, composed, on one element. *)
Definition to_sample (normalize : float) (image : string * Z)
  : Sample ndarray :=
  let '(path, label) := image in
  let '(img, label) := (imread path 1, label) in
  let '(features, label) := (resize_image img 256 256, label) in
  let '(features, label) :=
    (ndarray_div (ndarray_and features 255) normalize, label) in
  from_ndarray features label.

(** [read_local(sc, folder, normalize)]; the RDD is the list of its
    elements. *)
Definition read_local (folder : string) (normalize : float)
  : res (list (Sample ndarray)) :=
  res_map (map (to_sample normalize)) (read_local_images folder).
End read_local.
End imagenet.

(** ** pyspark: the mnist reader (dl_classifier_lenet.py) *)

Module dl_classifier_lenet.
Section get_mnist.
Variable ndarray : Type.
(** [mnist.read_data_sets(location, data_type)]: the images and their
    labels, the labels being the digits as integers. *)
Variable read_data_sets : string -> string -> res (list ndarray * list Z).

(** [a.zip(b)] of two RDDs: Spark refuses RDDs of different sizes. *)
Definition rdd_zip {A B : Type} (a : list A) (b : list B) : res (list (A * B)) :=
  if Nat.eqb (length a) (length b) then inr (combine a b)
  else inl (Raised "Can only zip RDDs with same number of elements in each partition").

Definition get_mnist (data_type location : string)
  : res (list (Sample ndarray)) :=
  res_bind (read_data_sets location data_type) (fun '(images, labels) =>
  res_bind (rdd_zip images labels) (fun zipped =>
  inr (map (fun features_label : ndarray * Z =>
              from_ndarray (fst features_label) (snd features_label + 1))
         zipped))).

(** The defaults of the signature. *)
Definition get_mnist_default : res (list (Sample ndarray)) :=
  get_mnist "train" "/tmp/mnist".
End get_mnist.
End dl_classifier_lenet.

(** ** The monad of code with side effects

    A computation over a state [S] that returns a value or raises; the state
    reached is kept in both cases, as Python keeps what was mutated before an
    exception. *)

Definition SE (S A : Type) : Type := S -> res A * S.

Definition ret {S A : Type} (a : A) : SE S A := fun s => (inr a, s).

Definition raise {S A : Type} (e : exn) : SE S A := fun s => (inl e, s).

Definition bind {S A B : Type} (m : SE S A) (k : A -> SE S B) : SE S B :=
  fun s =>
    match m s with
    | (inl e, s') => (inl e, s')
    | (inr a, s') => k a s'
    end.

(** [try: r = m() except Exception as e: ...]: the outcome of [m] as a
    value, for the handler that follows. *)
Definition attempt {S A : Type} (m : SE S A) : SE S (res A) :=
  fun s => let '(r, s') := m s in (inr r, s').

Declare Scope se_scope.
Delimit Scope se_scope with se.
Notation "'let*' x ':=' m 'in' k" := (bind m (fun x => k))
  (at level 10, x pattern, m at level 100, k at level 200) : se_scope.
Notation "m '>>' k" := (bind m (fun _ => k))
  (at level 100, k at level 200, right associativity) : se_scope.

(** [for x in l: acc = body(acc, x)] with side effects. *)
Fixpoint se_fold {S A B : Type} (body : B -> A -> SE S B) (l : list A) (acc : B)
  : SE S B :=
  match l with
  | [] => ret acc
  | x :: l' => bind (body acc x) (se_fold body l')
  end.

(** Modelled from the spec: the helper [invalidInputError(condition, errMsg)]
    of [bigdl/nano/utils/log4Error.py] is not among the sources; the claims
    on the argument checks describe it as raising an error with the message
    when the condition is false, and the source calls it with [False] where
    it means to raise. *)
Definition invalidInputError {S : Type} (condition : bool) (errMsg : string)
  : SE S unit :=
  if condition then ret tt else raise (InvalidInputError errMsg).

(** ** nano: the inference optimizer (optimizer.py) *)

Module InferenceOptimizer.

(** An acceleration option, as the registration table builds it: the
    keyword flags given to the constructor, [False] when not given, and
    [method], [None] when not given. *)
Record TFAccelerationOption : Type := {
  inc : bool;
  openvino : bool;
  pot : bool;
  onnxruntime : bool;
  method : option string
}.

(** [TFAccelerationOption()] *)
Definition no_flag : TFAccelerationOption :=
  {| inc := false; openvino := false; pot := false; onnxruntime := false;
     method := None |}.

(** Lines 70 to 81, in the order of registration. *)
Definition ALL_INFERENCE_ACCELERATION_METHOD : PyDict.t TFAccelerationOption :=
  [ ("original", no_flag);
    ("int8",
      {| inc := true; openvino := false; pot := false; onnxruntime := false;
         method := None |});
    ("openvino_fp32",
      {| inc := false; openvino := true; pot := false; onnxruntime := false;
         method := None |});
    ("openvino_int8",
      {| inc := false; openvino := true; pot := true; onnxruntime := false;
         method := None |});
    ("onnxruntime_fp32",
      {| inc := false; openvino := false; pot := false; onnxruntime := true;
         method := None |});
    ("onnxruntime_int8_qlinear",
      {| inc := true; openvino := false; pot := false; onnxruntime := true;
         method := Some "qlinear" |});
    ("onnxruntime_int8_integer",
      {| inc := true; openvino := false; pot := false; onnxruntime := true;
         method := Some "integer" |}) ].

(** [onnxruntime.SessionOptions()] and the two attributes [trace] sets;
    [None] is the library's own default. *)
Record SessionOptions : Type := {
  intra_op_num_threads : option Z;
  inter_op_num_threads : option Z
}.

(** [str(o)] of an optional string, as [format] shows it. *)
Definition str_of_optional (o : option string) : string :=
  match o with
  | Some s => s
  | None => "None"
  end.

(** [d.get(k, None)] for a dictionary whose keys are optional strings. *)
Fixpoint get_or_None {V : Type} (d : list (option string * V))
    (k : option string) : option V :=
  match d with
  | [] => None
  | (k', v) :: d' => if bool_decide (k' = k) then Some v else get_or_None d' k
  end.

(** [o == s] for an optional string [o]. *)
Definition is_str (o : option string) (s : string) : bool :=
  match o with
  | Some s' => String.eqb s' s
  | None => false
  end.

(** The values kept in an entry of the result map. *)
Inductive pyval (obj : Type) : Type :=
| PyNone
| PyStr (s : string)
| PyFloat (v : float)
| PyObj (o : obj).
Arguments PyNone {obj}.
Arguments PyStr {obj} _.
Arguments PyFloat {obj} _.
Arguments PyObj {obj} _.

(** What [inc_quantize] is given as its [dataloader]. *)
Inductive dataloader (obj : Type) : Type :=
| calib_dataset (d : obj)
| x_y (x : obj) (y : option obj).
Arguments calib_dataset {obj} _.
Arguments x_y {obj} _ _.

(** The keyword arguments of [inc_quantize] that [quantize] chooses; the
    others ([metric], [conf], [tuning_strategy], [accuracy_criterion],
    [timeout], [max_trials], [inputs], [outputs],
    [onnxruntime_session_options]) are [None] on every call made here. *)
Record inc_quantize_kwargs (obj : Type) : Type := {
  inc_dataloader : dataloader obj;
  inc_framework : option string;
  inc_approach : string;
  inc_onnx_option : option string
}.
Arguments inc_dataloader {obj} _.
Arguments inc_framework {obj} _.
Arguments inc_approach {obj} _.
Arguments inc_onnx_option {obj} _.

(** The keyword arguments of [openvino_model.pot] that [quantize] chooses;
    [metric], [higher_better], [drop_type], [maximal_drop], [max_iter_num]
    and [config] are [None] on every call made here. *)
Record pot_kwargs (obj : Type) : Type := {
  pot_x : obj;
  pot_y : option obj;
  pot_sample_size : Z;
  pot_thread_num : option Z
}.
Arguments pot_x {obj} _.
Arguments pot_y {obj} _.
Arguments pot_sample_size {obj} _.
Arguments pot_thread_num {obj} _.

(** *** What the optimizer calls outside of its file

    [obj] are the Python objects handed around (models, tensors, datasets,
    metrics), [world] is the state of everything the calls can read or
    change: the frameworks, the clock, the process environment. *)
Set Implicit Arguments.
Record External (obj world : Type) : Type := {
  py_None : obj;
  (* bigdl.nano.utils.inference.common.utils.AccelerationOption *)
  get_precision : TFAccelerationOption -> string;
  get_accelerator : TFAccelerationOption -> option string;
  (* bigdl.nano.utils.inference.common.checker *)
  available_acceleration_combination :
    option (list string) -> option (list string) ->
    PyDict.t TFAccelerationOption -> PyDict.t bool;
  (* isinstance(o, C) *)
  isinstance_Model : obj -> bool;
  isinstance_NanoModel : obj -> bool;
  isinstance_Dataset : obj -> bool;
  isinstance_Tensor : obj -> bool;
  isinstance_KerasOpenVINOModel : obj -> bool;
  isinstance_KerasONNXRuntimeModel : obj -> bool;
  (* a list or a tuple, with its elements *)
  as_sequence : obj -> option (list obj);
  (* NanoModel(inputs=model.inputs, outputs=model.outputs) *)
  NanoModel_init : obj -> SE world obj;
  (* d.batch(n) *)
  Dataset_batch : obj -> Z -> SE world obj;
  (* next(iter(d)) *)
  next_iter : obj -> SE world obj;
  (* o[:-1] *)
  but_last : obj -> SE world obj;
  (* tf.convert_to_tensor(x[:n]) *)
  convert_to_tensor_head : obj -> Z -> SE world obj;
  (* the elements of [o] for a call [f( *o )] *)
  unpack : obj -> SE world (list obj);
  (* model(arg_1, ..., arg_n) *)
  call : obj -> list obj -> SE world obj;
  (* time.perf_counter() *)
  perf_counter : SE world float;
  (* os.getenv(name) *)
  getenv : string -> SE world (option string);
  (* int(s) *)
  int_of_str : string -> res Z;
  (* KerasOpenVINOModel(model, thread_num=, config=, logging=) *)
  KerasOpenVINOModel_init :
    obj -> option Z -> PyDict.t string -> bool -> SE world obj;
  (* import onnxruntime *)
  import_onnxruntime : SE world unit;
  (* KerasONNXRuntimeModel(model, input_spec, onnxruntime_session_options) *)
  KerasONNXRuntimeModel_init :
    obj -> option obj -> SessionOptions -> SE world obj;
  (* inc_quantzie(model, dataloader=, framework=, ...) *)
  inc_quantzie : obj -> inc_quantize_kwargs obj -> SE world obj;
  (* openvino_model.pot(x=, y=, sample_size=, thread_num=, ...) *)
  KerasOpenVINOModel_pot : obj -> pot_kwargs obj -> SE world obj;
  (* tf.data.Dataset.from_tensor_slices((x, y)) *)
  from_tensor_slices : obj -> option obj -> SE world obj;
  (* throughput_calculate_helper(iterrun, baseline_time, func, model, sample) *)
  throughput_calculate_helper :
    Z -> float -> (obj -> obj -> SE world unit) -> obj -> obj ->
    SE world (float * bool);
  (* the (data_input, target) pairs that iterating [data] yields *)
  iterate : obj -> SE world (list (obj * obj));
  (* metric.update_state(y_true=, y_pred=) *)
  update_state : obj -> obj -> obj -> SE world unit;
  (* metric.result().numpy() *)
  result_numpy : obj -> SE world float;
  (* format_optimize_result(optimized_model_dict, calculate_accuracy) *)
  format_optimize_result : PyDict.t (PyDict.t (pyval obj)) -> bool -> string;
  (* f"{t:.1f}" *)
  format_1f : float -> string
}.
Unset Implicit Arguments.

Section conversions.
Context {obj world : Type} (ext : External obj world).
Open Scope se_scope.

(** Python passes [None] where an object is optional. *)
Definition or_None (o : option obj) : obj :=
  match o with
  | Some v => v
  | None => py_None ext
  end.

(** Lines 279 to 324. *)
Definition trace (model : obj) (accelerator : option string)
    (input_spec : option obj) (thread_num : option Z)
    (onnxruntime_session_options : option SessionOptions)
    (openvino_config : option (PyDict.t string)) (logging : bool)
  : SE world obj :=
  if is_str accelerator "openvino" then
    let final_openvino_option := [("INFERENCE_PRECISION_HINT", "f32")] in
    let final_openvino_option :=
      match openvino_config with
      | Some config => PyDict.update_from config final_openvino_option
      | None => final_openvino_option
      end in
    KerasOpenVINOModel_init ext model thread_num final_openvino_option logging
  else if is_str accelerator "onnxruntime" then
    let* onnxruntime_session_options :=
      match onnxruntime_session_options with
      | None =>
          import_onnxruntime ext >>
          let onnxruntime_session_options :=
            {| intra_op_num_threads := None; inter_op_num_threads := None |} in
          match thread_num with
          | Some n =>
              ret {| intra_op_num_threads := Some n;
                     inter_op_num_threads := Some n |}
          | None => ret onnxruntime_session_options
          end
      | Some options => ret options
      end in
    KerasONNXRuntimeModel_init ext model input_spec onnxruntime_session_options
  else
    invalidInputError false
      ("Accelerator " +:+ str_of_optional accelerator +:+ " is invalid.") >>
    ret (py_None ext).

(** The text of lines 142-143 and 421-422: the backslash joins the two
    source lines inside the string literal, indentation included. *)
Definition y_omitted_message : string :=
  "y can be omitted only when x is a Dataset which returns "
  +:+ "                              tuples of (inputs, targets)".

(** Lines 326 to 500, for the keyword arguments that
    [TFAccelerationOption.optimize] passes.  The arguments it leaves out
    keep the defaults of the signature: [metric=None],
    [accuracy_criterion=None], [approach='static'], [conf=None],
    [tuning_strategy=None], [timeout=None], [max_trials=None],
    [batch=None], [inputs=None], [outputs=None],
    [onnxruntime_session_options=None], [openvino_config=None]; with
    [batch=None] the calibration dataset is not batched, with [metric=None]
    the accuracy criterion of [pot] is [None] three times.  The two imports
    inside the function (lines 442 and 471) are taken to succeed. *)
Definition quantize (model : obj) (x : obj) (y : option obj)
    (precision : string) (accelerator : option string)
    (method : option string) (thread_num : option Z) (sample_size : Z)
    (logging : bool) : SE world obj :=
  let approach := "static" in
  let openvino_config : option (PyDict.t string) := None in
  invalidInputError (String.eqb approach "static")
    "Only 'static' approach is supported now." >>
  invalidInputError (bool_decide (y <> None) || isinstance_Dataset ext x)
    y_omitted_message >>
  match accelerator with
  | None =>
      let* calib :=
        if isinstance_Dataset ext x then ret x
        else from_tensor_slices ext x y in
      inc_quantzie ext model
        {| inc_dataloader := calib_dataset calib;
           inc_framework := Some "tensorflow";
           inc_approach := approach;
           inc_onnx_option := None |}
  | Some accelerator' =>
      if String.eqb accelerator' "openvino" then
        let* openvino_model :=
          if isinstance_KerasOpenVINOModel ext model then ret model
          else trace model (Some "openvino") None thread_num None
                 openvino_config logging in
        KerasOpenVINOModel_pot ext openvino_model
          {| pot_x := x; pot_y := y; pot_sample_size := sample_size;
             pot_thread_num := thread_num |}
      else if String.eqb accelerator' "onnxruntime" then
        let* onnx_model :=
          if isinstance_KerasONNXRuntimeModel ext model then ret model
          else trace model (Some "onnxruntime") None thread_num None None
                 true in
        let method_map : list (option string * string) :=
          [ (Some "qlinear", "onnxrt_qlinearops");
            (Some "integer", "onnxrt_integerops");
            (None, "onnxrt_qlinearops") ] in
        let framework := get_or_None method_map method in
        inc_quantzie ext onnx_model
          {| inc_dataloader := x_y x y;
             inc_framework := framework;
             inc_approach := approach;
             inc_onnx_option := Some "tensorflow" |}
      else
        invalidInputError false
          ("Accelerator " +:+ str_of_optional accelerator +:+ " is invalid.") >>
        ret (py_None ext)
  end.

(** Lines 36 to 63: [TFAccelerationOption.optimize]. *)
Definition TFAccelerationOption_optimize (self : TFAccelerationOption)
    (model : obj) (x : obj) (y : option obj) (thread_num : option Z)
    (logging : bool) (sample_size_for_pot : Z) : SE world obj :=
  let accelerator := get_accelerator ext self in
  if String.eqb (get_precision ext self) "fp32" then
    match accelerator with
    | None => ret model
    | Some _ => trace model accelerator None thread_num None None logging
    end
  else
    let ort_method := method self in
    quantize model x y (get_precision ext self) accelerator ort_method
      thread_num sample_size_for_pot logging.

(** Lines 503 to 509.  The dataset is taken to be finite: [iterate] gives
    all its pairs. *)
Definition _accuracy_calculate_helper (model metric data : obj)
  : SE world float :=
  let* pairs := iterate ext data in
  se_fold (fun (_ : unit) '(data_input, target) =>
             let* y_pred := call ext model [data_input] in
             update_state ext metric target y_pred)
          pairs tt >>
  result_numpy ext metric.

(** Lines 226-227: [func_test], the closure timed by the helper. *)
Definition func_test (model sample : obj) : SE world unit :=
  call ext model [sample] >> ret tt.
End conversions.

(** *** The receiver and the loop *)

(** The calls the enumeration makes, in the order it makes them.  The
    record is kept for the statements below; no definition reads it. *)
Inductive called (obj : Type) : Type :=
| called_option_optimize (method : string) (sample_size_for_pot : Z)
| called_throughput_calculate_helper (method : string)
    (latency_sample_num : Z) (baseline_time : float)
    (acce_model input_sample : obj)
| called_accuracy_calculate_helper (method : string) (acce_model : obj).
Arguments called_option_optimize {obj} _ _.
Arguments called_throughput_calculate_helper {obj} _ _ _ _ _.
Arguments called_accuracy_calculate_helper {obj} _ _.

Set Implicit Arguments.
(** The state [optimize] acts on: the world outside, what was printed, and
    the attributes of [self] ([None]: not set yet). *)
Record state (obj world : Type) : Type := {
  env : world;
  stdout : list string;
  calls : list (called obj);
  _direction : option string;
  _calculate_accuracy : option bool;
  optimized_model_dict : option (PyDict.t (PyDict.t (pyval obj)));
  _optimize_result : option string
}.

(** The arguments of [optimize]. *)
Record arguments (obj : Type) : Type := {
  model : obj;
  x : obj;
  y : option obj;
  validation_data : option obj;
  batch_size : Z;
  metric : option obj;
  direction : string;
  thread_num : option Z;
  logging : bool;
  latency_sample_num : Z;
  includes : option (list string);
  excludes : option (list string)
}.
Unset Implicit Arguments.

(** The defaults of the signature, lines 83 to 94. *)
Definition defaults {obj : Type} (model x : obj) : arguments obj :=
  {| model := model; x := x; y := None; validation_data := None;
     batch_size := 1; metric := None; direction := "max"; thread_num := None;
     logging := false; latency_sample_num := 100; includes := None;
     excludes := None |}.

Section optimize.
Context {obj world : Type} (ext : External obj world).
Open Scope se_scope.

Abbreviation state := (state obj world).
Abbreviation result_map_t := (PyDict.t (PyDict.t (pyval obj))).

Definition with_env (w : world) (st : state) : state :=
  {| env := w; stdout := stdout st; calls := calls st;
     _direction := _direction st;
     _calculate_accuracy := _calculate_accuracy st;
     optimized_model_dict := optimized_model_dict st;
     _optimize_result := _optimize_result st |}.

(** A call outside, run on the world of the state. *)
Definition outside {A : Type} (m : SE world A) : SE state A :=
  fun st => let '(r, w) := m (env st) in (r, with_env w st).

Definition printed (line : string) (st : state) : state :=
  {| env := env st; stdout := stdout st ++ [line]; calls := calls st;
     _direction := _direction st;
     _calculate_accuracy := _calculate_accuracy st;
     optimized_model_dict := optimized_model_dict st;
     _optimize_result := _optimize_result st |}.

Definition recorded (c : called obj) (st : state) : state :=
  {| env := env st; stdout := stdout st; calls := calls st ++ [c];
     _direction := _direction st;
     _calculate_accuracy := _calculate_accuracy st;
     optimized_model_dict := optimized_model_dict st;
     _optimize_result := _optimize_result st |}.

Definition with_direction (v : string) (st : state) : state :=
  {| env := env st; stdout := stdout st; calls := calls st;
     _direction := Some v;
     _calculate_accuracy := _calculate_accuracy st;
     optimized_model_dict := optimized_model_dict st;
     _optimize_result := _optimize_result st |}.

Definition with_calculate_accuracy (v : bool) (st : state) : state :=
  {| env := env st; stdout := stdout st; calls := calls st;
     _direction := _direction st;
     _calculate_accuracy := Some v;
     optimized_model_dict := optimized_model_dict st;
     _optimize_result := _optimize_result st |}.

Definition with_optimized_model_dict (v : result_map_t) (st : state) : state :=
  {| env := env st; stdout := stdout st; calls := calls st;
     _direction := _direction st;
     _calculate_accuracy := _calculate_accuracy st;
     optimized_model_dict := Some v;
     _optimize_result := _optimize_result st |}.

Definition with_optimize_result (v : string) (st : state) : state :=
  {| env := env st; stdout := stdout st; calls := calls st;
     _direction := _direction st;
     _calculate_accuracy := _calculate_accuracy st;
     optimized_model_dict := optimized_model_dict st;
     _optimize_result := Some v |}.

(** [print(line)] *)
Definition print (line : string) : SE state unit :=
  fun st => (inr tt, printed line st).

Definition record (c : called obj) : SE state unit :=
  fun st => (inr tt, recorded c st).

(** [self._direction = v] *)
Definition set_direction (v : string) : SE state unit :=
  fun st => (inr tt, with_direction v st).

(** [self._calculate_accuracy = v] *)
Definition set_calculate_accuracy (v : bool) : SE state unit :=
  fun st => (inr tt, with_calculate_accuracy v st).

(** [self._calculate_accuracy] *)
Definition get_calculate_accuracy : SE state bool :=
  fun st =>
    match _calculate_accuracy st with
    | Some v => (inr v, st)
    | None => (inl (AttributeError "_calculate_accuracy"), st)
    end.

(** [self.optimized_model_dict = v] *)
Definition set_optimized_model_dict (v : result_map_t) : SE state unit :=
  fun st => (inr tt, with_optimized_model_dict v st).

(** [self._optimize_result] *)
Definition get_optimize_result : SE state string :=
  fun st =>
    match _optimize_result st with
    | Some v => (inr v, st)
    | None => (inl (AttributeError "_optimize_result"), st)
    end.

(** [self._optimize_result = v] *)
Definition set_optimize_result (v : string) : SE state unit :=
  fun st => (inr tt, with_optimize_result v st).

(** [d[k]], raising [KeyError] on a key that is absent. *)
Definition getitem {V : Type} (d : PyDict.t V) (k : string) : SE state V :=
  match PyDict.get d k with
  | Some v => ret v
  | None => raise (KeyError k)
  end.

(** [result_map[method][key] = v]: the inner dictionary is looked up and
    assigned to in place. *)
Definition setitem2 (result_map : result_map_t) (method key : string)
    (v : pyval obj) : SE state result_map_t :=
  let* entry := getitem result_map method in
  ret (PyDict.set method (PyDict.set key v entry) result_map).

(** What the loop reads from the enclosing function. *)
Record locals : Type := {
  l_model : obj;
  l_input_sample : obj;
  l_thread_num : option Z;
  l_baseline_time : float;
  l_sample_size_for_pot : Z;
  l_batched_validation_data : option obj;
  l_len_available_dict : nat
}.

(** [batched_validation_data], bound only when line 162 was run. *)
Definition get_batched_validation_data (l : locals) : SE state obj :=
  match l_batched_validation_data l with
  | Some d => ret d
  | None => raise (UnboundLocalError "batched_validation_data")
  end.

Definition progress (idx : nat) (l : locals) : string :=
  "(" +:+ pretty (S idx) +:+ "/" +:+ pretty (l_len_available_dict l) +:+ ")".

(** Lines 241 to 265: the accuracy, the model, the closing message. *)
Definition record_accuracy_and_model (a : arguments obj) (l : locals)
    (idx : nat) (method precision : string) (acce_model : obj)
    (result_map : result_map_t) : SE state result_map_t :=
  let* calculate_accuracy := get_calculate_accuracy in
  let* result_map :=
    if calculate_accuracy then
      if String.eqb precision "fp32" && negb (String.eqb method "original")
      then setitem2 result_map method "accuracy" (PyStr "not recomputed")
      else
        if String.eqb method "original" then
          let* batched_validation_data := get_batched_validation_data l in
          record (called_accuracy_calculate_helper method acce_model) >>
          let* r := attempt (outside (_accuracy_calculate_helper ext
                      acce_model (or_None ext (metric a))
                      batched_validation_data)) in
          match r with
          | inr v => setitem2 result_map method "accuracy" (PyFloat v)
          | inl e =>
              print (exn_str e) >>
              set_calculate_accuracy false >>
              ret result_map
          end
        else
          let* batched_validation_data := get_batched_validation_data l in
          record (called_accuracy_calculate_helper method acce_model) >>
          let* v := outside (_accuracy_calculate_helper ext
                      acce_model (or_None ext (metric a))
                      batched_validation_data) in
          setitem2 result_map method "accuracy" (PyFloat v)
    else setitem2 result_map method "accuracy" PyNone in
  let* result_map := setitem2 result_map method "model" (PyObj acce_model) in
  print ("----------Finish test " +:+ method +:+ " model "
           +:+ progress idx l +:+ "----------") >>
  ret result_map.

(** Lines 226 to 239, then the rest of the body: the latency. *)
Definition measure_latency (a : arguments obj) (l : locals) (idx : nat)
    (method precision : string) (acce_model : obj)
    (result_map : result_map_t) : SE state result_map_t :=
  record (called_throughput_calculate_helper method (latency_sample_num a)
            (l_baseline_time l) acce_model (l_input_sample l)) >>
  let* r := attempt (outside (throughput_calculate_helper ext
              (latency_sample_num a) (l_baseline_time l) (func_test ext)
              acce_model (l_input_sample l))) in
  match r with
  | inr (latency, status) =>
      let* result_map :=
        setitem2 result_map method "latency" (PyFloat latency) in
      if negb status && negb (String.eqb method "original") then
        setitem2 result_map method "status" (PyStr "early stopped")
      else
        record_accuracy_and_model a l idx method precision acce_model
          result_map
  | inl e =>
      print (exn_str e) >>
      let* result_map :=
        setitem2 result_map method "status" (PyStr "fail to forward") in
      print ("----------" +:+ method +:+ " failed to forward----------") >>
      ret result_map
  end.

(** Lines 203 to 265: the body of the loop for one item of
    [available_dict]; a [continue] ends the body with the map as it is. *)
Definition try_method (a : arguments obj) (l : locals) (idx : nat)
    (result_map : result_map_t) (item : string * bool)
  : SE state result_map_t :=
  let '(method, available) := item in
  let result_map := PyDict.set method [] result_map in
  if negb available then
    setitem2 result_map method "status" (PyStr "lack dependency")
  else
    print ("----------Start test " +:+ method +:+ " model "
             +:+ progress idx l +:+ "----------") >>
    let* option := getitem ALL_INFERENCE_ACCELERATION_METHOD method in
    let precision := get_precision ext option in
    record (called_option_optimize method (l_sample_size_for_pot l)) >>
    let* r := attempt (outside (TFAccelerationOption_optimize ext option
                (l_model l) (x a) (y a) (l_thread_num l) (logging a)
                (l_sample_size_for_pot l))) in
    match r with
    | inl e =>
        print (exn_str e) >>
        let* result_map :=
          setitem2 result_map method "status" (PyStr "fail to convert") in
        print ("----------Failed to convert to " +:+ method +:+ "----------") >>
        ret result_map
    | inr acce_model =>
        let* result_map :=
          setitem2 result_map method "status" (PyStr "successful") in
        measure_latency a l idx method precision acce_model result_map
    end.

(** Line 202: [for idx, (method, available) in
    enumerate(available_dict.items())]. *)
Fixpoint enumerate_methods (a : arguments obj) (l : locals) (idx : nat)
    (items : list (string * bool)) (result_map : result_map_t)
  : SE state result_map_t :=
  match items with
  | [] => ret result_map
  | item :: items' =>
      let* result_map := try_method a l idx result_map item in
      enumerate_methods a l (S idx) items' result_map
  end.

(** Lines 174 to 183: the input sample. *)
Definition make_input_sample (a : arguments obj) : SE world obj :=
  let* input_sample :=
    if isinstance_Dataset ext (x a) then
      let* batched_training_dataset := Dataset_batch ext (x a) (batch_size a) in
      let* input_sample := next_iter ext batched_training_dataset in
      but_last ext input_sample
    else
      convert_to_tensor_head ext (x a) (batch_size a) in
  match as_sequence ext input_sample with
  | Some [input_sample_0] => ret input_sample_0
  | _ => ret input_sample
  end.

(** Lines 186 to 190: one forward pass of the model on the sample. *)
Definition forward (model input_sample : obj) : SE world obj :=
  if isinstance_Tensor ext input_sample then
    call ext model [input_sample]
  else
    let* inputs := unpack ext input_sample in
    call ext model inputs.

(** Lines 195 to 198. *)
#[warnings="-inexact-float"] Definition choose_sample_size_for_pot (baseline_time : float) : Z :=
  if PrimFloat.ltb 0.1%float baseline_time then 15 else 100.

(** Lines 137 to 143: the checks on the arguments. *)
Definition check_arguments (a : arguments obj) : SE state unit :=
  invalidInputError (isinstance_Model ext (model a))
    "model should be a Keras Model." >>
  invalidInputError (bool_decide (direction a ∈ ["min"; "max"]))
    "Only support direction 'min', 'max'." >>
  invalidInputError
    (bool_decide (y a <> None) || isinstance_Dataset ext (x a))
    y_omitted_message.

(** What lines 145 to 183 leave to the rest of the function. *)
Record prepared : Type := {
  p_model : obj;
  p_available_dict : PyDict.t bool;
  p_batched_validation_data : option obj;
  p_thread_num : option Z;
  p_input_sample : obj
}.

(** Lines 145 to 183: the model, the methods, the attributes, the
    threads, the input sample. *)
Definition prepare (a : arguments obj) : SE state prepared :=
  let* model :=
    if negb (isinstance_NanoModel ext (model a)) then
      outside (NanoModel_init ext (model a))
    else ret (model a) in
  let available_dict :=
    available_acceleration_combination ext (excludes a) (includes a)
      ALL_INFERENCE_ACCELERATION_METHOD in
  set_direction (direction a) >>
  let* batched_validation_data :=
    match validation_data a, metric a with
    | Some validation_data, Some _ =>
        let* batched_validation_data :=
          outside (Dataset_batch ext validation_data (batch_size a)) in
        set_calculate_accuracy true >>
        ret (Some batched_validation_data)
    | _, _ =>
        set_calculate_accuracy false >>
        ret None
    end in
  let* OMP_NUM_THREADS := outside (getenv ext "OMP_NUM_THREADS") in
  let* default_threads :=
    match OMP_NUM_THREADS with
    | Some _ =>
        let* OMP_NUM_THREADS := outside (getenv ext "OMP_NUM_THREADS") in
        match OMP_NUM_THREADS with
        | Some s =>
            match int_of_str ext s with
            | inr n => ret (Some n)
            | inl e => raise e
            end
        | None => raise (TypeError "int() argument must be a string")
        end
    | None => ret None
    end in
  let thread_num :=
    match thread_num a with
    | None => default_threads
    | Some n => Some n
    end in
  let* input_sample := outside (make_input_sample a) in
  ret {| p_model := model; p_available_dict := available_dict;
         p_batched_validation_data := batched_validation_data;
         p_thread_num := thread_num; p_input_sample := input_sample |}.

(** Lines 185 to 198: the time of one forward pass of the model, and the
    sample size chosen from it. *)
Definition measure_baseline (model input_sample : obj)
  : SE state (float * Z) :=
  let* st := outside (perf_counter ext) in
  let* r := attempt (outside (forward model input_sample)) in
  match r with
  | inr _ => ret tt
  | inl _ => invalidInputError false "x is incompatible with your model input."
  end >>
  let* now := outside (perf_counter ext) in
  let baseline_time := PrimFloat.sub now st in
  let sample_size_for_pot := choose_sample_size_for_pot baseline_time in
  ret (baseline_time, sample_size_for_pot).

Definition locals_of (p : prepared) (baseline : float * Z) : locals :=
  {| l_model := p_model p; l_input_sample := p_input_sample p;
     l_thread_num := p_thread_num p; l_baseline_time := fst baseline;
     l_sample_size_for_pot := snd baseline;
     l_batched_validation_data := p_batched_validation_data p;
     l_len_available_dict := length (p_available_dict p) |}.

(** Lines 267 to 277: the result is kept and reported.
    [format_optimize_result] and the formatting of the time are taken to
    return. *)
Definition report (result_map : result_map_t) (start_time : float)
  : SE state unit :=
  set_optimized_model_dict result_map >>
  print (String "010"%char (String "010"%char
    "==========================Optimization Results==========================")) >>
  let* calculate_accuracy := get_calculate_accuracy in
  set_optimize_result
    (format_optimize_result ext result_map calculate_accuracy) >>
  let* now := outside (perf_counter ext) in
  let time_cost := PrimFloat.sub now start_time in
  let time_cost_str :=
    "Optimization cost " +:+ format_1f ext time_cost +:+ "s in total." in
  let* _optimize_result := get_optimize_result in
  set_optimize_result (_optimize_result +:+ time_cost_str) >>
  let* _optimize_result := get_optimize_result in
  print _optimize_result >>
  print "===========================Stop Optimization===========================".

(** Lines 83 to 277: [InferenceOptimizer.optimize]. *)
Definition optimize (a : arguments obj) : SE state unit :=
  check_arguments a >>
  let* p := prepare a in
  let result_map : result_map_t := [] in
  let* baseline := measure_baseline (p_model p) (p_input_sample p) in
  print "==========================Start Optimization==========================" >>
  let* start_time := outside (perf_counter ext) in
  let* result_map :=
    enumerate_methods a (locals_of p baseline) 0 (p_available_dict p)
      result_map in
  report result_map start_time.
End optimize.

(** Modelled from the spec: [available_acceleration_combination] of
    [bigdl/nano/utils/inference/common/checker.py] is not among the sources.
    The candidate methods are described as those of the registration table,
    in the order of registration, restricted to the methods selected by
    [includes] and [excludes]; the docstring of [optimize] adds that
    [includes=None] selects every method, that "original" is always added to
    [includes] and ignored in [excludes].  [selected] is that selection. *)
Definition selected (excludes includes : option (list string))
    (full_methods : PyDict.t TFAccelerationOption) (method : string) : Prop :=
  let exclude_set :=
    match excludes with
    | None => []
    | Some l => filter (fun m => m <> "original") l
    end in
  let include_set :=
    match includes with
    | None => PyDict.keys full_methods
    | Some l => "original" :: l
    end in
  method ∈ include_set /\ method ∉ exclude_set.

#[global] Instance selected_dec excludes includes full_methods method :
  Decision (selected excludes includes full_methods method).
Proof. unfold selected. apply _. Defined.

(** Modelled from the spec: the dictionary that
    [available_acceleration_combination] returns, from the same description:
    the selected methods of the table, in its order; the value kept for a
    method says whether the dependencies of its option are met. *)
Definition available_acceleration_combination_of
    (dependency_met : TFAccelerationOption -> bool)
    (excludes includes : option (list string))
    (full_methods : PyDict.t TFAccelerationOption) : PyDict.t bool :=
  map (fun kv : string * TFAccelerationOption => (fst kv, dependency_met (snd kv)))
      (filter (fun kv : string * TFAccelerationOption =>
                 selected excludes includes full_methods (fst kv))
              full_methods).

(** *** A small world to run the optimizer in

    Objects are their names, the world is the clock in seconds.  A scenario
    says how long a forward pass takes and what goes wrong. *)

Record scenario : Type := {
  forward_seconds : float;
  missing_flags : list string;
  broken_accelerators : list string;
  no_forward : list string;
  pruned : list string;
  metric_fails : bool
}.

Definition wrapped (class o : string) : string := class +:+ "(" +:+ o +:+ ")".

Definition tick (seconds : float) : SE float unit :=
  fun clock => (inr tt, PrimFloat.add clock seconds).

Definition flags_of (o : TFAccelerationOption) : list string :=
  (if inc o then ["inc"] else []) ++ (if openvino o then ["openvino"] else [])
  ++ (if pot o then ["pot"] else []) ++ (if onnxruntime o then ["onnxruntime"] else []).

Definition construct (sc : scenario) (class : string) (o : string)
  : SE float string :=
  if bool_decide (class ∈ broken_accelerators sc)
  then raise (Raised (class +:+ " is broken"))
  else ret (wrapped class o).

#[warnings="-inexact-float"] Definition small_world (sc : scenario) : External string float :=
  {| py_None := "None";
     get_precision o := if inc o || pot o then "int8" else "fp32";
     get_accelerator o :=
       if onnxruntime o then Some "onnxruntime"
       else if openvino o then Some "openvino" else None;
     available_acceleration_combination :=
       available_acceleration_combination_of
         (fun o => forallb (fun f => bool_decide (f ∉ missing_flags sc)) (flags_of o));
     isinstance_Model o := negb (String.prefix "not a model" o);
     isinstance_NanoModel o := String.prefix "NanoModel" o;
     isinstance_Dataset o := String.prefix "Dataset" o;
     isinstance_Tensor o := String.prefix "Tensor" o;
     isinstance_KerasOpenVINOModel o := String.prefix "KerasOpenVINOModel" o;
     isinstance_KerasONNXRuntimeModel o := String.prefix "KerasONNXRuntimeModel" o;
     as_sequence o := None;
     NanoModel_init o := ret (wrapped "NanoModel" o);
     Dataset_batch o n := ret (wrapped "Dataset.batch" o);
     next_iter o := ret (wrapped "Tensors" o);
     but_last o := ret (wrapped "Tensor" o);
     convert_to_tensor_head o n := ret (wrapped "Tensor" o);
     unpack o := ret [o];
     call model args :=
       bind (tick (forward_seconds sc)) (fun _ =>
       if bool_decide (Exists (fun c => String.prefix c model = true) (no_forward sc))
       then raise (Raised (model +:+ " cannot run"))
       else ret (wrapped "Tensor" model));
     perf_counter := fun clock => (inr clock, clock);
     getenv name := ret None;
     int_of_str s := inl (ValueError s);
     KerasOpenVINOModel_init o _ _ _ := construct sc "KerasOpenVINOModel" o;
     import_onnxruntime := ret tt;
     KerasONNXRuntimeModel_init o _ _ := construct sc "KerasONNXRuntimeModel" o;
     inc_quantzie o _ := construct sc "Quantized" o;
     KerasOpenVINOModel_pot o _ := construct sc "POT" o;
     from_tensor_slices o _ := ret (wrapped "Dataset" o);
     throughput_calculate_helper iterrun baseline_time func model sample :=
       bind (func model sample) (fun _ =>
       ret (PrimFloat.mul (forward_seconds sc) 1000,
            bool_decide (Forall (fun c => String.prefix c model = false) (pruned sc))));
     iterate data := ret [("Tensor(input)", "Tensor(target)")];
     update_state metric target y_pred :=
       if metric_fails sc then raise (Raised "metric does not fit") else ret tt;
     result_numpy metric := ret 0.9%float;
     format_optimize_result _ _ := "";
     format_1f _ := "0.0" |}.

(** The receiver before [optimize] was ever called. *)
Definition fresh (clock : float) : state string float :=
  {| env := clock; stdout := []; calls := []; _direction := None;
     _calculate_accuracy := None; optimized_model_dict := None;
     _optimize_result := None |}.

#[warnings="-inexact-float"] Definition quiet : scenario :=
  {| forward_seconds := 0.01; missing_flags := []; broken_accelerators := [];
     no_forward := []; pruned := []; metric_fails := false |}.

(** The metric does not fit the model: [update_state] raises. *)
Definition metric_broken : scenario :=
  {| forward_seconds := forward_seconds quiet; missing_flags := [];
     broken_accelerators := []; no_forward := []; pruned := [];
     metric_fails := true |}.

(** ONNX Runtime is not installed. *)
Definition no_onnxruntime : scenario :=
  {| forward_seconds := forward_seconds quiet;
     missing_flags := ["onnxruntime"]; broken_accelerators := [];
     no_forward := []; pruned := []; metric_fails := false |}.

(** The OpenVINO converter is broken, the forward pass takes 0.2 s. *)
#[warnings="-inexact-float"] Definition openvino_broken : scenario :=
  {| forward_seconds := 0.2; missing_flags := [];
     broken_accelerators := ["KerasOpenVINOModel"]; no_forward := [];
     pruned := ["NanoModel"]; metric_fails := false |}.

(** What the loop reads when the forward pass took 0.2 s. *)
#[warnings="-inexact-float"] Definition slow_locals : @locals string :=
  {| l_model := "NanoModel(model)"; l_input_sample := "Tensor(x)";
     l_thread_num := None; l_baseline_time := 0.2;
     l_sample_size_for_pot := 15; l_batched_validation_data := None;
     l_len_available_dict := 7 |}.

(** A call with the defaults of the signature, and targets. *)
Definition plain_arguments : arguments string :=
  {| model := "model"; x := "x"; y := Some "y"; validation_data := None;
     batch_size := 1; metric := None; direction := "max"; thread_num := None;
     logging := false; latency_sample_num := 100; includes := None;
     excludes := None |}.

(** A call with validation data and a metric. *)
Definition measured_arguments : arguments string :=
  {| model := "model"; x := "x"; y := Some "y";
     validation_data := Some "Dataset(validation)"; batch_size := 1;
     metric := Some "metric"; direction := "max"; thread_num := None;
     logging := false; latency_sample_num := 100; includes := None;
     excludes := None |}.

End InferenceOptimizer.

(** ** Small inputs for the readers *)

(** A folder with three directories, one of them empty. *)
Definition pets (path : string) : res (list string) :=
  if String.eqb path "pets" then inr ["dog"; "cat"; "ant"]
  else if String.eqb path "pets/cat" then inr ["1.jpg"; "2.jpg"]
  else if String.eqb path "pets/dog" then inr ["3.jpg"]
  else if String.eqb path "pets/ant" then inr []
  else inl (Raised "No such file or directory").

(** Two digits with their labels. *)
Definition two_digits (location data_type : string) : res (list string * list Z) :=
  inr (["seven"; "zero"], [7; 0]).

(** ** Words for the statements on the optimizer *)

(** The five statuses of an entry. *)
Definition statuses : list string :=
  ["lack dependency"; "fail to convert"; "successful"; "early stopped";
   "fail to forward"].

(** The methods whose conversion was attempted, in the order of the
    attempts. *)
Definition attempted {obj : Type} (cs : list (InferenceOptimizer.called obj))
  : list string :=
  omap (fun c => match c with
                 | InferenceOptimizer.called_option_optimize method _ => Some method
                 | _ => None
                 end) cs.

(** The methods for which the accuracy helper was called. *)
Definition accuracy_measured {obj : Type}
    (cs : list (InferenceOptimizer.called obj)) : list string :=
  omap (fun c => match c with
                 | InferenceOptimizer.called_accuracy_calculate_helper method _ =>
                     Some method
                 | _ => None
                 end) cs.

(** What the entry of [method] looks like when the body of the loop has run
    for it: a status among the five, a model only under "successful", and
    for "original" no early stop and, with a latency, success and a model. *)
Definition entry_ok {obj : Type} (method : string)
    (e : PyDict.t (InferenceOptimizer.pyval obj)) : Prop :=
  (exists s, PyDict.get e "status" = Some (InferenceOptimizer.PyStr s) /\ s ∈ statuses) /\
  (PyDict.get e "model" <> None ->
     PyDict.get e "status" = Some (InferenceOptimizer.PyStr "successful")) /\
  (method = "original" ->
     PyDict.get e "status" <> Some (InferenceOptimizer.PyStr "early stopped") /\
     (PyDict.get e "latency" <> None ->
        PyDict.get e "status" = Some (InferenceOptimizer.PyStr "successful") /\
        PyDict.get e "model" <> None)).

(** A call recorded while the body runs for [method] carries the method and
    the values of the enclosing function. *)
Definition call_ok {obj : Type} (a : InferenceOptimizer.arguments obj)
    (l : InferenceOptimizer.locals) (method : string)
    (c : InferenceOptimizer.called obj) : Prop :=
  match c with
  | InferenceOptimizer.called_option_optimize m n =>
      m = method /\ n = InferenceOptimizer.l_sample_size_for_pot l
  | InferenceOptimizer.called_throughput_calculate_helper m n t _ i =>
      m = method /\ n = InferenceOptimizer.latency_sample_num a /\
      t = InferenceOptimizer.l_baseline_time l /\
      i = InferenceOptimizer.l_input_sample l
  | InferenceOptimizer.called_accuracy_calculate_helper m _ => m = method
  end.

(** Both [validation_data] and [metric] were given. *)
Definition both_given {obj : Type} (a : InferenceOptimizer.arguments obj) : bool :=
  match InferenceOptimizer.validation_data a, InferenceOptimizer.metric a with
  | Some _, Some _ => true
  | _, _ => false
  end.

(** The methods of an available-method dictionary whose dependencies are
    met, in the order of the dictionary. *)
Definition available_methods (available_dict : PyDict.t bool) : list string :=
  omap (fun kv : string * bool => if snd kv then Some (fst kv) else None)
       available_dict.

(** A run of [optimize] that reached the loop: the arguments passed the
    checks, the preparation gave [p], the baseline gave [b]; the loop started
    from a state with no call recorded yet, with the methods of the checker,
    the sample size chosen from the baseline and [_calculate_accuracy] set;
    after the loop nothing more is called, and the map is kept when the run
    returns. *)
Definition reaches_loop {obj world : Type}
    (ext : InferenceOptimizer.External obj world)
    (a : InferenceOptimizer.arguments obj)
    (st : InferenceOptimizer.state obj world) (r : res unit)
    (st' : InferenceOptimizer.state obj world) : Prop :=
  exists p s1 b s2 st0 rl st1,
    InferenceOptimizer.check_arguments ext a st = (inr tt, st) /\
    InferenceOptimizer.prepare ext a st = (inr p, s1) /\
    InferenceOptimizer.measure_baseline ext (InferenceOptimizer.p_model p)
      (InferenceOptimizer.p_input_sample p) s1 = (inr b, s2) /\
    InferenceOptimizer.calls st0 = InferenceOptimizer.calls st /\
    InferenceOptimizer._calculate_accuracy st0 = Some (both_given a) /\
    (both_given a = true -> InferenceOptimizer.p_batched_validation_data p <> None) /\
    InferenceOptimizer.p_available_dict p =
      InferenceOptimizer.available_acceleration_combination ext
        (InferenceOptimizer.excludes a) (InferenceOptimizer.includes a)
        InferenceOptimizer.ALL_INFERENCE_ACCELERATION_METHOD /\
    snd b = InferenceOptimizer.choose_sample_size_for_pot (fst b) /\
    InferenceOptimizer.enumerate_methods ext a
      (InferenceOptimizer.locals_of p b) 0
      (InferenceOptimizer.p_available_dict p) [] st0 = (rl, st1) /\
    InferenceOptimizer.calls st' = InferenceOptimizer.calls st1 /\
    InferenceOptimizer._calculate_accuracy st' =
      InferenceOptimizer._calculate_accuracy st1 /\
    match rl with
    | inl e => r = inl e
    | inr result_map =>
        r = inr tt ->
        InferenceOptimizer.optimized_model_dict st' = Some result_map
    end.

(** The accuracy of a successful entry [e] of [method], when
    [_calculate_accuracy] is [True]: "not recomputed" for a method of
    precision fp32 other than "original", measured otherwise. *)
Definition accuracy_when_calculated {obj world : Type}
    (ext : InferenceOptimizer.External obj world) (method : string)
    (e : PyDict.t (InferenceOptimizer.pyval obj)) (measured : list string) : Prop :=
  forall option,
    PyDict.get InferenceOptimizer.ALL_INFERENCE_ACCELERATION_METHOD method
    = Some option ->
    if String.eqb (InferenceOptimizer.get_precision ext option) "fp32"
       && negb (String.eqb method "original")
    then PyDict.get e "accuracy" = Some (InferenceOptimizer.PyStr "not recomputed")
    else (exists v, PyDict.get e "accuracy" = Some (InferenceOptimizer.PyFloat v))
         /\ method ∈ measured.

(** The accuracy [v] kept for [method] is the measured one: the model of
    the entry is what [option.optimize] returned for the method, its latency
    is what the latency helper returned for that model in the world the
    conversion left, and [v] is what [_accuracy_calculate_helper] returned
    for that model, the metric of the call and the batched validation data,
    in the world the latency helper left. *)
Definition accuracy_is_measured_value {obj world : Type}
    (ext : InferenceOptimizer.External obj world)
    (a : InferenceOptimizer.arguments obj) (l : InferenceOptimizer.locals)
    (method : string) (e : PyDict.t (InferenceOptimizer.pyval obj))
    (v : float) : Prop :=
  exists option acce_model data latency status w0 w1 w2 w3,
    PyDict.get InferenceOptimizer.ALL_INFERENCE_ACCELERATION_METHOD method
    = Some option /\
    InferenceOptimizer.TFAccelerationOption_optimize ext option
      (InferenceOptimizer.l_model l) (InferenceOptimizer.x a)
      (InferenceOptimizer.y a) (InferenceOptimizer.l_thread_num l)
      (InferenceOptimizer.logging a)
      (InferenceOptimizer.l_sample_size_for_pot l) w0
    = (inr acce_model, w1) /\
    InferenceOptimizer.throughput_calculate_helper ext
      (InferenceOptimizer.latency_sample_num a)
      (InferenceOptimizer.l_baseline_time l) (InferenceOptimizer.func_test ext)
      acce_model (InferenceOptimizer.l_input_sample l) w1
    = (inr (latency, status), w2) /\
    InferenceOptimizer.l_batched_validation_data l = Some data /\
    InferenceOptimizer._accuracy_calculate_helper ext acce_model
      (InferenceOptimizer.or_None ext (InferenceOptimizer.metric a)) data w2
    = (inr v, w3) /\
    PyDict.get e "model" = Some (InferenceOptimizer.PyObj acce_model) /\
    PyDict.get e "latency" = Some (InferenceOptimizer.PyFloat latency).

(** The batched validation data of a preparation: [validation_data] batched
    by [batch_size] when both [validation_data] and [metric] were given,
    unbound otherwise. *)
Definition batched_validation_data_of {obj world : Type}
    (ext : InferenceOptimizer.External obj world)
    (a : InferenceOptimizer.arguments obj) (p : InferenceOptimizer.prepared)
  : Prop :=
  match InferenceOptimizer.validation_data a, InferenceOptimizer.metric a with
  | Some validation_data, Some _ =>
      exists data w w',
        InferenceOptimizer.Dataset_batch ext validation_data
          (InferenceOptimizer.batch_size a) w = (inr data, w') /\
        InferenceOptimizer.p_batched_validation_data p = Some data
  | _, _ => InferenceOptimizer.p_batched_validation_data p = None
  end.

(** No exception of the kind [P] comes out of [m]. *)
Definition raises_none_of {S A : Type} (P : exn -> Prop) (m : SE S A) : Prop :=
  forall s e s', m s = (inl e, s') -> ~ P e.

(** [P] is a kind of exceptions that only the converters and the latency
    helper can raise: neither the code of the optimizer nor any other call
    outside raises one.  The converters ([KerasOpenVINOModel],
    [KerasONNXRuntimeModel], [inc_quantzie], [pot], the import of
    onnxruntime, [from_tensor_slices]) and [throughput_calculate_helper] are
    left free. *)
Definition only_converters_raise {obj world : Type}
    (ext : InferenceOptimizer.External obj world) (P : exn -> Prop) : Prop :=
  (forall errMsg, ~ P (InvalidInputError errMsg)) /\
  (forall key, ~ P (KeyError key)) /\
  (forall msg, ~ P (AttributeError msg)) /\
  (forall name, ~ P (UnboundLocalError name)) /\
  (forall msg, ~ P (TypeError msg)) /\
  (forall s e, InferenceOptimizer.int_of_str ext s = inl e -> ~ P e) /\
  (forall o, raises_none_of P (InferenceOptimizer.NanoModel_init ext o)) /\
  (forall o n, raises_none_of P (InferenceOptimizer.Dataset_batch ext o n)) /\
  (forall o, raises_none_of P (InferenceOptimizer.next_iter ext o)) /\
  (forall o, raises_none_of P (InferenceOptimizer.but_last ext o)) /\
  (forall o n, raises_none_of P (InferenceOptimizer.convert_to_tensor_head ext o n)) /\
  (forall m args, raises_none_of P (InferenceOptimizer.call ext m args)) /\
  raises_none_of P (InferenceOptimizer.perf_counter ext) /\
  (forall name, raises_none_of P (InferenceOptimizer.getenv ext name)) /\
  (forall o, raises_none_of P (InferenceOptimizer.iterate ext o)) /\
  (forall m t p, raises_none_of P (InferenceOptimizer.update_state ext m t p)) /\
  (forall m, raises_none_of P (InferenceOptimizer.result_numpy ext m)).

(** ** The outcome of a computation

    [wp m Q s]: run from [s], the computation [m] ends in an outcome and a
    state that satisfy [Q]. *)

Definition wp {S A : Type} (m : SE S A) (Q : res A -> S -> Prop) (s : S) : Prop :=
  Q (fst (m s)) (snd (m s)).

(** * The rest of the files

    The functions of the four files that the statements above leave out:
    [read_seq_file] of imagenet.py, [make_data_creator] and [data_length] of
    estimator.py, and [InferenceOptimizer.quantize] with all the arguments
    of its signature. *)

(** ** More exceptions

    Exceptions of Python's own operations that the code above never meets,
    beside those of [exn]. *)

Inductive error : Type :=
| struct_error (msg : string)
| ZeroDivisionError (msg : string)
| IndexError (msg : string)
| Exception (e : exn).

Definition outcome (A : Type) : Type := error + A.

Definition outcome_bind {A B : Type} (r : outcome A) (k : A -> outcome B)
  : outcome B :=
  match r with
  | inl e => inl e
  | inr a => k a
  end.

(** An outcome of the code above, with its exception kept. *)
Definition of_res {A : Type} (r : res A) : outcome A :=
  match r with
  | inl e => inl (Exception e)
  | inr a => inr a
  end.

(** ** pyspark: reading a sequence file (imagenet.py)

    The file is Python 2 ([lambda (path, label): ...]): [/] on two integers
    is the floor division, and integers do not overflow. *)

Module seq_file.

(** The unsigned value of bytes, most significant first. *)
Definition big_endian (b : list Byte.byte) : Z :=
  fold_left (fun acc byte => acc * 256 + Z.of_N (Byte.to_N byte)) b 0.

(** The 32-bit two's complement reading of an unsigned value. *)
Definition signed32 (u : Z) : Z :=
  if (u <? 2 ^ 31)%Z then u else u - 2 ^ 32.

(** [struct.unpack('>ii', b)]: two big-endian signed 32-bit integers, from
    exactly eight bytes. *)
Definition unpack_ii (b : list Byte.byte) : outcome (Z * Z) :=
  if Nat.eqb (length b) 8 then
    inr (signed32 (big_endian (take 4 b)), signed32 (big_endian (drop 4 b)))
  else inl (struct_error "unpack requires a string argument of length 8").

(** [a / b] on two integers. *)
Definition int_div (a b : Z) : outcome Z :=
  if (b =? 0)%Z then inl (ZeroDivisionError "integer division or modulo by zero")
  else inr (a / b).

Section read_seq_file.
(** numpy arrays and their operations; [int(label)] on the text of a key;
    the class [Sample] of [util/common.py] and its constructor. *)
Variable ndarray : Type.
Variable np_array_int8 : list Byte.byte -> ndarray.
Variable ndarray_and : ndarray -> Z -> ndarray.
Variable ndarray_div : ndarray -> float -> ndarray.
Variable int_of_text : string -> res Z.
Variable sample : Type.

(** The arguments [parse] gives to [Sample]. *)
Record Sample_args : Type := {
  arg_features : ndarray;
  arg_label : list Z;
  arg_features_shape : Z * Z * Z;
  arg_label_shape : list Z
}.

Variable Sample_init : Sample_args -> res sample.
(** [sc.sequenceFile(path, Text, BytesWritable)]: the records of the file,
    a text key and the bytes of the value. *)
Variable sequenceFile : string -> res (list (string * list Byte.byte)).

(** Lines 67 to 77: [parse].  The arguments of the call of [Sample] are
    evaluated from left to right: [int(label)] before the divisions. *)
Definition parse (normalize : float) (data : string * list Byte.byte)
  : outcome sample :=
  let label := fst data in
  let img := snd data in
  let length := Z.of_nat (length img) - 8 in
  outcome_bind (unpack_ii (take 8 img)) (fun metrics =>
  let width := fst metrics in
  let height := snd metrics in
  let features := np_array_int8 (drop 8 img) in
  let normalized_features := ndarray_div (ndarray_and features 255) normalize in
  outcome_bind (of_res (int_of_text label)) (fun int_label =>
  outcome_bind (int_div length width) (fun length_width =>
  outcome_bind (int_div length_width height) (fun depth =>
  of_res (Sample_init
            {| arg_features := normalized_features;
               arg_label := [int_label];
               arg_features_shape := (width, height, depth);
               arg_label_shape := [1] |}))))).

(** [read_seq_file(sc, path, normalize)]: the RDD is the list of its
    elements, each the outcome of [parse] on one record, computed when the
    element is asked for. *)
Definition read_seq_file (path : string) (normalize : float)
  : res (list (outcome sample)) :=
  res_map (map (parse normalize)) (sequenceFile path).
End read_seq_file.
Arguments arg_features {ndarray} _.
Arguments arg_label {ndarray} _.
Arguments arg_features_shape {ndarray} _.
Arguments arg_label_shape {ndarray} _.

(** [struct.pack('>i', n)], the writer's side of the header: the four bytes
    of [n] modulo 2^32, most significant first. *)
Definition byte_of (n : Z) : Byte.byte :=
  match Byte.of_N (Z.to_N (n mod 256)) with
  | Some b => b
  | None => Byte.x00
  end.

Definition pack_i (n : Z) : list Byte.byte :=
  let u := n mod 2 ^ 32 in
  [byte_of (u / 2 ^ 24); byte_of (u / 2 ^ 16); byte_of (u / 2 ^ 8); byte_of u].
End seq_file.

(** ** orca: the helpers of estimator.py *)

Module estimator_helpers.

(** What [data["x"]] can be: a numpy array, with its shape, or a list or a
    tuple of such values. *)
#[warnings="-register-all"] Inductive value : Type :=
| ndarray (shape : list Z)
| pylist (items : list value)
| pytuple (items : list value).

(** [make_data_creator(refs)], lines 71 to 75: the function returned. *)
Definition make_data_creator {Refs Config : Type} (refs : Refs)
  : Config -> Z -> Refs :=
  fun config batch_size => refs.

(** [o.shape[0]] *)
Definition shape_0 (o : value) : outcome Z :=
  match o with
  | ndarray (n :: _) => inr n
  | ndarray [] => inl (IndexError "tuple index out of range")
  | pylist _ =>
      inl (Exception (AttributeError "'list' object has no attribute 'shape'"))
  | pytuple _ =>
      inl (Exception (AttributeError "'tuple' object has no attribute 'shape'"))
  end.

(** [o[0]] on a list or a tuple *)
Definition item_0 (o : value) : outcome value :=
  match o with
  | pylist (x_0 :: _) | pytuple (x_0 :: _) => inr x_0
  | pylist [] => inl (IndexError "list index out of range")
  | pytuple [] => inl (IndexError "tuple index out of range")
  | ndarray _ => inl (Exception (TypeError "not a list or a tuple"))
  end.

(** Lines 78 to 83. *)
Definition data_length (data : PyDict.t value) : outcome Z :=
  match PyDict.get data "x" with
  | None => inl (Exception (KeyError "x"))
  | Some x =>
      match x with
      | ndarray _ => shape_0 x
      | _ => outcome_bind (item_0 x) shape_0
      end
  end.
End estimator_helpers.

(** ** nano: [InferenceOptimizer.quantize] with all its arguments

    [InferenceOptimizer.quantize] above is the function as
    [TFAccelerationOption.optimize] calls it.  Here it is with every argument
    of its signature, lines 326 to 500. *)

Module Quantize.
Import InferenceOptimizer.

(** The values of an [accuracy_criterion] dictionary. *)
Inductive criterion_value : Type :=
| criterion_float (v : float)
| criterion_bool (b : bool).

(** The argument [accuracy_criterion]: [None], a dictionary, or anything
    else. *)
Inductive criterion (obj : Type) : Type :=
| criterion_None
| criterion_dict (d : PyDict.t criterion_value)
| criterion_other (o : obj).
Arguments criterion_None {obj}.
Arguments criterion_dict {obj} _.
Arguments criterion_other {obj} _.

Set Implicit Arguments.
(** The arguments of [quantize]. *)
Record arguments (obj : Type) : Type := {
  model : obj;
  x : obj;
  y : option obj;
  precision : string;
  accelerator : option string;
  metric : option obj;
  accuracy_criterion : criterion obj;
  approach : string;
  method : option string;
  conf : option string;
  tuning_strategy : option string;
  timeout : option Z;
  max_trials : option Z;
  batch : option Z;
  thread_num : option Z;
  inputs : option (list string);
  outputs : option (list string);
  sample_size : Z;
  onnxruntime_session_options : option SessionOptions;
  openvino_config : option (PyDict.t string);
  logging : bool
}.

(** The keyword arguments of [inc_quantzie]; [onnx_option] and
    [onnxruntime_session_options] are [None] when the call does not pass
    them. *)
Record inc_kwargs (obj : Type) : Type := {
  inc_dataloader : dataloader obj;
  inc_metric : option obj;
  inc_framework : option string;
  inc_conf : option string;
  inc_approach : string;
  inc_tuning_strategy : option string;
  inc_accuracy_criterion : criterion obj;
  inc_timeout : option Z;
  inc_max_trials : option Z;
  inc_inputs : option (list string);
  inc_outputs : option (list string);
  inc_onnx_option : option string;
  inc_onnxruntime_session_options : option (option SessionOptions)
}.

(** The keyword arguments of [openvino_model.pot]. *)
Record pot_kwargs (obj : Type) : Type := {
  pot_x : obj;
  pot_y : option obj;
  pot_metric : option obj;
  pot_higher_better : option criterion_value;
  pot_drop_type : option string;
  pot_maximal_drop : option criterion_value;
  pot_max_iter_num : option Z;
  pot_sample_size : Z;
  pot_config : option (PyDict.t string);
  pot_thread_num : option Z
}.
Unset Implicit Arguments.

(** The defaults of the signature, lines 327 to 347. *)
Definition defaults {obj : Type} (model x : obj) : arguments obj :=
  {| model := model; x := x; y := None; precision := "int8";
     accelerator := None; metric := None;
     accuracy_criterion := criterion_None; approach := "static";
     method := None; conf := None; tuning_strategy := None; timeout := None;
     max_trials := None; batch := None; thread_num := None; inputs := None;
     outputs := None; sample_size := 100;
     onnxruntime_session_options := None; openvino_config := None;
     logging := true |}.

Section quantize.
Context {obj world : Type} (ext : External obj world).
(** The two converters, with all the keyword arguments [quantize] gives
    them. *)
Variable inc_quantzie : obj -> inc_kwargs obj -> SE world obj.
Variable pot : obj -> pot_kwargs obj -> SE world obj.
Open Scope se_scope.

(** Lines 451 to 458: what [pot] is told about the accuracy.  A metric
    object is true; [accuracy_criterion] is replaced when it is no
    dictionary. *)
#[warnings="-inexact-float"] Definition pot_criterion (metric : option obj)
    (accuracy_criterion : criterion obj)
  : option string * option criterion_value * option criterion_value :=
  match metric with
  | Some _ =>
      let accuracy_criterion :=
        match accuracy_criterion with
        | criterion_dict d => d
        | _ => [("relative", criterion_float 0.99);
                ("higher_is_better", criterion_bool true)]
        end in
      let drop_type :=
        if bool_decide ("relative" ∈ PyDict.keys accuracy_criterion)
        then "relative" else "absolute" in
      let higher_is_better := PyDict.get accuracy_criterion "higher_is_better" in
      let maximal_drop := PyDict.get accuracy_criterion drop_type in
      (Some drop_type, higher_is_better, maximal_drop)
  | None => (None, None, None)
  end.

(** Lines 419 to 500.  The two imports inside the function (lines 442 and
    471) are taken to succeed; [if batch:] is false for [None] and for 0. *)
Definition quantize (a : arguments obj) : SE world obj :=
  invalidInputError (String.eqb (approach a) "static")
    "Only 'static' approach is supported now." >>
  invalidInputError (bool_decide (y a <> None) || isinstance_Dataset ext (x a))
    y_omitted_message >>
  match accelerator a with
  | None =>
      let* calib :=
        if isinstance_Dataset ext (x a) then ret (x a)
        else from_tensor_slices ext (x a) (y a) in
      let* calib :=
        match batch a with
        | Some n => if (n =? 0)%Z then ret calib else Dataset_batch ext calib n
        | None => ret calib
        end in
      inc_quantzie (model a)
        {| inc_dataloader := calib_dataset calib;
           inc_metric := metric a;
           inc_framework := Some "tensorflow";
           inc_conf := conf a;
           inc_approach := approach a;
           inc_tuning_strategy := tuning_strategy a;
           inc_accuracy_criterion := accuracy_criterion a;
           inc_timeout := timeout a;
           inc_max_trials := max_trials a;
           inc_inputs := inputs a;
           inc_outputs := outputs a;
           inc_onnx_option := None;
           inc_onnxruntime_session_options := None |}
  | Some accelerator' =>
      if String.eqb accelerator' "openvino" then
        let* openvino_model :=
          if isinstance_KerasOpenVINOModel ext (model a) then ret (model a)
          else trace ext (model a) (Some "openvino") None (thread_num a) None
                 (openvino_config a) (logging a) in
        let '(drop_type, higher_is_better, maximal_drop) :=
          pot_criterion (metric a) (accuracy_criterion a) in
        pot openvino_model
          {| pot_x := x a; pot_y := y a; pot_metric := metric a;
             pot_higher_better := higher_is_better;
             pot_drop_type := drop_type;
             pot_maximal_drop := maximal_drop;
             pot_max_iter_num := max_trials a;
             pot_sample_size := sample_size a;
             pot_config := openvino_config a;
             pot_thread_num := thread_num a |}
      else if String.eqb accelerator' "onnxruntime" then
        let* onnx_model :=
          if isinstance_KerasONNXRuntimeModel ext (model a) then ret (model a)
          else trace ext (model a) (Some "onnxruntime") None (thread_num a)
                 None None true in
        let method_map : list (option string * string) :=
          [ (Some "qlinear", "onnxrt_qlinearops");
            (Some "integer", "onnxrt_integerops");
            (None, "onnxrt_qlinearops") ] in
        let framework := get_or_None method_map (method a) in
        inc_quantzie onnx_model
          {| inc_dataloader := x_y (x a) (y a);
             inc_metric := metric a;
             inc_framework := framework;
             inc_conf := conf a;
             inc_approach := approach a;
             inc_tuning_strategy := tuning_strategy a;
             inc_accuracy_criterion := accuracy_criterion a;
             inc_timeout := timeout a;
             inc_max_trials := max_trials a;
             inc_inputs := inputs a;
             inc_outputs := outputs a;
             inc_onnx_option := Some "tensorflow";
             inc_onnxruntime_session_options :=
               Some (onnxruntime_session_options a) |}
      else
        invalidInputError false
          ("Accelerator " +:+ str_of_optional (accelerator a) +:+ " is invalid.") >>
        ret (py_None ext)
  end.
End quantize.

(** The keyword arguments of the calls above, among all of them: what is
    left out is [None]. *)
Definition all_inc_kwargs {obj : Type}
    (k : InferenceOptimizer.inc_quantize_kwargs obj) : inc_kwargs obj :=
  {| inc_dataloader := InferenceOptimizer.inc_dataloader k;
     inc_metric := None;
     inc_framework := InferenceOptimizer.inc_framework k;
     inc_conf := None;
     inc_approach := InferenceOptimizer.inc_approach k;
     inc_tuning_strategy := None;
     inc_accuracy_criterion := criterion_None;
     inc_timeout := None;
     inc_max_trials := None;
     inc_inputs := None;
     inc_outputs := None;
     inc_onnx_option := InferenceOptimizer.inc_onnx_option k;
     inc_onnxruntime_session_options :=
       match InferenceOptimizer.inc_onnx_option k with
       | Some _ => Some None
       | None => None
       end |}.

Definition all_pot_kwargs {obj : Type}
    (k : InferenceOptimizer.pot_kwargs obj) : pot_kwargs obj :=
  {| pot_x := InferenceOptimizer.pot_x k;
     pot_y := InferenceOptimizer.pot_y k;
     pot_metric := None;
     pot_higher_better := None;
     pot_drop_type := None;
     pot_maximal_drop := None;
     pot_max_iter_num := None;
     pot_sample_size := InferenceOptimizer.pot_sample_size k;
     pot_config := None;
     pot_thread_num := InferenceOptimizer.pot_thread_num k |}.

(** The call of [quantize] in [TFAccelerationOption.optimize], lines 51 to
    61: the arguments it names, the defaults for the others. *)
Definition called_by_option {obj : Type} (model x : obj) (y : option obj)
    (precision : string) (accelerator method : option string)
    (thread_num : option Z) (sample_size : Z) (logging : bool)
  : arguments obj :=
  {| model := model; x := x; y := y; precision := precision;
     accelerator := accelerator; metric := None;
     accuracy_criterion := criterion_None; approach := "static";
     method := method; conf := None; tuning_strategy := None;
     timeout := None; max_trials := None; batch := None;
     thread_num := thread_num; inputs := None; outputs := None;
     sample_size := sample_size; onnxruntime_session_options := None;
     openvino_config := None; logging := logging |}.
End Quantize.

(** ** nano: the loop of [optimize], entry by entry *)

(** The entries the body of the loop can leave for [method], key by key, in
    the order of their assignment. *)
Definition entry_shape {obj : Type} (method : string)
    (e : PyDict.t (InferenceOptimizer.pyval obj)) : Prop :=
  (exists s,
     e = [("status", InferenceOptimizer.PyStr s)] /\
     s ∈ ["lack dependency"; "fail to convert"; "fail to forward"]) \/
  (exists latency,
     e = [("status", InferenceOptimizer.PyStr "early stopped");
          ("latency", InferenceOptimizer.PyFloat latency)] /\
     method <> "original") \/
  (exists latency accuracy acce_model,
     e = [("status", InferenceOptimizer.PyStr "successful");
          ("latency", InferenceOptimizer.PyFloat latency);
          ("accuracy", accuracy);
          ("model", InferenceOptimizer.PyObj acce_model)] /\
     (accuracy = InferenceOptimizer.PyNone \/
      (accuracy = InferenceOptimizer.PyStr "not recomputed" /\
       method <> "original") \/
      exists v, accuracy = InferenceOptimizer.PyFloat v)) \/
  (exists latency acce_model,
     e = [("status", InferenceOptimizer.PyStr "successful");
          ("latency", InferenceOptimizer.PyFloat latency);
          ("model", InferenceOptimizer.PyObj acce_model)] /\
     method = "original").

(** What a phase of [optimize] leaves of the results of an earlier call. *)
Definition keeps_result {obj world : Type}
    (st st' : InferenceOptimizer.state obj world) : Prop :=
  InferenceOptimizer.optimized_model_dict st'
  = InferenceOptimizer.optimized_model_dict st /\
  InferenceOptimizer._optimize_result st' = InferenceOptimizer._optimize_result st.

(** Lines 137 to 265 of [optimize]: the checks, the preparation, the
    baseline and the loop.  What is left of [optimize] is the report of
    lines 267 to 277, on the map of the loop and the time of its start. *)
Definition optimize_until_report {obj world : Type}
    (ext : InferenceOptimizer.External obj world)
    (a : InferenceOptimizer.arguments obj)
  : SE (InferenceOptimizer.state obj world)
       (PyDict.t (PyDict.t (InferenceOptimizer.pyval obj)) * float) :=
  bind (InferenceOptimizer.check_arguments ext a) (fun _ =>
  bind (InferenceOptimizer.prepare ext a) (fun p =>
  bind (InferenceOptimizer.measure_baseline ext (InferenceOptimizer.p_model p)
          (InferenceOptimizer.p_input_sample p)) (fun baseline =>
  bind (InferenceOptimizer.print
          "==========================Start Optimization==========================")
       (fun _ =>
  bind (InferenceOptimizer.outside (InferenceOptimizer.perf_counter ext))
       (fun start_time =>
  bind (InferenceOptimizer.enumerate_methods ext a
          (InferenceOptimizer.locals_of p baseline) 0
          (InferenceOptimizer.p_available_dict p) []) (fun result_map =>
  ret (result_map, start_time))))))).

(** The small world with the variable OMP_NUM_THREADS set to [value], and
    [int] reading decimal digits only. *)
Definition digits_only (s : string) : bool :=
  negb (String.eqb s "")
  && forallb (fun c => (48 <=? nat_of_ascii c)%nat && (nat_of_ascii c <=? 57)%nat)
       (list_ascii_of_string s).

Definition int_of_digits (s : string) : res Z :=
  if digits_only s then
    inr (fold_left (fun acc c => acc * 10 + (Z.of_nat (nat_of_ascii c) - 48))
           (list_ascii_of_string s) 0)
  else inl (ValueError ("invalid literal for int() with base 10: '" +:+ s +:+ "'")).

Definition with_OMP_NUM_THREADS (value : string)
    (ext : InferenceOptimizer.External string float)
  : InferenceOptimizer.External string float :=
  {| InferenceOptimizer.py_None := InferenceOptimizer.py_None ext;
     InferenceOptimizer.get_precision := InferenceOptimizer.get_precision ext;
     InferenceOptimizer.get_accelerator := InferenceOptimizer.get_accelerator ext;
     InferenceOptimizer.available_acceleration_combination :=
       InferenceOptimizer.available_acceleration_combination ext;
     InferenceOptimizer.isinstance_Model := InferenceOptimizer.isinstance_Model ext;
     InferenceOptimizer.isinstance_NanoModel :=
       InferenceOptimizer.isinstance_NanoModel ext;
     InferenceOptimizer.isinstance_Dataset :=
       InferenceOptimizer.isinstance_Dataset ext;
     InferenceOptimizer.isinstance_Tensor := InferenceOptimizer.isinstance_Tensor ext;
     InferenceOptimizer.isinstance_KerasOpenVINOModel :=
       InferenceOptimizer.isinstance_KerasOpenVINOModel ext;
     InferenceOptimizer.isinstance_KerasONNXRuntimeModel :=
       InferenceOptimizer.isinstance_KerasONNXRuntimeModel ext;
     InferenceOptimizer.as_sequence := InferenceOptimizer.as_sequence ext;
     InferenceOptimizer.NanoModel_init := InferenceOptimizer.NanoModel_init ext;
     InferenceOptimizer.Dataset_batch := InferenceOptimizer.Dataset_batch ext;
     InferenceOptimizer.next_iter := InferenceOptimizer.next_iter ext;
     InferenceOptimizer.but_last := InferenceOptimizer.but_last ext;
     InferenceOptimizer.convert_to_tensor_head :=
       InferenceOptimizer.convert_to_tensor_head ext;
     InferenceOptimizer.unpack := InferenceOptimizer.unpack ext;
     InferenceOptimizer.call := InferenceOptimizer.call ext;
     InferenceOptimizer.perf_counter := InferenceOptimizer.perf_counter ext;
     InferenceOptimizer.getenv name :=
       if String.eqb name "OMP_NUM_THREADS" then ret (Some value)
       else InferenceOptimizer.getenv ext name;
     InferenceOptimizer.int_of_str := int_of_digits;
     InferenceOptimizer.KerasOpenVINOModel_init :=
       InferenceOptimizer.KerasOpenVINOModel_init ext;
     InferenceOptimizer.import_onnxruntime :=
       InferenceOptimizer.import_onnxruntime ext;
     InferenceOptimizer.KerasONNXRuntimeModel_init :=
       InferenceOptimizer.KerasONNXRuntimeModel_init ext;
     InferenceOptimizer.inc_quantzie := InferenceOptimizer.inc_quantzie ext;
     InferenceOptimizer.KerasOpenVINOModel_pot :=
       InferenceOptimizer.KerasOpenVINOModel_pot ext;
     InferenceOptimizer.from_tensor_slices :=
       InferenceOptimizer.from_tensor_slices ext;
     InferenceOptimizer.throughput_calculate_helper :=
       InferenceOptimizer.throughput_calculate_helper ext;
     InferenceOptimizer.iterate := InferenceOptimizer.iterate ext;
     InferenceOptimizer.update_state := InferenceOptimizer.update_state ext;
     InferenceOptimizer.result_numpy := InferenceOptimizer.result_numpy ext;
     InferenceOptimizer.format_optimize_result :=
       InferenceOptimizer.format_optimize_result ext;
     InferenceOptimizer.format_1f := InferenceOptimizer.format_1f ext |}.

(** A world whose metric does not fit the predictions of a quantized
    model: [update_state] raises on them, and on them only. *)
Definition with_picky_metric (ext : InferenceOptimizer.External string float)
  : InferenceOptimizer.External string float :=
  {| InferenceOptimizer.py_None := InferenceOptimizer.py_None ext;
     InferenceOptimizer.get_precision := InferenceOptimizer.get_precision ext;
     InferenceOptimizer.get_accelerator := InferenceOptimizer.get_accelerator ext;
     InferenceOptimizer.available_acceleration_combination :=
       InferenceOptimizer.available_acceleration_combination ext;
     InferenceOptimizer.isinstance_Model := InferenceOptimizer.isinstance_Model ext;
     InferenceOptimizer.isinstance_NanoModel :=
       InferenceOptimizer.isinstance_NanoModel ext;
     InferenceOptimizer.isinstance_Dataset :=
       InferenceOptimizer.isinstance_Dataset ext;
     InferenceOptimizer.isinstance_Tensor := InferenceOptimizer.isinstance_Tensor ext;
     InferenceOptimizer.isinstance_KerasOpenVINOModel :=
       InferenceOptimizer.isinstance_KerasOpenVINOModel ext;
     InferenceOptimizer.isinstance_KerasONNXRuntimeModel :=
       InferenceOptimizer.isinstance_KerasONNXRuntimeModel ext;
     InferenceOptimizer.as_sequence := InferenceOptimizer.as_sequence ext;
     InferenceOptimizer.NanoModel_init := InferenceOptimizer.NanoModel_init ext;
     InferenceOptimizer.Dataset_batch := InferenceOptimizer.Dataset_batch ext;
     InferenceOptimizer.next_iter := InferenceOptimizer.next_iter ext;
     InferenceOptimizer.but_last := InferenceOptimizer.but_last ext;
     InferenceOptimizer.convert_to_tensor_head :=
       InferenceOptimizer.convert_to_tensor_head ext;
     InferenceOptimizer.unpack := InferenceOptimizer.unpack ext;
     InferenceOptimizer.call := InferenceOptimizer.call ext;
     InferenceOptimizer.perf_counter := InferenceOptimizer.perf_counter ext;
     InferenceOptimizer.getenv := InferenceOptimizer.getenv ext;
     InferenceOptimizer.int_of_str := InferenceOptimizer.int_of_str ext;
     InferenceOptimizer.KerasOpenVINOModel_init :=
       InferenceOptimizer.KerasOpenVINOModel_init ext;
     InferenceOptimizer.import_onnxruntime :=
       InferenceOptimizer.import_onnxruntime ext;
     InferenceOptimizer.KerasONNXRuntimeModel_init :=
       InferenceOptimizer.KerasONNXRuntimeModel_init ext;
     InferenceOptimizer.inc_quantzie := InferenceOptimizer.inc_quantzie ext;
     InferenceOptimizer.KerasOpenVINOModel_pot :=
       InferenceOptimizer.KerasOpenVINOModel_pot ext;
     InferenceOptimizer.from_tensor_slices :=
       InferenceOptimizer.from_tensor_slices ext;
     InferenceOptimizer.throughput_calculate_helper :=
       InferenceOptimizer.throughput_calculate_helper ext;
     InferenceOptimizer.iterate := InferenceOptimizer.iterate ext;
     InferenceOptimizer.update_state metric target y_pred :=
       if String.prefix "Tensor(Quantized" y_pred
       then raise (Raised "metric does not fit the quantized model")
       else InferenceOptimizer.update_state ext metric target y_pred;
     InferenceOptimizer.result_numpy := InferenceOptimizer.result_numpy ext;
     InferenceOptimizer.format_optimize_result :=
       InferenceOptimizer.format_optimize_result ext;
     InferenceOptimizer.format_1f := InferenceOptimizer.format_1f ext |}.

(** More small inputs: worlds, locals and records to run the code on. *)
Module small_inputs.
Import InferenceOptimizer.

(** The model traced to OpenVINO cannot run. *)
Definition openvino_cannot_run : scenario :=
  {| forward_seconds := forward_seconds quiet; missing_flags := [];
     broken_accelerators := []; no_forward := ["KerasOpenVINOModel"];
     pruned := []; metric_fails := false |}.

(** The quantized model is so slow that the latency helper stops early. *)
Definition quantized_too_slow : scenario :=
  {| forward_seconds := forward_seconds quiet; missing_flags := [];
     broken_accelerators := []; no_forward := []; pruned := ["Quantized"];
     metric_fails := false |}.

(** What the loop reads in a call with validation data. *)
Definition measured_locals : @locals string :=
  {| l_model := l_model slow_locals;
     l_input_sample := l_input_sample slow_locals;
     l_thread_num := None;
     l_baseline_time := l_baseline_time slow_locals;
     l_sample_size_for_pot := 15;
     l_batched_validation_data := Some "Dataset.batch(Dataset(validation))";
     l_len_available_dict := 7 |}.

(** A receiver that holds the result of an earlier call. *)
Definition used (clock : float) : state string float :=
  with_optimize_result "earlier"
    (with_optimized_model_dict
       [("original", [("status", PyStr "successful")])] (fresh clock)).

(** The keys of a sequence file are read as decimal numbers; arrays are the
    bytes they are made of. *)
Definition parse_bytes (normalize : float) (data : string * list Byte.byte)
  : outcome (seq_file.Sample_args (list Byte.byte)) :=
  seq_file.parse (list Byte.byte) (fun b => b) (fun a _ => a) (fun a _ => a)
    int_of_digits (seq_file.Sample_args (list Byte.byte)) inr normalize data.

(** A record of label 7: a 2 x 3 image of one plane. *)
Definition record_7 : string * list Byte.byte :=
  ("7", seq_file.pack_i 2 ++ seq_file.pack_i 3
        ++ [Byte.x01; Byte.x02; Byte.x03; Byte.x04; Byte.x05; Byte.x06]).
End small_inputs.
(** * Properties *)

(** ** Ordered dictionaries *)

Section PyDict_facts.
Context {V : Type}.
Implicit Types (d : PyDict.t V) (k : string) (v : V).

Lemma PyDict_get_set_eq d k v : PyDict.get (PyDict.set k v d) k = Some v.
Proof.
  induction d as [|[k' v'] d IH]; simpl.
  - now rewrite String.eqb_refl.
  - destruct (String.eqb k' k) eqn:E; simpl; rewrite E; auto.
Qed.

Lemma PyDict_get_set_ne d k k' v :
  k <> k' -> PyDict.get (PyDict.set k v d) k' = PyDict.get d k'.
Proof.
  intros Hne. induction d as [|[k0 v0] d IH]; simpl.
  - destruct (String.eqb k k') eqn:E; auto.
    apply String.eqb_eq in E. contradiction.
  - destruct (String.eqb k0 k) eqn:E; simpl.
    + apply String.eqb_eq in E. subst k0.
      destruct (String.eqb k k') eqn:E'; auto.
      apply String.eqb_eq in E'. contradiction.
    + now rewrite IH.
Qed.

Lemma PyDict_set_set d k v v' :
  PyDict.set k v (PyDict.set k v' d) = PyDict.set k v d.
Proof.
  induction d as [|[k0 v0] d IH]; simpl.
  - now rewrite String.eqb_refl.
  - destruct (String.eqb k0 k) eqn:E; simpl; rewrite E; auto.
    now rewrite IH.
Qed.

(** Assigning to a key adds it at the end when it is new and keeps the
    keys as they are otherwise. *)
Lemma PyDict_keys_set d k v :
  PyDict.keys (PyDict.set k v d) =
  if bool_decide (k ∈ PyDict.keys d) then PyDict.keys d
  else PyDict.keys d ++ [k].
Proof.
  induction d as [|[k0 v0] d IH].
  - rewrite bool_decide_eq_false_2; [reflexivity|]. intros H. inversion H.
  - change (PyDict.keys ((k0, v0) :: d)) with (k0 :: PyDict.keys d).
    change (PyDict.set k v ((k0, v0) :: d))
      with (if String.eqb k0 k then (k0, v) :: d else (k0, v0) :: PyDict.set k v d).
    destruct (String.eqb k0 k) eqn:E.
    + apply String.eqb_eq in E. subst.
      rewrite bool_decide_eq_true_2; [reflexivity|apply list_elem_of_here].
    + apply String.eqb_neq in E.
      change (PyDict.keys ((k0, v0) :: PyDict.set k v d))
        with (k0 :: PyDict.keys (PyDict.set k v d)).
      rewrite IH.
      destruct (bool_decide (k ∈ PyDict.keys d)) eqn:B.
      * apply bool_decide_eq_true_1 in B.
        rewrite bool_decide_eq_true_2; [reflexivity|now apply list_elem_of_further].
      * apply bool_decide_eq_false_1 in B.
        rewrite bool_decide_eq_false_2; [reflexivity|].
        intros H. apply elem_of_cons in H as [H|H]; [congruence|auto].
Qed.

Lemma PyDict_elem_of_keys_set d k k' v :
  k' ∈ PyDict.keys (PyDict.set k v d) <-> k' = k \/ k' ∈ PyDict.keys d.
Proof.
  rewrite PyDict_keys_set. case_bool_decide as H.
  - split; [auto|]. intros [->|?]; auto.
  - rewrite elem_of_app, elem_of_cons. split.
    + intros [?|[?|Hn]]; auto. inversion Hn.
    + intros [?|?]; auto.
Qed.

Lemma PyDict_NoDup_keys_set d k v :
  NoDup (PyDict.keys d) -> NoDup (PyDict.keys (PyDict.set k v d)).
Proof.
  intros Hd. rewrite PyDict_keys_set. case_bool_decide as H; [assumption|].
  apply NoDup_app. split; [assumption|]. split.
  - intros k' Hk' Hin. apply list_elem_of_singleton in Hin. subst. contradiction.
  - apply NoDup_singleton.
Qed.
End PyDict_facts.

(** ** The estimator factory *)

(** C3. [Estimator.from_keras] dispatches on the string [backend]: for
    "tf2" and for "horovod" it returns what the constructor of
    [TensorFlow2Estimator] returns on the arguments of the call, the backend
    among them, hence a TensorFlow2Estimator; for "spark" it returns what the
    constructor of [SparkTFEstimator] returns, hence a SparkTFEstimator; for
    every other string it raises a [ValueError] that names the backend, and
    returns no estimator. *)
Theorem from_keras_dispatch
    (Creator Config TensorFlow2Estimator SparkTFEstimator : Type)
    (TensorFlow2Estimator_init :
       Estimator.TensorFlow2Estimator_kwargs Creator Config -> res TensorFlow2Estimator)
    (SparkTFEstimator_init :
       Estimator.SparkTFEstimator_kwargs Creator Config -> res SparkTFEstimator)
    (model_creator : Creator) (config : option Config) (verbose : bool)
    (workers_per_node : Z) (compile_args_creator : option Creator)
    (backend : string) (cpu_binding : bool) :
  let returned :=
    Estimator.from_keras Creator Config TensorFlow2Estimator SparkTFEstimator
      TensorFlow2Estimator_init SparkTFEstimator_init model_creator config
      verbose workers_per_node compile_args_creator backend cpu_binding in
  (backend = "tf2" \/ backend = "horovod" ->
     returned =
       res_map (Estimator.IsTensorFlow2Estimator _ _)
         (TensorFlow2Estimator_init
            {| Estimator.tf2_model_creator := model_creator;
               Estimator.tf2_config := config;
               Estimator.tf2_verbose := verbose;
               Estimator.tf2_workers_per_node := workers_per_node;
               Estimator.tf2_backend := backend;
               Estimator.tf2_compile_args_creator := compile_args_creator;
               Estimator.tf2_cpu_binding := cpu_binding |})
     /\ forall e, returned = inr e ->
          exists t, e = Estimator.IsTensorFlow2Estimator _ _ t) /\
  (backend = "spark" ->
     returned =
       res_map (Estimator.IsSparkTFEstimator _ _)
         (SparkTFEstimator_init
            {| Estimator.spark_model_creator := model_creator;
               Estimator.spark_config := config;
               Estimator.spark_verbose := verbose;
               Estimator.spark_compile_args_creator := compile_args_creator;
               Estimator.spark_workers_per_node := workers_per_node |})
     /\ forall e, returned = inr e ->
          exists s, e = Estimator.IsSparkTFEstimator _ _ s) /\
  (backend <> "tf2" -> backend <> "horovod" -> backend <> "spark" ->
     returned =
       inl (ValueError
              ("Only horovod, tf2 and spark backends are supported for now, got backend: "
                 +:+ backend))
     /\ forall e, returned <> inr e).
Proof.
  intros returned. subst returned. unfold Estimator.from_keras.
  split; [|split].
  - intros Hb.
    rewrite bool_decide_eq_true_2
      by (destruct Hb; subst; [apply list_elem_of_here|apply list_elem_of_further, list_elem_of_here]).
    split; [reflexivity|].
    intros e. destruct (TensorFlow2Estimator_init _); simpl; [discriminate|].
    intros [= <-]. eauto.
  - intros ->. rewrite bool_decide_eq_false_2.
    2:{ intros H. apply elem_of_cons in H as [H|H]; [discriminate|].
        apply list_elem_of_singleton in H. discriminate. }
    simpl. split; [reflexivity|].
    intros e. destruct (SparkTFEstimator_init _); simpl; [discriminate|].
    intros [= <-]. eauto.
  - intros H1 H2 H3. rewrite bool_decide_eq_false_2.
    2:{ intros H. apply elem_of_cons in H as [H|H]; [contradiction|].
        apply list_elem_of_singleton in H. contradiction. }
    apply String.eqb_neq in H3. rewrite H3.
    split; [reflexivity|]. intros e. discriminate.
Qed.

(** The three cases on three calls: "tf2" and "spark" with constructors that
    succeed, "ray" which is no backend. *)
Lemma from_keras_dispatch_witness :
  (Estimator.from_keras unit unit string string
     (fun _ => inr "ray estimator") (fun _ => inr "spark estimator")
     tt None false 1 None "tf2" false
   = inr (Estimator.IsTensorFlow2Estimator _ _ "ray estimator")) /\
  (Estimator.from_keras unit unit string string
     (fun _ => inr "ray estimator") (fun _ => inr "spark estimator")
     tt None false 1 None "spark" false
   = inr (Estimator.IsSparkTFEstimator _ _ "spark estimator")) /\
  (Estimator.from_keras unit unit string string
     (fun _ => inr "ray estimator") (fun _ => inr "spark estimator")
     tt None false 1 None "ray" false
   = inl (ValueError
            "Only horovod, tf2 and spark backends are supported for now, got backend: ray")).
Proof.
  split; [|split].
  - apply (from_keras_dispatch unit unit string string
             (fun _ => inr "ray estimator") (fun _ => inr "spark estimator")
             tt None false 1 None "tf2" false).
    left. reflexivity.
  - apply (from_keras_dispatch unit unit string string
             (fun _ => inr "ray estimator") (fun _ => inr "spark estimator")
             tt None false 1 None "spark" false).
    reflexivity.
  - apply (from_keras_dispatch unit unit string string
             (fun _ => inr "ray estimator") (fun _ => inr "spark estimator")
             tt None false 1 None "ray" false); discriminate.
Defined.

(** ** The dataset readers *)

Lemma str_le_total : Total imagenet.str_le.
Proof. intros a b. apply String.leb_total. Qed.

(** [sort] sorts: the result is ordered and holds the same names. *)
Lemma sort_sorted (names : list string) :
  Sorted imagenet.str_le (imagenet.sort names) /\ imagenet.sort names ≡ₚ names.
Proof.
  split.
  - apply (Sorted_merge_sort imagenet.str_le (Total0 := str_le_total)).
  - apply merge_sort_Permutation.
Qed.

(** [l.index(x)] is the first position of [x]; it raises only when [x] is
    not in [l]. *)
Lemma index_first (l : list string) (x : string) (i : nat) :
  imagenet.index l x = inr i ->
  l !! i = Some x /\ forall j, (j < i)%nat -> l !! j <> Some x.
Proof.
  revert i. induction l as [|y l IH]; intros i; simpl; [discriminate|].
  destruct (String.eqb y x) eqn:E.
  - apply String.eqb_eq in E. subst. intros [= <-]. split; [reflexivity|].
    intros j Hj. inversion Hj.
  - apply String.eqb_neq in E.
    destruct (imagenet.index l x) as [e|i'] eqn:Hi; simpl; [discriminate|].
    intros [= <-]. destruct (IH i' eq_refl) as [H1 H2]. split; [exact H1|].
    intros [|j] Hj; simpl.
    + congruence.
    + apply H2. apply Nat.succ_lt_mono. exact Hj.
Qed.

Lemma index_total (l : list string) (x : string) :
  x ∈ l -> exists i, imagenet.index l x = inr i.
Proof.
  induction l as [|y l IH]; intros H; [inversion H|]. simpl.
  destruct (String.eqb y x) eqn:E; [eauto|].
  apply String.eqb_neq in E.
  apply elem_of_cons in H as [H|H]; [congruence|].
  destruct (IH H) as [i ->]. simpl. eauto.
Qed.

Section read_local_facts.
Variable listdir : string -> res (list string).
Variables (folder : string) (dirs : list string).

(** The images of one directory, as the inner loop labels them. *)
Local Abbreviation labelled d i files :=
  (map (fun f => (imagenet.join (imagenet.join folder d) f, Z.of_nat i + 1)) files).

Lemma inner_loop (d : string) (i : nat) (files : list string)
    (images : list (string * Z)) :
  imagenet.index dirs d = inr i ->
  res_fold (imagenet.append_image folder dirs d) files images
  = inr (images ++ labelled d i files).
Proof.
  intros Hi. revert images.
  induction files as [|f files IH]; intros images; simpl.
  - now rewrite app_nil_r.
  - unfold imagenet.append_image at 1. rewrite Hi. simpl.
    rewrite IH, <- app_assoc. reflexivity.
Qed.

(** The outer loop over the directories [ds] of the listing, when it ends
    without an exception: every directory was listed and its files were
    appended with the number of the directory. *)
Lemma outer_loop (ds : list string) (images images' : list (string * Z)) :
  (forall d, d ∈ ds -> d ∈ dirs) ->
  res_fold (imagenet.append_directory listdir folder dirs) ds images = inr images' ->
  forall image,
    image ∈ images' <->
    image ∈ images \/
    exists d i files,
      d ∈ ds /\ imagenet.index dirs d = inr i /\
      listdir (imagenet.join folder d) = inr files /\
      image ∈ labelled d i files.
Proof.
  revert images. induction ds as [|d ds IH]; intros images Hds; simpl.
  - intros [= <-] image. split; [auto|].
    intros [?|(d & i & files & Hd & _)]; [assumption|inversion Hd].
  - unfold imagenet.append_directory at 1.
    destruct (listdir (imagenet.join folder d)) as [e|files] eqn:Hfiles;
      simpl; [discriminate|].
    destruct (index_total dirs d) as [i Hi]; [apply Hds, list_elem_of_here|].
    rewrite (inner_loop d i files images Hi). simpl.
    intros Hrest image.
    rewrite (IH _ (fun d' H => Hds d' (list_elem_of_further _ _ _ H)) Hrest image).
    rewrite elem_of_app. split.
    + intros [[?|Hl]|(d' & i' & files' & Hd' & Hrem)]; auto.
      * right. exists d, i, files. repeat split; auto. apply list_elem_of_here.
      * right. exists d', i', files'. split; [now apply list_elem_of_further|exact Hrem].
    + intros [?|(d' & i' & files' & Hd' & Hi' & Hf' & Him)]; auto.
      apply elem_of_cons in Hd' as [->|Hd'].
      * left. right. rewrite Hi in Hi'. rewrite Hfiles in Hf'.
        injection Hi' as <-. injection Hf' as <-. exact Him.
      * right. exists d', i', files'. auto.
Qed.

Lemma outer_loop_total (ds : list string) (images : list (string * Z)) :
  (forall d, d ∈ ds -> d ∈ dirs) ->
  (forall d, d ∈ ds -> exists files, listdir (imagenet.join folder d) = inr files) ->
  exists images',
    res_fold (imagenet.append_directory listdir folder dirs) ds images = inr images'.
Proof.
  revert images. induction ds as [|d ds IH]; intros images Hds Hls; simpl; [eauto|].
  unfold imagenet.append_directory at 1.
  destruct (Hls d (list_elem_of_here _ _)) as [files ->]. simpl.
  destruct (index_total dirs d) as [i Hi]; [apply Hds, list_elem_of_here|].
  rewrite (inner_loop d i files images Hi). simpl.
  apply IH; intros d' H'; [apply Hds|apply Hls]; now apply list_elem_of_further.
Qed.
End read_local_facts.

(** C7. The readers return collections of Samples, one (features, label)
    pair each, with labels from 1.  [read_local], on a folder whose listing
    is [names], sorts the listing and returns exactly one Sample for every
    file [f] of every directory [d] of it, made from the image at
    [folder/d/f] and labelled 1 plus the index of [d] in the sorted listing
    (the position of its first occurrence); it returns as soon as every
    directory can be listed.  [get_mnist] returns one Sample for every image,
    in order, labelled with the mnist label of the image plus 1. *)
Theorem readers_label_from_one
    (ndarray : Type) (listdir : string -> res (list string))
    (imread : string -> Z -> ndarray) (cv2_resize : ndarray -> Z -> Z -> ndarray)
    (ndarray_and : ndarray -> Z -> ndarray) (ndarray_div : ndarray -> float -> ndarray)
    (folder : string) (normalize : float) (names : list string)
    (read_data_sets : string -> string -> res (list ndarray * list Z))
    (data_type location : string) (images : list ndarray) (labels : list Z)
    (Hfolder : listdir folder = inr names)
    (Hmnist : read_data_sets location data_type = inr (images, labels))
    (Hsizes : length images = length labels) :
  let dirs := imagenet.sort names in
  let to_sample :=
    imagenet.to_sample ndarray imread cv2_resize ndarray_and ndarray_div normalize in
  let read_local :=
    imagenet.read_local ndarray listdir imread cv2_resize ndarray_and ndarray_div
      folder normalize in
  (Sorted imagenet.str_le dirs /\ dirs ≡ₚ names) /\
  (forall path l, label (to_sample (path, l)) = l) /\
  (forall samples, read_local = inr samples ->
     forall s, s ∈ samples <->
       exists d i files f,
         dirs !! i = Some d /\ (forall j, (j < i)%nat -> dirs !! j <> Some d) /\
         listdir (imagenet.join folder d) = inr files /\ f ∈ files /\
         s = to_sample (imagenet.join (imagenet.join folder d) f, Z.of_nat i + 1) /\
         label s = Z.of_nat i + 1 /\ 1 <= label s) /\
  ((forall d, d ∈ names -> exists files, listdir (imagenet.join folder d) = inr files) ->
     exists samples, read_local = inr samples) /\
  (exists samples,
     dl_classifier_lenet.get_mnist ndarray read_data_sets data_type location
       = inr samples /\
     length samples = length images /\
     forall i img l,
       images !! i = Some img -> labels !! i = Some l ->
       samples !! i = Some (from_ndarray img (l + 1)) /\ (0 <= l -> 1 <= l + 1)).
Proof.
  intros dirs to_sample read_local.
  assert (Hlabel : forall path l, label (to_sample (path, l)) = l) by reflexivity.
  split; [apply sort_sorted|]. split; [exact Hlabel|]. split; [|split].
  - intros samples. subst read_local.
    unfold imagenet.read_local, imagenet.read_local_images.
    rewrite Hfolder. simpl. fold dirs.
    destruct (res_fold _ dirs []) as [e|imgs] eqn:Hloop; simpl; [discriminate|].
    intros [= <-] s. fold to_sample.
    pose proof (outer_loop listdir folder dirs dirs [] imgs (fun d H => H) Hloop) as Hall.
    rewrite list_elem_of_fmap. split.
    + intros ([path l] & -> & Him). apply Hall in Him as [Him|(d & i & files & _ & Hi & Hf & Him)];
        [inversion Him|].
      apply list_elem_of_fmap in Him as (f & [= -> ->] & Hfi).
      apply index_first in Hi as [Hi1 Hi2].
      exists d, i, files, f. rewrite Hlabel. repeat split; auto. lia.
    + intros (d & i & files & f & Hd & Hfirst & Hf & Hfi & -> & _).
      exists (imagenet.join (imagenet.join folder d) f, Z.of_nat i + 1).
      split; [reflexivity|]. apply Hall. right.
      exists d, i, files. split; [now apply list_elem_of_lookup_2 with i|].
      split; [|split; [exact Hf|apply list_elem_of_fmap; eauto]].
      destruct (index_total dirs d) as [i' Hi']; [now apply list_elem_of_lookup_2 with i|].
      destruct (index_first _ _ _ Hi') as [H1 H2].
      destruct (Nat.lt_trichotomy i i') as [Hlt|[->|Hlt]]; [|exact Hi'|].
      * exfalso. exact (H2 i Hlt Hd).
      * exfalso. exact (Hfirst i' Hlt H1).
  - intros Hlist. subst read_local.
    unfold imagenet.read_local, imagenet.read_local_images.
    rewrite Hfolder. simpl. fold dirs.
    destruct (outer_loop_total listdir folder dirs dirs [] (fun d H => H)) as [imgs ->].
    + intros d Hd. apply Hlist.
      destruct (sort_sorted names) as [_ Hperm]. fold dirs in Hperm.
      now rewrite <- Hperm.
    + simpl. eauto.
  - unfold dl_classifier_lenet.get_mnist, dl_classifier_lenet.rdd_zip.
    rewrite Hmnist. simpl. rewrite Hsizes, Nat.eqb_refl. simpl.
    eexists. split; [reflexivity|]. split.
    + rewrite length_map, length_combine. lia.
    + intros i img l Hi Hl. split; [|lia].
      rewrite list_lookup_fmap.
      assert (combine images labels !! i = Some (img, l)) as ->; [|reflexivity].
      clear -Hi Hl. revert i labels Hi Hl.
      induction images as [|a imgs IH]; intros [|i] [|b lbls]; simpl; try discriminate.
      * intros [= ->] [= ->]. reflexivity.
      * apply IH.
Qed.

(** On the folder [pets] and on two digits: the folder is read, and every
    Sample of it carries a label from 1; the digits 7 and 0 are labelled 8
    and 1. *)
Lemma readers_label_from_one_witness :
  (exists samples,
     imagenet.read_local string pets (fun path _ => path) (fun img _ _ => img)
       (fun img _ => img) (fun img _ => img) "pets" 255 = inr samples /\
     forall s, s ∈ samples -> 1 <= label s) /\
  (exists samples,
     dl_classifier_lenet.get_mnist string two_digits "train" "/tmp/mnist" = inr samples /\
     samples !! 0%nat = Some (from_ndarray "seven" 8) /\
     samples !! 1%nat = Some (from_ndarray "zero" 1)).
Proof.
  destruct (readers_label_from_one string pets (fun path _ => path)
              (fun img _ _ => img) (fun img _ => img) (fun img _ => img)
              "pets" 255 ["dog"; "cat"; "ant"] two_digits "train" "/tmp/mnist"
              ["seven"; "zero"] [7; 0] eq_refl eq_refl eq_refl)
    as (_ & _ & Hsamples & Htotal & (digits & Hdigits & _ & Hlabels)).
  split.
  - destruct Htotal as [samples Hread].
    + intros d Hd. repeat (apply elem_of_cons in Hd as [->|Hd]; [vm_compute; eauto|]).
      inversion Hd.
    + exists samples. split; [exact Hread|].
      intros s Hs. apply (Hsamples samples Hread s) in Hs
        as (d & i & files & f & _ & _ & _ & _ & _ & _ & Hone).
      exact Hone.
  - exists digits. split; [exact Hdigits|]. split.
    + apply (Hlabels 0%nat "seven" 7); reflexivity.
    + apply (Hlabels 1%nat "zero" 0); reflexivity.
Defined.

(** ** The inference optimizer *)

Import InferenceOptimizer.

(** ** Reasoning on computations *)

Section wp_rules.
Context {S : Type}.

Lemma wp_ret {A} (a : A) (Q : res A -> S -> Prop) s :
  Q (inr a) s -> wp (ret a) Q s.
Proof. exact (fun H => H). Qed.

Lemma wp_raise {A} (e : exn) (Q : res A -> S -> Prop) s :
  Q (inl e) s -> wp (raise e) Q s.
Proof. exact (fun H => H). Qed.

Lemma wp_bind {A B} (m : SE S A) (k : A -> SE S B) (Q : res B -> S -> Prop) s :
  wp m (fun r s' => match r with
                    | inl e => Q (inl e) s'
                    | inr a => wp (k a) Q s'
                    end) s ->
  wp (bind m k) Q s.
Proof.
  unfold wp, bind. destruct (m s) as [[e|a] s']; simpl; auto.
Qed.

Lemma wp_attempt {A} (m : SE S A) (Q : res (res A) -> S -> Prop) s :
  wp m (fun r s' => Q (inr r) s') s -> wp (attempt m) Q s.
Proof. unfold wp, attempt. destruct (m s) as [r s']; simpl; auto. Qed.

Lemma wp_invalidInputError (condition : bool) errMsg (Q : res unit -> S -> Prop) s :
  (if condition then Q (inr tt) s else Q (inl (InvalidInputError errMsg)) s) ->
  wp (invalidInputError condition errMsg) Q s.
Proof. destruct condition; exact (fun H => H). Qed.

Lemma wp_mono {A} (m : SE S A) (Q Q' : res A -> S -> Prop) s :
  wp m Q s -> (forall r s', Q r s' -> Q' r s') -> wp m Q' s.
Proof. unfold wp. auto. Qed.

Lemma wp_run_elim {A} (m : SE S A) (Q : res A -> S -> Prop) s :
  wp m Q s -> forall r s', m s = (r, s') -> Q r s'.
Proof. unfold wp. intros H r s' E. now rewrite E in H. Qed.

Lemma wp_intro {A} (m : SE S A) (Q : res A -> S -> Prop) s :
  (forall r s', m s = (r, s') -> Q r s') -> wp m Q s.
Proof. unfold wp. intros H. apply H. now destruct (m s). Qed.

Lemma wp_eq {A} (m : SE S A) (Q : res A -> S -> Prop) s r s' :
  m s = (r, s') -> Q r s' -> wp m Q s.
Proof. unfold wp. now intros ->. Qed.

End wp_rules.

Section wp_optimizer.
Context {obj world : Type} (ext : External obj world).
Local Abbreviation state := (state obj world).
Local Abbreviation result_map_t := (PyDict.t (PyDict.t (pyval obj))).

Lemma wp_outside {A} (m : SE world A) (Q : res A -> state -> Prop) st :
  (forall r w, m (env st) = (r, w) -> Q r (with_env w st)) ->
  wp (outside m) Q st.
Proof.
  unfold wp, outside. intros H. destruct (m (env st)) as [r w] eqn:E.
  simpl. now apply H.
Qed.

Lemma wp_getitem {V} (d : PyDict.t V) k (Q : res V -> state -> Prop) st :
  match PyDict.get d k with
  | Some v => Q (inr v) st
  | None => Q (inl (KeyError k)) st
  end ->
  wp (getitem d k) Q st.
Proof. unfold getitem. destruct (PyDict.get d k); exact (fun H => H). Qed.

(** Assigning into the entry of a method that has one. *)
Lemma wp_setitem2 (rm : result_map_t) method key v entry
    (Q : res result_map_t -> state -> Prop) st :
  Q (inr (PyDict.set method (PyDict.set key v entry) rm)) st ->
  wp (setitem2 (PyDict.set method entry rm) method key v) Q st.
Proof.
  unfold wp, setitem2, bind, getitem. rewrite PyDict_get_set_eq. simpl.
  now rewrite PyDict_set_set.
Qed.

Lemma wp_print line (Q : res unit -> state -> Prop) st :
  Q (inr tt) (printed line st) -> wp (print line) Q st.
Proof. exact (fun H => H). Qed.

Lemma wp_record c (Q : res unit -> state -> Prop) st :
  Q (inr tt) (recorded c st) -> wp (record c) Q st.
Proof. exact (fun H => H). Qed.

Lemma wp_set_direction v (Q : res unit -> state -> Prop) st :
  Q (inr tt) (with_direction v st) -> wp (set_direction v) Q st.
Proof. exact (fun H => H). Qed.

Lemma wp_set_calculate_accuracy v (Q : res unit -> state -> Prop) st :
  Q (inr tt) (with_calculate_accuracy v st) -> wp (set_calculate_accuracy v) Q st.
Proof. exact (fun H => H). Qed.

Lemma wp_set_optimized_model_dict v (Q : res unit -> state -> Prop) st :
  Q (inr tt) (with_optimized_model_dict v st) -> wp (set_optimized_model_dict v) Q st.
Proof. exact (fun H => H). Qed.

Lemma wp_set_optimize_result v (Q : res unit -> state -> Prop) st :
  Q (inr tt) (with_optimize_result v st) -> wp (set_optimize_result v) Q st.
Proof. exact (fun H => H). Qed.

Lemma wp_get_calculate_accuracy (Q : res bool -> state -> Prop) st :
  match _calculate_accuracy st with
  | Some v => Q (inr v) st
  | None => Q (inl (AttributeError "_calculate_accuracy")) st
  end ->
  wp get_calculate_accuracy Q st.
Proof.
  unfold wp, get_calculate_accuracy.
  destruct (_calculate_accuracy st); exact (fun H => H).
Qed.

Lemma wp_get_optimize_result (Q : res string -> state -> Prop) st :
  match _optimize_result st with
  | Some v => Q (inr v) st
  | None => Q (inl (AttributeError "_optimize_result")) st
  end ->
  wp get_optimize_result Q st.
Proof.
  unfold wp, get_optimize_result.
  destruct (_optimize_result st); exact (fun H => H).
Qed.

Lemma wp_get_batched_validation_data l (Q : res obj -> state -> Prop) st :
  match l_batched_validation_data l with
  | Some d => Q (inr d) st
  | None => Q (inl (UnboundLocalError "batched_validation_data")) st
  end ->
  wp (get_batched_validation_data l) Q st.
Proof.
  unfold get_batched_validation_data.
  destruct (l_batched_validation_data l); exact (fun H => H).
Qed.

(** The loop, by an invariant [I] on the items done so far. *)
Lemma wp_enumerate_methods a l
    (I : list (string * bool) -> result_map_t -> state -> Prop)
    (E : exn -> state -> Prop) (items : list (string * bool)) :
  (forall idx done item rest rm st,
     items = done ++ item :: rest -> I done rm st ->
     wp (try_method ext a l idx rm item)
        (fun r st' => match r with
                      | inr rm' => I (done ++ [item]) rm' st'
                      | inl e => E e st'
                      end) st) ->
  forall idx rm st,
    I [] rm st ->
    wp (enumerate_methods ext a l idx items rm)
       (fun r st' => match r with
                     | inr rm' => I items rm' st'
                     | inl e => E e st'
                     end) st.
Proof.
  intros Hbody.
  assert (Hgen : forall rest done idx rm st,
            items = done ++ rest -> I done rm st ->
            wp (enumerate_methods ext a l idx rest rm)
               (fun r st' => match r with
                             | inr rm' => I items rm' st'
                             | inl e => E e st'
                             end) st).
  { induction rest as [|item rest IH]; intros done idx rm st Hitems HI.
    - simpl. apply wp_ret. rewrite app_nil_r in Hitems. now subst.
    - simpl. apply wp_bind.
      eapply wp_mono; [apply (Hbody idx done item rest rm st Hitems HI)|].
      intros [e|rm'] st'; [auto|]. intros HI'.
      apply (IH (done ++ [item])); [|exact HI'].
      now rewrite <- app_assoc. }
  intros idx rm st HI. now apply (Hgen items []).
Qed.
End wp_optimizer.

Ltac wp_step :=
  lazymatch goal with
  | |- wp (bind _ _) _ _ => apply wp_bind
  | |- wp (ret _) _ _ => apply wp_ret
  | |- wp (raise _) _ _ => apply wp_raise
  | |- wp (attempt _) _ _ => apply wp_attempt
  | |- wp (invalidInputError _ _) _ _ => apply wp_invalidInputError
  | |- wp (setitem2 (PyDict.set ?m _ _) ?m _ _) _ _ => apply wp_setitem2
  | |- wp (getitem _ _) _ _ => apply wp_getitem
  | |- wp (print _) _ _ => apply wp_print
  | |- wp (record _) _ _ => apply wp_record
  | |- wp (set_direction _) _ _ => apply wp_set_direction
  | |- wp (set_calculate_accuracy _) _ _ => apply wp_set_calculate_accuracy
  | |- wp (set_optimized_model_dict _) _ _ => apply wp_set_optimized_model_dict
  | |- wp (set_optimize_result _) _ _ => apply wp_set_optimize_result
  | |- wp get_calculate_accuracy _ _ => apply wp_get_calculate_accuracy
  | |- wp get_optimize_result _ _ => apply wp_get_optimize_result
  | |- wp (get_batched_validation_data _) _ _ => apply wp_get_batched_validation_data
  | |- wp (outside _) _ _ => apply wp_outside; intros ? ? ?
  | |- wp (if ?b then _ else _) _ _ => destruct b eqn:?
  | |- wp (match ?x with _ => _ end) _ _ => destruct x eqn:?
  | |- match ?x with _ => _ end => destruct x eqn:?
  end.

Ltac wp_run := repeat (wp_step; cbv beta iota zeta).

(** The projections of a state after the updates of a run. *)
Ltac state_simpl :=
  cbn [env stdout calls _direction _calculate_accuracy optimized_model_dict
       _optimize_result with_env printed recorded with_direction
       with_calculate_accuracy with_optimized_model_dict with_optimize_result] in *.

(** *** The body of the loop *)

Ltac unfold_body :=
  unfold try_method, measure_latency, record_accuracy_and_model; cbv beta iota zeta.

Ltac new_calls :=
  state_simpl; rewrite <- ?app_assoc;
  first [ eexists; split; [reflexivity|]
        | exists []; split; [now rewrite app_nil_r|] ].

Ltac accuracy_case :=
  simplify_eq;
  try match goal with H : _ && _ = _ |- _ => rewrite H end;
  repeat match goal with
  | H : get_precision _ _ = "fp32" |- _ => rewrite H in *; clear H
  | H : (_ =? "original") = _ |- _ => rewrite H in *; clear H
  end;
  cbn [negb] in *; rewrite ?andb_true_r, ?andb_false_r in *;
  try match goal with H : ("fp32" =? "fp32") = false |- _ => discriminate H end;
  try match goal with H : (_ =? "fp32") = _ |- _ => rewrite H end;
  cbn; try discriminate; try congruence;
  try (split;
       [ first [reflexivity | eauto]
       | first [apply list_elem_of_here | intros Hin; inversion Hin] ]).

Section loop_body.
Context {obj world : Type} (ext : External obj world).
Local Abbreviation state := (state obj world).
Local Abbreviation result_map_t := (PyDict.t (PyDict.t (pyval obj))).

Lemma not_original_early_stop (b : bool) (method : string) :
  negb b && negb (method =? "original") = true -> method <> "original".
Proof.
  intros H ->. simpl in H. now rewrite andb_false_r in H.
Qed.

Lemma try_method_entry a l idx rm method available st :
  wp (try_method ext a l idx rm (method, available))
     (fun r _ =>
        match r with
        | inr rm' => exists e, rm' = PyDict.set method e rm /\ entry_ok method e
        | inl _ => True
        end) st.
Proof.
  unfold_body. wp_run.
  all: try exact I.
  all: eexists; split; [reflexivity|].
  all: unfold entry_ok, statuses; cbn.
  all: repeat split; try discriminate; try congruence.
  all: try (eexists; split; [reflexivity|]; repeat constructor).
  all: exfalso; eapply not_original_early_stop; eauto.
Qed.

Lemma try_method_calls a l idx rm method available st :
  wp (try_method ext a l idx rm (method, available))
     (fun r st' =>
        (_direction st' = _direction st /\
         optimized_model_dict st' = optimized_model_dict st /\
         _optimize_result st' = _optimize_result st) /\
        exists new,
          calls st' = calls st ++ new /\
          Forall (call_ok a l method) new /\
          attempted new `prefix_of` (if available then [method] else []) /\
          (forall rm', r = inr rm' ->
             attempted new = if available then [method] else [])) st.
Proof.
  unfold_body. wp_run.
  all: split; [state_simpl; auto|].
  all: new_calls.
  all: destruct available; try discriminate.
  all: split; [repeat constructor|].
  all: split; [cbn; try reflexivity; try apply prefix_nil|].
  all: try (intros ? [=]); try reflexivity.
Qed.


Lemma try_method_accuracy a l idx rm method available st :
  wp (try_method ext a l idx rm (method, available))
     (fun r st' =>
        (_calculate_accuracy st' = _calculate_accuracy st \/
         (_calculate_accuracy st = Some true /\
          _calculate_accuracy st' = Some false /\ method = "original")) /\
        exists new,
          calls st' = calls st ++ new /\
          (_calculate_accuracy st <> Some true -> accuracy_measured new = []) /\
          (forall m, m ∈ accuracy_measured new ->
             m = method /\
             forall option,
               PyDict.get ALL_INFERENCE_ACCELERATION_METHOD method = Some option ->
               get_precision ext option = "fp32" -> method = "original") /\
          forall rm', r = inr rm' ->
            exists e,
              rm' = PyDict.set method e rm /\
              (PyDict.get e "status" = Some (PyStr "successful") ->
                 (_calculate_accuracy st = Some false ->
                    PyDict.get e "accuracy" = Some PyNone) /\
                 (_calculate_accuracy st' = Some true ->
                    forall option,
                      PyDict.get ALL_INFERENCE_ACCELERATION_METHOD method = Some option ->
                      if String.eqb (get_precision ext option) "fp32"
                         && negb (String.eqb method "original")
                      then PyDict.get e "accuracy" = Some (PyStr "not recomputed")
                           /\ method ∉ accuracy_measured new
                      else (exists v, PyDict.get e "accuracy" = Some (PyFloat v))
                           /\ method ∈ accuracy_measured new))) st.
Proof.
  unfold_body. wp_run.
  all: state_simpl.
  all: split;
    [first [left; reflexivity | left; congruence
           | right; repeat split; auto; now apply String.eqb_eq]|].
  all: new_calls.
  all: split; [intros Hcalc; cbn; first [reflexivity | exfalso; apply Hcalc; congruence]|].
  all: split;
    [cbn; intros m Hm;
     first [ now inversion Hm
           | apply list_elem_of_singleton in Hm; split; [assumption|];
             intros option' Hopt Hfp;
             first [now apply String.eqb_eq | solve [accuracy_case] ] ]
    |].
  all: intros rm' Hrm'; try discriminate Hrm'; injection Hrm' as <-.
  all: eexists; split; [reflexivity|].
  all: cbn; intros Hstatus; try discriminate Hstatus.
  all: split; [intros Hfalse; first [reflexivity | congruence]|].
  all: intros Htrue option' Hopt; try congruence.
  all: accuracy_case.
Qed.
End loop_body.

(** *** The phases of [optimize] *)

Section phases.
Context {obj world : Type} (ext : External obj world).
Local Abbreviation state := (state obj world).
Local Abbreviation result_map_t := (PyDict.t (PyDict.t (pyval obj))).

(** The checks on the arguments change nothing; they pass exactly when the
    three conditions hold. *)
Lemma check_arguments_spec a st :
  wp (check_arguments ext a)
     (fun r st' =>
        st' = st /\
        match r with
        | inr _ =>
            isinstance_Model ext (model a) = true /\
            direction a ∈ ["min"; "max"] /\
            (y a <> None \/ isinstance_Dataset ext (x a) = true)
        | inl e =>
            (isinstance_Model ext (model a) = false \/
             direction a ∉ ["min"; "max"] \/
             (y a = None /\ isinstance_Dataset ext (x a) = false)) /\
            exists errMsg,
              e = InvalidInputError errMsg /\
              errMsg ∈ ["model should be a Keras Model.";
                        "Only support direction 'min', 'max'.";
                        y_omitted_message]
        end) st.
Proof.
  unfold check_arguments. wp_run.
  all: split; [reflexivity|].
  all: repeat match goal with
       | H : bool_decide _ = true |- _ => apply bool_decide_eq_true_1 in H
       | H : bool_decide _ = false |- _ => apply bool_decide_eq_false_1 in H
       | H : _ || _ = true |- _ => apply orb_true_iff in H as [H|H]
       | H : _ || _ = false |- _ => apply orb_false_iff in H as [? ?]
       end.
  all: try (split; [|eexists; split; [reflexivity|repeat constructor]]).
  all: auto.
  right. right. split; [|assumption].
  destruct (y a); [|reflexivity].
  match goal with H : ~ _ |- _ => exfalso; apply H; discriminate end.
Qed.

(** The preparation records no call and no result; it gives the methods of
    the checker, and sets [_calculate_accuracy] to whether both
    [validation_data] and [metric] were given, the batched validation data
    being bound in that case. *)
Lemma prepare_spec a st :
  wp (prepare ext a)
     (fun r st' =>
        calls st' = calls st /\
        optimized_model_dict st' = optimized_model_dict st /\
        forall p, r = inr p ->
          p_available_dict p =
            available_acceleration_combination ext (excludes a) (includes a)
              ALL_INFERENCE_ACCELERATION_METHOD /\
          _calculate_accuracy st' = Some (both_given a) /\
          (both_given a = true -> p_batched_validation_data p <> None)) st.
Proof.
  unfold prepare, both_given. wp_run.
  all: state_simpl; split; [reflexivity|]; split; [reflexivity|].
  all: intros p' Hp'; try discriminate Hp'; injection Hp' as <-.
  all: cbn; repeat split; auto; discriminate.
Qed.

(** Measuring the baseline touches the world only. *)
Lemma measure_baseline_spec model input_sample st :
  wp (measure_baseline ext model input_sample)
     (fun r st' =>
        calls st' = calls st /\
        optimized_model_dict st' = optimized_model_dict st /\
        _calculate_accuracy st' = _calculate_accuracy st /\
        forall b, r = inr b -> snd b = choose_sample_size_for_pot (fst b)) st.
Proof.
  unfold measure_baseline. wp_run.
  all: state_simpl; split; [reflexivity|]; split; [reflexivity|]; split; [reflexivity|].
  all: intros b' Hb'; try discriminate Hb'; injection Hb' as <-; reflexivity.
Qed.

(** The report keeps the map as [optimized_model_dict]. *)
Lemma report_spec result_map start_time st :
  wp (report ext result_map start_time)
     (fun r st' =>
        calls st' = calls st /\
        _calculate_accuracy st' = _calculate_accuracy st /\
        (r = inr tt -> optimized_model_dict st' = Some result_map)) st.
Proof.
  unfold report. wp_run.
  all: state_simpl; split; [reflexivity|]; split; [congruence|].
  all: intros Hr; try discriminate Hr; reflexivity.
Qed.

(** A run of [optimize] either stops before the loop, with no call and no
    result recorded, or reaches the loop. *)
Lemma optimize_phases a st r st' :
  optimize ext a st = (r, st') ->
  (r <> inr tt /\ calls st' = calls st /\
   optimized_model_dict st' = optimized_model_dict st) \/
  reaches_loop ext a st r st'.
Proof.
  revert r st'. apply wp_run_elim.
  unfold optimize. apply wp_bind.
  apply wp_intro. intros r0 s0 Hcheck.
  destruct (wp_run_elim _ _ _ (check_arguments_spec a st) _ _ Hcheck) as [-> H0].
  destruct r0 as [e|[]]; [left; repeat split; auto; discriminate|].
  apply wp_bind. apply wp_intro. intros r1 s1 Hprepare.
  destruct (wp_run_elim _ _ _ (prepare_spec a st) _ _ Hprepare) as (Hc1 & Hd1 & Hp).
  destruct r1 as [e|p]; [left; repeat split; auto; discriminate|].
  destruct (Hp p eq_refl) as (Havail & Hcalc & Hbound). clear Hp.
  cbv beta iota zeta. apply wp_bind. apply wp_intro. intros r2 s2 Hbaseline.
  destruct (wp_run_elim _ _ _ (measure_baseline_spec _ _ s1) _ _ Hbaseline)
    as (Hc2 & Hd2 & Hcalc2 & Hb).
  destruct r2 as [e|b]; [left; repeat split; try congruence; discriminate|].
  specialize (Hb b eq_refl).
  apply wp_bind, wp_print. apply wp_bind, wp_outside. intros [e|start_time] w Hw.
  { left. state_simpl. repeat split; try congruence; discriminate. }
  apply wp_bind. apply wp_intro. intros rl st1 Hloop.
  assert (Hrest : forall r' (s' : state),
            match rl with
            | inl e => r' = inl e
            | inr result_map =>
                r' = inr tt -> optimized_model_dict s' = Some result_map
            end ->
            calls s' = calls st1 ->
            _calculate_accuracy s' = _calculate_accuracy st1 ->
            reaches_loop ext a st r' s').
  { intros r' s' H1 H2 H3.
    match type of Hloop with
    | enumerate_methods _ _ _ _ _ _ ?s0 = _ => exists p, s1, b, s2, s0, rl, st1
    end.
    split; [exact Hcheck|]. split; [exact Hprepare|]. split; [exact Hbaseline|].
    split; [|split; [|split; [|split; [|split; [|split; [exact Hloop|]]]]]];
      state_simpl; try congruence; auto. }
  destruct rl as [e|result_map].
  - right. apply Hrest; auto.
  - eapply wp_mono; [apply report_spec|].
    intros r' s' (H1 & H2 & H3). right. apply Hrest; auto.
Qed.
End phases.

(** *** The loop *)

Section loop.
Context {obj world : Type} (ext : External obj world).
Local Abbreviation state := (state obj world).
Local Abbreviation result_map_t := (PyDict.t (PyDict.t (pyval obj))).

(** The keys of the map are the methods done, each once, and every entry
    is as the body leaves it. *)
Lemma enumerate_methods_entries a l items idx st :
  wp (enumerate_methods ext a l idx items [])
     (fun r _ =>
        forall rm, r = inr rm ->
          NoDup (PyDict.keys rm) /\
          (forall m, m ∈ PyDict.keys rm <-> m ∈ PyDict.keys items) /\
          forall m e, PyDict.get rm m = Some e -> entry_ok m e) st.
Proof.
  eapply wp_mono.
  - apply (wp_enumerate_methods ext a l
             (fun done rm _ =>
                NoDup (PyDict.keys rm) /\
                (forall m, m ∈ PyDict.keys rm <-> m ∈ PyDict.keys done) /\
                forall m e, PyDict.get rm m = Some e -> entry_ok m e)
             (fun _ _ => True) items).
    + intros idx' done [method available] rest rm s _ (Hnd & Hkeys & Hentries).
      eapply wp_mono; [apply try_method_entry|].
      intros [e|rm'] _; [auto|]. intros (entry & -> & Hok).
      split; [now apply PyDict_NoDup_keys_set|]. split.
      * intros m. rewrite PyDict_elem_of_keys_set, Hkeys. unfold PyDict.keys.
        rewrite map_app. simpl. rewrite elem_of_app, list_elem_of_singleton. tauto.
      * intros m e. destruct (decide (method = m)) as [<-|Hne].
        -- rewrite PyDict_get_set_eq. now intros [= <-].
        -- rewrite PyDict_get_set_ne by assumption. apply Hentries.
    + split; [constructor|]. split; [reflexivity|]. discriminate.
  - intros [e|rm] _ H rm' Hr; [discriminate|]. now injection Hr as <-.
Qed.

(** The map keeps the order of the dictionary of methods. *)
Lemma enumerate_methods_keys a l items idx st :
  NoDup (PyDict.keys items) ->
  wp (enumerate_methods ext a l idx items [])
     (fun r _ => forall rm, r = inr rm -> PyDict.keys rm = PyDict.keys items) st.
Proof.
  intros Hnd. eapply wp_mono.
  - apply (wp_enumerate_methods ext a l
             (fun done rm _ => PyDict.keys rm = PyDict.keys done)
             (fun _ _ => True) items).
    + intros idx' done [method available] rest rm s Hitems Hkeys.
      eapply wp_mono; [apply try_method_entry|].
      intros [e|rm'] _; [auto|]. intros (entry & -> & _).
      rewrite PyDict_keys_set, Hkeys. unfold PyDict.keys. rewrite map_app. simpl.
      rewrite bool_decide_eq_false_2; [reflexivity|].
      subst items. unfold PyDict.keys in Hnd. rewrite map_app in Hnd. simpl in Hnd.
      apply NoDup_app in Hnd as (_ & Hnot & _). intros Hin.
      apply (Hnot method Hin). apply list_elem_of_here.
    + reflexivity.
  - intros [e|rm] _ H rm' Hr; [discriminate|]. now injection Hr as <-.
Qed.

End loop.

Section loop_calls.
Context {obj world : Type} (ext : External obj world).
Local Abbreviation state := (state obj world).
Local Abbreviation result_map_t := (PyDict.t (PyDict.t (pyval obj))).

Lemma attempted_app (cs cs' : list (called obj)) :
  attempted (cs ++ cs') = attempted cs ++ attempted cs'.
Proof. apply omap_app. Qed.

Lemma accuracy_measured_app (cs cs' : list (called obj)) :
  accuracy_measured (cs ++ cs') = accuracy_measured cs ++ accuracy_measured cs'.
Proof. apply omap_app. Qed.

Lemma available_methods_app (d d' : PyDict.t bool) :
  available_methods (d ++ d') = available_methods d ++ available_methods d'.
Proof. apply omap_app. Qed.

(** The calls of the loop: every call carries the values of the enclosing
    function, and the conversions are attempted for the available methods, in
    the order of the dictionary; all of them when the loop ends. *)
Lemma enumerate_methods_calls a l items idx rm st :
  wp (enumerate_methods ext a l idx items rm)
     (fun r st' =>
        exists new,
          calls st' = calls st ++ new /\
          Forall (fun c => exists method, call_ok a l method c) new /\
          attempted new `prefix_of` available_methods items /\
          (forall rm', r = inr rm' -> attempted new = available_methods items)) st.
Proof.
  eapply wp_mono.
  - apply (wp_enumerate_methods ext a l
             (fun done _ s =>
                exists new,
                  calls s = calls st ++ new /\
                  Forall (fun c => exists method, call_ok a l method c) new /\
                  attempted new = available_methods done)
             (fun _ s =>
                exists new,
                  calls s = calls st ++ new /\
                  Forall (fun c => exists method, call_ok a l method c) new /\
                  attempted new `prefix_of` available_methods items) items).
    + intros idx' done [method available] rest rm0 s -> (new & Hcalls & Hok & Hatt).
      eapply wp_mono; [apply try_method_calls|].
      intros r s' (_ & nb & Hcalls' & Hok' & Hprefix & Hall).
      assert (Hnew : calls s' = calls st ++ new ++ nb)
        by now rewrite Hcalls', Hcalls, app_assoc.
      assert (Hoks : Forall (fun c => exists method, call_ok a l method c) (new ++ nb)).
      { apply Forall_app. split; [exact Hok|].
        eapply Forall_impl; [exact Hok'|]. eauto. }
      destruct r as [e|rm'].
      * exists (new ++ nb). split; [exact Hnew|]. split; [exact Hoks|].
        rewrite attempted_app, Hatt, available_methods_app.
        apply prefix_app. etransitivity; [exact Hprefix|].
        unfold available_methods. simpl. destruct available; [|apply prefix_nil].
        apply prefix_cons, prefix_nil.
      * exists (new ++ nb). split; [exact Hnew|]. split; [exact Hoks|].
        rewrite attempted_app, Hatt, (Hall rm' eq_refl), available_methods_app.
        unfold available_methods. simpl. now destruct available.
    + exists []. split; [now rewrite app_nil_r|]. split; [constructor|reflexivity].
  - intros [e|rm'] s'.
    + intros (new & H1 & H2 & H3). exists new. repeat split; auto. discriminate.
    + intros (new & H1 & H2 & H3). exists new. repeat split; auto.
      now rewrite H3.
Qed.
End loop_calls.

(** *** Where the exceptions of a run come from *)

Section provenance.
Context {obj world : Type} (ext : External obj world).
Local Abbreviation state := (state obj world).
Local Abbreviation result_map_t := (PyDict.t (PyDict.t (pyval obj))).
Variable P : exn -> Prop.
Hypothesis Honly : only_converters_raise ext P.

Lemma raises_none_of_bind {S A B} (m : SE S A) (k : A -> SE S B) :
  raises_none_of P m -> (forall a, raises_none_of P (k a)) ->
  raises_none_of P (bind m k).
Proof.
  intros Hm Hk s e s'. unfold bind.
  destruct (m s) as [[e'|a] s1] eqn:E.
  - intros [= <- <-]. eapply Hm; eauto.
  - apply Hk.
Qed.

Lemma raises_none_of_ret {S A} (a : A) : raises_none_of P (@ret S A a).
Proof. intros s e s'. discriminate. Qed.

Lemma accuracy_calculate_helper_raises model metric data :
  raises_none_of P (_accuracy_calculate_helper ext model metric data).
Proof.
  destruct Honly as (_ & _ & _ & _ & _ & _ & _ & _ & _ & _ & _ & Hcall & _ & _ &
                     Hiterate & Hupdate & Hresult).
  unfold _accuracy_calculate_helper.
  apply raises_none_of_bind; [apply Hiterate|]. intros pairs.
  apply raises_none_of_bind; [|intros _; apply Hresult].
  generalize tt. induction pairs as [|[data_input target] pairs IH]; intros u; simpl.
  - apply raises_none_of_ret.
  - apply raises_none_of_bind; [|intros ?; apply IH].
    apply raises_none_of_bind; [apply Hcall|]. intros y_pred. apply Hupdate.
Qed.

Lemma make_input_sample_raises a :
  raises_none_of P (make_input_sample ext a).
Proof.
  destruct Honly as (_ & _ & _ & _ & _ & _ & _ & Hbatch & Hnext & Hlast & Htensor & _).
  unfold make_input_sample.
  apply raises_none_of_bind.
  - destruct (isinstance_Dataset ext (x a)); [|apply Htensor].
    apply raises_none_of_bind; [apply Hbatch|]. intros ?.
    apply raises_none_of_bind; [apply Hnext|]. intros ?. apply Hlast.
  - intros input_sample. destruct (as_sequence ext input_sample) as [[|? [|? ?]]|];
      apply raises_none_of_ret.
Qed.

Ltac own_exception :=
  destruct Honly as (? & ? & ? & ? & ? & _);
  intros ? [= <-]; auto.

Ltac outside_exception :=
  let e := fresh "e" in
  intros e [= <-];
  match goal with
  | H : _accuracy_calculate_helper _ _ _ _ _ = (inl _, _) |- _ =>
      exact (accuracy_calculate_helper_raises _ _ _ _ _ _ H)
  | H : make_input_sample _ _ _ = (inl _, _) |- _ =>
      exact (make_input_sample_raises _ _ _ _ H)
  | H : _ = (inl ?e', _) |- ~ P ?e' =>
      destruct Honly as (_ & _ & _ & _ & _ & ? & ? & ? & ? & ? & ? & ? & ? & ? & ? & ? & ?);
      unfold raises_none_of in *; eauto
  | H : int_of_str _ _ = inl ?e' |- ~ P ?e' =>
      destruct Honly as (_ & _ & _ & _ & _ & Hint & _); exact (Hint _ _ H)
  end.

Lemma try_method_raises a l idx rm item st :
  wp (try_method ext a l idx rm item)
     (fun r _ => forall e, r = inl e -> ~ P e) st.
Proof.
  destruct item as [method available].
  unfold_body. wp_run.
  all: try (intros ? ?; discriminate).
  all: first [outside_exception | own_exception].
Qed.

Lemma enumerate_methods_raises a l items idx rm st :
  wp (enumerate_methods ext a l idx items rm)
     (fun r _ => forall e, r = inl e -> ~ P e) st.
Proof.
  eapply wp_mono.
  - apply (wp_enumerate_methods ext a l (fun _ _ _ => True) (fun e _ => ~ P e) items).
    + intros idx' done item rest rm0 s _ _.
      eapply wp_mono; [apply try_method_raises|].
      intros [e|rm'] s' H; [now apply H|exact I].
    + exact I.
  - intros [e|rm'] s' H e'; [now intros [= <-]|discriminate].
Qed.

Lemma check_arguments_raises a st :
  wp (check_arguments ext a) (fun r _ => forall e, r = inl e -> ~ P e) st.
Proof.
  unfold check_arguments. wp_run.
  all: try (intros ? ?; discriminate).
  all: own_exception.
Qed.

Lemma prepare_raises a st :
  wp (prepare ext a) (fun r _ => forall e, r = inl e -> ~ P e) st.
Proof.
  unfold prepare. wp_run.
  all: try (intros ? ?; discriminate).
  all: first [outside_exception | own_exception].
Qed.

Lemma measure_baseline_raises model input_sample st :
  wp (measure_baseline ext model input_sample)
     (fun r _ => forall e, r = inl e -> ~ P e) st.
Proof.
  unfold measure_baseline. wp_run.
  all: try (intros ? ?; discriminate).
  all: first [outside_exception | own_exception].
Qed.

Lemma report_raises result_map start_time st :
  wp (report ext result_map start_time)
     (fun r _ => forall e, r = inl e -> ~ P e) st.
Proof.
  unfold report. wp_run.
  all: try (intros ? ?; discriminate).
  all: first [outside_exception | own_exception].
Qed.

(** No exception of a kind that only the converters raise leaves
    [optimize]. *)
Lemma optimize_raises a st :
  wp (optimize ext a) (fun r _ => forall e, r = inl e -> ~ P e) st.
Proof.
  unfold optimize.
  apply wp_bind. eapply wp_mono; [apply check_arguments_raises|].
  intros [e|[]] s0 H0; [intros ? [= <-]; now apply (H0 _ eq_refl)|].
  apply wp_bind. eapply wp_mono; [apply prepare_raises|].
  intros [e|p] s1 H1; [intros ? [= <-]; now apply (H1 _ eq_refl)|]. cbv beta iota zeta.
  apply wp_bind. eapply wp_mono; [apply measure_baseline_raises|].
  intros [e|b] s2 H2; [intros ? [= <-]; now apply (H2 _ eq_refl)|].
  apply wp_bind, wp_print. apply wp_bind, wp_outside. intros [e|start_time] w Hw.
  { outside_exception. }
  apply wp_bind. eapply wp_mono; [apply enumerate_methods_raises|].
  intros [e|result_map] s3 H3; [intros ? [= <-]; now apply (H3 _ eq_refl)|].
  apply report_raises.
Qed.
End provenance.

Section loop_accuracy.
Context {obj world : Type} (ext : External obj world).
Local Abbreviation state := (state obj world).
Local Abbreviation result_map_t := (PyDict.t (PyDict.t (pyval obj))).

(** The accuracy along the loop.  [_calculate_accuracy] can only go from
    [True] to [False]; while it is [False] the helper is not called and the
    accuracy of a successful entry is [None]; the helper is never called for
    a method of precision fp32 other than "original"; and when the flag is
    still [True] at the end, the successful entries are as
    [accuracy_when_calculated] says. *)
Lemma enumerate_methods_accuracy a l items idx st :
  wp (enumerate_methods ext a l idx items [])
     (fun r st' =>
        forall rm, r = inr rm ->
        (_calculate_accuracy st' = _calculate_accuracy st \/
         (_calculate_accuracy st = Some true /\ _calculate_accuracy st' = Some false)) /\
        exists new,
          calls st' = calls st ++ new /\
          (_calculate_accuracy st <> Some true -> accuracy_measured new = []) /\
          (forall m, m ∈ accuracy_measured new ->
             forall option,
               PyDict.get ALL_INFERENCE_ACCELERATION_METHOD m = Some option ->
               get_precision ext option = "fp32" -> m = "original") /\
            forall m e,
              PyDict.get rm m = Some e ->
              PyDict.get e "status" = Some (PyStr "successful") ->
              (_calculate_accuracy st = Some false ->
                 PyDict.get e "accuracy" = Some PyNone) /\
              (_calculate_accuracy st' = Some true ->
                 accuracy_when_calculated ext m e (accuracy_measured new))) st.
Proof.
  eapply wp_mono.
  - apply (wp_enumerate_methods ext a l
             (fun _ rm s =>
                (_calculate_accuracy s = _calculate_accuracy st \/
                 (_calculate_accuracy st = Some true /\ _calculate_accuracy s = Some false)) /\
                exists new,
                  calls s = calls st ++ new /\
                  (_calculate_accuracy st <> Some true -> accuracy_measured new = []) /\
                  (forall m, m ∈ accuracy_measured new ->
                     forall option,
                       PyDict.get ALL_INFERENCE_ACCELERATION_METHOD m = Some option ->
                       get_precision ext option = "fp32" -> m = "original") /\
                  forall m e,
                    PyDict.get rm m = Some e ->
                    PyDict.get e "status" = Some (PyStr "successful") ->
                    (_calculate_accuracy st = Some false ->
                       PyDict.get e "accuracy" = Some PyNone) /\
                    (_calculate_accuracy s = Some true ->
                       accuracy_when_calculated ext m e (accuracy_measured new)))
             (fun _ _ => True) items).
    + intros idx' done [method available] rest rm s _
        (Hflag & new & Hcalls & Hoff & Hfp32 & Hentries).
      eapply wp_mono; [apply try_method_accuracy|].
      intros r s' (Hflag' & nb & Hcalls' & Hoff' & Hfp32' & Hbody).
      destruct r as [e|rm']; [exact I|].
      destruct (Hbody rm' eq_refl) as (entry & -> & Hentry). clear Hbody.
      split.
      { destruct Hflag' as [->|(H1 & H2 & _)]; [exact Hflag|].
        right. split; [|exact H2]. destruct Hflag as [<-|[? ?]]; congruence. }
      exists (new ++ nb). split; [now rewrite Hcalls', Hcalls, app_assoc|].
      rewrite accuracy_measured_app. split; [|split].
      * intros Hst. rewrite (Hoff Hst), Hoff'; [reflexivity|].
        destruct Hflag as [->|[? ?]]; congruence.
      * intros m Hm option Hopt Hprecision.
        apply elem_of_app in Hm as [Hm|Hm]; [eapply Hfp32; eauto|].
        destruct (Hfp32' m Hm) as [-> Horiginal]. eauto.
      * intros m e. destruct (decide (method = m)) as [<-|Hne].
        -- rewrite PyDict_get_set_eq. intros [= <-] Hstatus.
           destruct (Hentry Hstatus) as [Hnone Hcalculated]. split.
           ++ intros Hst. apply Hnone. destruct Hflag as [->|[? ?]]; congruence.
           ++ intros Hs' option Hopt. specialize (Hcalculated Hs' option Hopt).
              destruct (_ && _); [tauto|]. destruct Hcalculated as [Hv Hin].
              split; [exact Hv|]. apply elem_of_app. now right.
        -- rewrite PyDict_get_set_ne by assumption. intros He Hstatus.
           destruct (Hentries m e He Hstatus) as [Hnone Hcalculated].
           split; [exact Hnone|].
           intros Hs'. assert (Hs : _calculate_accuracy s = Some true).
           { destruct Hflag' as [<-|(? & ? & ?)]; congruence. }
           intros option Hopt. specialize (Hcalculated Hs option Hopt).
           destruct (_ && _); [exact Hcalculated|].
           destruct Hcalculated as [Hv Hin]. split; [exact Hv|].
           apply elem_of_app. now left.
    + split; [now left|]. exists []. split; [now rewrite app_nil_r|].
      split; [reflexivity|]. split; [intros m Hm; inversion Hm|]. discriminate.
  - intros [e|rm'] s' H rm Hr; [discriminate|]. injection Hr as <-. exact H.
Qed.

(** A number kept as the accuracy of an entry is the value the helper
    returned for the model of the entry. *)
Lemma try_method_measured_value a l idx rm method available st :
  wp (try_method ext a l idx rm (method, available))
     (fun r _ =>
        forall rm', r = inr rm' ->
          exists e,
            rm' = PyDict.set method e rm /\
            forall v, PyDict.get e "accuracy" = Some (PyFloat v) ->
                      accuracy_is_measured_value ext a l method e v) st.
Proof.
  unfold_body. wp_run.
  all: intros rm' Hr; try discriminate Hr; injection Hr as <-.
  all: eexists; split; [reflexivity|].
  all: cbn; intros v Hv; try discriminate Hv; injection Hv as <-.
  all: state_simpl; unfold accuracy_is_measured_value.
  all: do 9 eexists.
  all: split; [eassumption|]; split; [eassumption|]; split; [eassumption|].
  all: split; [eassumption|]; split; [eassumption|]; split; reflexivity.
Qed.

Lemma enumerate_methods_measured_value a l items idx st :
  wp (enumerate_methods ext a l idx items [])
     (fun r _ =>
        forall rm, r = inr rm ->
          forall method e v,
            PyDict.get rm method = Some e ->
            PyDict.get e "accuracy" = Some (PyFloat v) ->
            accuracy_is_measured_value ext a l method e v) st.
Proof.
  eapply wp_mono.
  - apply (wp_enumerate_methods ext a l
             (fun _ rm _ =>
                forall method e v,
                  PyDict.get rm method = Some e ->
                  PyDict.get e "accuracy" = Some (PyFloat v) ->
                  accuracy_is_measured_value ext a l method e v)
             (fun _ _ => True) items).
    + intros idx' done [method available] rest rm s _ Hentries.
      eapply wp_mono; [apply try_method_measured_value|].
      intros [e|rm'] _ Hstep; [exact I|].
      destruct (Hstep rm' eq_refl) as (entry & -> & Hentry).
      intros m e v. destruct (decide (method = m)) as [<-|Hne].
      * rewrite PyDict_get_set_eq. intros [= <-]. apply Hentry.
      * rewrite PyDict_get_set_ne by assumption. apply Hentries.
    + discriminate.
  - intros [e|rm] _ H rm' Hr; [discriminate|]. now injection Hr as <-.
Qed.

(** The validation data the loop reads is [validation_data] batched by
    [batch_size]. *)
Lemma prepare_batched_validation_data a st :
  wp (prepare ext a)
     (fun r _ => forall p, r = inr p -> batched_validation_data_of ext a p) st.
Proof.
  unfold prepare, batched_validation_data_of. wp_run.
  all: intros p' Hp'; try discriminate Hp'; injection Hp' as <-.
  all: cbn [p_batched_validation_data]; simplify_eq.
  all: first [reflexivity | do 3 eexists; split; [eassumption|reflexivity]].
Qed.

End loop_accuracy.

(** The available methods of the modelled checker are the selected methods
    of the table whose dependencies are met, in the order of the table. *)
Lemma available_methods_of (dependency_met : TFAccelerationOption -> bool)
    (excludes includes : option (list string))
    (full_methods table : PyDict.t TFAccelerationOption) :
  available_methods
    (map (fun kv : string * TFAccelerationOption => (fst kv, dependency_met (snd kv)))
       (filter (fun kv : string * TFAccelerationOption =>
                  selected excludes includes full_methods (fst kv)) table))
  = map fst
      (filter (fun kv : string * TFAccelerationOption =>
                 selected excludes includes full_methods (fst kv) /\
                 dependency_met (snd kv) = true) table).
Proof.
  induction table as [|[m o] table IH]; [reflexivity|].
  rewrite !filter_cons. simpl.
  destruct (decide (selected excludes includes full_methods m)) as [Hs|Hs].
  - simpl. unfold available_methods in *. simpl.
    destruct (dependency_met o) eqn:Hd.
    + rewrite decide_True by auto. simpl. now rewrite IH.
    + rewrite decide_False by (intros [_ H]; discriminate). exact IH.
  - rewrite decide_False by tauto. exact IH.
Qed.

(** Its keys are the selected methods, in the order of the table. *)
Lemma available_keys_of (dependency_met : TFAccelerationOption -> bool)
    (excludes includes : option (list string))
    (table full_methods : PyDict.t TFAccelerationOption) :
  PyDict.keys
    (map (fun kv : string * TFAccelerationOption => (fst kv, dependency_met (snd kv)))
       (filter (fun kv : string * TFAccelerationOption =>
                  selected excludes includes table (fst kv))
          full_methods))
  = filter (selected excludes includes table) (PyDict.keys full_methods).
Proof.
  unfold PyDict.keys.
  induction full_methods as [|[k v] d IH]; [reflexivity|].
  cbn [map fst]. rewrite !filter_cons. cbn [fst].
  destruct (decide (selected excludes includes table k)); [|exact IH].
  cbn [map fst]. now rewrite IH.
Qed.

(** Use what is known of the calls outside while stepping. *)
Ltac wp_known :=
  state_simpl;
  repeat match goal with
  | H : ?m ?s = (_, _) |- wp ?m _ ?s => apply (wp_eq _ _ _ _ _ H)
  | H : PyDict.get ?d ?k = _ |- context [PyDict.get ?d ?k] => rewrite H
  | H : ?t = (_, _), H' : ?t = (_, _) |- _ => rewrite H in H'; simplify_eq
  | H : ?t = Some _, H' : ?t = _ |- _ => rewrite H in H'; simplify_eq
  end.

Ltac wp_run_known := wp_known; repeat (wp_step; cbv beta iota zeta; wp_known).

Section claims.
Context {obj world : Type} (ext : External obj world).
Local Abbreviation state := (state obj world).
Local Abbreviation result_map_t := (PyDict.t (PyDict.t (pyval obj))).

(** C8. [optimize] checks its arguments before anything else: when [model]
    is not a Keras Model, when [direction] is neither "min" nor "max", or
    when [y] is [None] while [x] is not a Dataset, it raises the error of
    [invalidInputError] with one of the three messages, from the state it
    was called in: no method was tried, no call made, no result recorded. *)
Theorem optimize_checks_arguments_first (a : arguments obj) (st : state)
    (Hbad : isinstance_Model ext (model a) = false \/
            direction a ∉ ["min"; "max"] \/
            (y a = None /\ isinstance_Dataset ext (x a) = false)) :
  exists errMsg,
    optimize ext a st = (inl (InvalidInputError errMsg), st) /\
    errMsg ∈ ["model should be a Keras Model.";
              "Only support direction 'min', 'max'.";
              y_omitted_message].
Proof.
  destruct (check_arguments ext a st) as [[e|[]] s0] eqn:Hcheck.
  - destruct (wp_run_elim _ _ _ (check_arguments_spec ext a st) _ _ Hcheck)
      as (-> & _ & errMsg & -> & Hmsg).
    exists errMsg. split; [|exact Hmsg].
    unfold optimize, bind. now rewrite Hcheck.
  - destruct (wp_run_elim _ _ _ (check_arguments_spec ext a st) _ _ Hcheck)
      as (_ & Hmodel & Hdirection & Hy).
    exfalso. destruct Hbad as [H|[H|[H1 H2]]]; [congruence|contradiction|].
    destruct Hy; congruence.
Qed.

(** C2. When [optimize] returns, [optimized_model_dict] has exactly one
    entry for every method of the available-method dictionary and no other;
    the status of every entry is one of the five, and an entry with a model
    has the status "successful". *)
Theorem optimized_model_dict_entries (a : arguments obj) (st st' : state)
    (Hrun : optimize ext a st = (inr tt, st')) :
  exists result_map,
    optimized_model_dict st' = Some result_map /\
    NoDup (PyDict.keys result_map) /\
    (forall method,
       method ∈ PyDict.keys result_map <->
       method ∈ PyDict.keys
                  (available_acceleration_combination ext (excludes a)
                     (includes a) ALL_INFERENCE_ACCELERATION_METHOD)) /\
    forall method e,
      PyDict.get result_map method = Some e ->
      (exists s, PyDict.get e "status" = Some (PyStr s) /\
                 s ∈ ["lack dependency"; "fail to convert"; "successful";
                      "early stopped"; "fail to forward"]) /\
      (PyDict.get e "model" <> None ->
         PyDict.get e "status" = Some (PyStr "successful")).
Proof.
  destruct (optimize_phases ext a st _ _ Hrun) as [[Hne _]|Hloop]; [congruence|].
  destruct Hloop as (p & s1 & b & s2 & st0 & rl & st1 & _ & _ & _ & _ & _ & _ &
                     Havail & _ & Hloop & _ & _ & Hrl).
  destruct rl as [e|result_map]; [discriminate|].
  exists result_map. split; [now apply Hrl|].
  destruct (wp_run_elim _ _ _ (enumerate_methods_entries ext a _ _ _ _) _ _ Hloop
              result_map eq_refl) as (Hnd & Hkeys & Hentries).
  split; [exact Hnd|]. split; [now rewrite <- Havail|].
  intros method e He. destruct (Hentries method e He) as (Hs & Hm & _). auto.
Qed.

(** The calls of a run of [optimize]. *)
Lemma optimize_calls a st r st' :
  optimize ext a st = (r, st') ->
  (r <> inr tt /\ calls st' = calls st) \/
  exists p s1 b s2 new,
    check_arguments ext a st = (inr tt, st) /\
    prepare ext a st = (inr p, s1) /\
    measure_baseline ext (p_model p) (p_input_sample p) s1 = (inr b, s2) /\
    p_available_dict p =
      available_acceleration_combination ext (excludes a) (includes a)
        ALL_INFERENCE_ACCELERATION_METHOD /\
    snd b = choose_sample_size_for_pot (fst b) /\
    calls st' = calls st ++ new /\
    Forall (fun c => exists method, call_ok a (locals_of p b) method c) new /\
    attempted new `prefix_of` available_methods (p_available_dict p) /\
    (r = inr tt -> attempted new = available_methods (p_available_dict p)).
Proof.
  intros Hrun.
  destruct (optimize_phases ext a st _ _ Hrun) as [(Hne & Hcalls & _)|Hloop];
    [left; auto|right].
  destruct Hloop as (p & s1 & b & s2 & st0 & rl & st1 & Hcheck & Hprepare & Hbaseline &
                     Hc0 & _ & _ & Havail & Hb & Hloop & Hc1 & _ & Hrl).
  destruct (wp_run_elim _ _ _ (enumerate_methods_calls ext a _ _ _ _ _) _ _ Hloop)
    as (new & Hnew & Hok & Hprefix & Hall).
  exists p, s1, b, s2, new.
  repeat (split; [assumption|]).
  split; [congruence|]. split; [exact Hok|]. split; [exact Hprefix|].
  intros ->. destruct rl as [e|rm]; [discriminate|]. eauto.
Qed.

(** C6. The conversions are attempted one method at a time, in the order of
    registration of [ALL_INFERENCE_ACCELERATION_METHOD], for the methods
    selected by [includes] and [excludes]: the methods whose conversion is
    attempted during a run are, in that order, a prefix of the selected
    methods whose dependencies are met, and all of them when the run
    returns; the map of results then lists the selected methods in that
    order. *)
Theorem methods_attempted_in_registration_order
    (dependency_met : TFAccelerationOption -> bool)
    (a : arguments obj) (st : state) (r : res unit) (st' : state)
    (Hchecker : forall excludes includes full_methods,
        available_acceleration_combination ext excludes includes full_methods
        = available_acceleration_combination_of dependency_met excludes
            includes full_methods)
    (Hrun : optimize ext a st = (r, st')) :
  let candidates :=
    map fst
      (filter (fun kv : string * TFAccelerationOption =>
                 selected (excludes a) (includes a)
                   ALL_INFERENCE_ACCELERATION_METHOD (fst kv) /\
                 dependency_met (snd kv) = true)
         ALL_INFERENCE_ACCELERATION_METHOD) in
  PyDict.keys ALL_INFERENCE_ACCELERATION_METHOD =
    ["original"; "int8"; "openvino_fp32"; "openvino_int8"; "onnxruntime_fp32";
     "onnxruntime_int8_qlinear"; "onnxruntime_int8_integer"] /\
  candidates `sublist_of` PyDict.keys ALL_INFERENCE_ACCELERATION_METHOD /\
  (exists new,
     calls st' = calls st ++ new /\
     attempted new `prefix_of` candidates /\
     (r = inr tt -> attempted new = candidates)) /\
  (r = inr tt ->
   exists result_map,
     optimized_model_dict st' = Some result_map /\
     PyDict.keys result_map =
       filter (selected (excludes a) (includes a) ALL_INFERENCE_ACCELERATION_METHOD)
         (PyDict.keys ALL_INFERENCE_ACCELERATION_METHOD)).
Proof.
  intros candidates. split; [reflexivity|]. split.
  { unfold candidates, PyDict.keys. apply (fmap_sublist fst), sublist_filter. }
  split.
  2: { intros ->.
       destruct (optimize_phases ext a st _ _ Hrun) as [[Hne _]|Hloop]; [congruence|].
       destruct Hloop as (p & s1 & b & s2 & st0 & rl & st1 & _ & _ & _ & _ & _ & _ &
                          Havail & _ & Hloop & _ & _ & Hrl).
       destruct rl as [e|result_map]; [discriminate|].
       exists result_map. split; [now apply Hrl|].
       assert (Hkeys : PyDict.keys (p_available_dict p) =
                 filter (selected (excludes a) (includes a)
                           ALL_INFERENCE_ACCELERATION_METHOD)
                   (PyDict.keys ALL_INFERENCE_ACCELERATION_METHOD)).
       { rewrite Havail, Hchecker. apply available_keys_of. }
       rewrite <- Hkeys.
       apply (wp_run_elim _ _ _ (enumerate_methods_keys ext a _ _ _ _
                                   ltac:(rewrite Hkeys; apply NoDup_filter;
                                         vm_compute; apply (bool_decide_unpack _); reflexivity))
                _ _ Hloop result_map eq_refl). }
  assert (Hcandidates : candidates =
            available_methods
              (available_acceleration_combination ext (excludes a) (includes a)
                 ALL_INFERENCE_ACCELERATION_METHOD)).
  { rewrite Hchecker. unfold available_acceleration_combination_of.
    now rewrite available_methods_of. }
  destruct (optimize_calls a st r st' Hrun) as [[Hne Hcalls]|Hloop].
  - exists []. split; [now rewrite app_nil_r|]. split; [apply prefix_nil|].
    intros ->. contradiction.
  - destruct Hloop as (p & s1 & b & s2 & new & _ & _ & _ & Havail & _ & Hnew & _ &
                       Hprefix & Hall).
    exists new. rewrite Hcandidates, <- Havail. auto.
Qed.

(** The baseline, from the two readings of the clock around the forward
    pass. *)
Lemma measure_baseline_run model input_sample st t0 w0 r1 w1
    (Hstart : perf_counter ext (env st) = (inr t0, w0))
    (Hforward : forward ext model input_sample w0 = (r1, w1)) :
  match r1 with
  | inl _ =>
      measure_baseline ext model input_sample st
      = (inl (InvalidInputError "x is incompatible with your model input."),
         with_env w1 st)
  | inr _ =>
      forall t1 w2,
        perf_counter ext w1 = (inr t1, w2) ->
        measure_baseline ext model input_sample st
        = (inr (PrimFloat.sub t1 t0,
                choose_sample_size_for_pot (PrimFloat.sub t1 t0)),
           with_env w2 st)
  end.
Proof.
  unfold measure_baseline, bind, attempt, outside, invalidInputError, raise, ret.
  rewrite Hstart. cbn [env with_env]. rewrite Hforward.
  destruct r1 as [e|out]; cbn [env with_env]; [reflexivity|].
  intros t1 w2 ->. reflexivity.
Qed.

(** An option of a precision other than fp32 on the accelerator "openvino"
    is converted by [pot], which receives the sample size. *)
Lemma optimize_option_pot (self : TFAccelerationOption) (model x : obj)
    (y : option obj) (thread_num : option Z) (logging : bool) (n : Z) (w : world) :
  get_precision ext self <> "fp32" ->
  get_accelerator ext self = Some "openvino" ->
  y <> None \/ isinstance_Dataset ext x = true ->
  TFAccelerationOption_optimize ext self model x y thread_num logging n w
  = bind (if isinstance_KerasOpenVINOModel ext model then ret model
          else trace ext model (Some "openvino") None thread_num None None logging)
         (fun openvino_model =>
            KerasOpenVINOModel_pot ext openvino_model
              {| pot_x := x; pot_y := y; pot_sample_size := n;
                 pot_thread_num := thread_num |}) w.
Proof.
  intros Hprecision Haccelerator Hy.
  unfold TFAccelerationOption_optimize, quantize.
  apply String.eqb_neq in Hprecision. rewrite Hprecision, Haccelerator.
  assert (bool_decide (y <> None) || isinstance_Dataset ext x = true) as Hcond.
  { destruct Hy as [Hy| ->]; [|apply orb_true_r].
    now rewrite bool_decide_eq_true_2. }
  rewrite Hcond. reflexivity.
Qed.

(** C9. The sample size of the POT calibration is chosen from the baseline
    forward pass: once the arguments are checked and the preparation is
    done, if the forward pass of the model on the input sample raises,
    [optimize] raises the error of [invalidInputError]; otherwise, with
    [baseline_time] the difference of the two readings of the clock around
    the pass, the sample size is 15 when [baseline_time > 0.1] and 100
    otherwise, and every conversion attempted by the run is given that
    sample size.  An option of a precision other than fp32 on the
    accelerator "openvino" hands it to [pot] as [sample_size]. *)
#[warnings="-inexact-float"] Theorem sample_size_for_pot_from_baseline
    (a : arguments obj) (st : state) (p : prepared) (st1 : state)
    (t0 : float) (w0 : world) (r1 : res obj) (w1 : world)
    (Hchecked : check_arguments ext a st = (inr tt, st))
    (Hprepared : prepare ext a st = (inr p, st1))
    (Hstart : perf_counter ext (env st1) = (inr t0, w0))
    (Hforward : forward ext (p_model p) (p_input_sample p) w0 = (r1, w1)) :
  match r1 with
  | inl _ =>
      optimize ext a st
      = (inl (InvalidInputError "x is incompatible with your model input."),
         with_env w1 st1)
  | inr _ =>
      forall t1 w2,
        perf_counter ext w1 = (inr t1, w2) ->
        let baseline_time := PrimFloat.sub t1 t0 in
        let sample_size_for_pot :=
          if PrimFloat.ltb 0.1 baseline_time then 15 else 100 in
        measure_baseline ext (p_model p) (p_input_sample p) st1
        = (inr (baseline_time, sample_size_for_pot), with_env w2 st1) /\
        forall r st',
          optimize ext a st = (r, st') ->
          exists new,
            calls st' = calls st ++ new /\
            forall method n,
              called_option_optimize method n ∈ new -> n = sample_size_for_pot
  end /\
  forall self model x y thread_num logging sample_size_for_pot w,
    get_precision ext self <> "fp32" ->
    get_accelerator ext self = Some "openvino" ->
    y <> None \/ isinstance_Dataset ext x = true ->
    TFAccelerationOption_optimize ext self model x y thread_num logging
      sample_size_for_pot w
    = bind (if isinstance_KerasOpenVINOModel ext model then ret model
            else trace ext model (Some "openvino") None thread_num None None
                   logging)
           (fun openvino_model =>
              KerasOpenVINOModel_pot ext openvino_model
                {| pot_x := x; pot_y := y;
                   pot_sample_size := sample_size_for_pot;
                   pot_thread_num := thread_num |}) w.
Proof.
  split; [|intros; now apply optimize_option_pot].
  pose proof (measure_baseline_run _ _ _ _ _ _ _ Hstart Hforward) as Hbaseline.
  destruct r1 as [e|out].
  - unfold optimize, bind. now rewrite Hchecked, Hprepared, Hbaseline.
  - intros t1 w2 Hstop baseline_time sample_size_for_pot.
    specialize (Hbaseline t1 w2 Hstop). split; [exact Hbaseline|].
    intros r st' Hrun.
    destruct (optimize_calls a st r st' Hrun) as [[_ Hcalls]|Hloop].
    + exists []. split; [now rewrite app_nil_r|]. intros method n Hin. inversion Hin.
    + destruct Hloop as (p' & s1' & b & s2 & new & _ & Hprepared' & Hbaseline' & _ & _ &
                         Hnew & Hok & _).
      rewrite Hprepared in Hprepared'. injection Hprepared' as <- <-.
      rewrite Hbaseline in Hbaseline'. injection Hbaseline' as <- <-.
      exists new. split; [exact Hnew|]. intros method n Hin.
      rewrite Forall_forall in Hok. destruct (Hok _ Hin) as (m & _ & ->).
      reflexivity.
Qed.

(** C1. For every method of the registration table, a conversion by
    [option.optimize] that raises is caught: the body of the loop ends
    normally, the entry of the method is the status "fail to convert" alone,
    and the loop goes on with the next item from the state reached, in which
    the attempt is recorded and the attributes of [self] are as before.  No
    exception leaves the body.  For a whole run: an exception of a kind that
    only the converters and the latency helper raise never leaves
    [optimize]. *)
Theorem conversion_failure_is_caught (a : arguments obj) (l : locals)
    (idx : nat) (result_map : result_map_t) (method : string)
    (option : TFAccelerationOption) (e : exn) (w : world) (st : state)
    (Hoption : PyDict.get ALL_INFERENCE_ACCELERATION_METHOD method = Some option)
    (Hraises : TFAccelerationOption_optimize ext option (l_model l) (x a) (y a)
                 (l_thread_num l) (logging a) (l_sample_size_for_pot l) (env st)
               = (inl e, w)) :
  let result_map' :=
    PyDict.set method [("status", PyStr "fail to convert")] result_map in
  (exists st',
     try_method ext a l idx result_map (method, true) st = (inr result_map', st') /\
     PyDict.get result_map' method = Some [("status", PyStr "fail to convert")] /\
     (forall rest,
        enumerate_methods ext a l idx ((method, true) :: rest) result_map st
        = enumerate_methods ext a l (S idx) rest result_map' st') /\
     env st' = w /\
     calls st' = calls st ++ [called_option_optimize method (l_sample_size_for_pot l)] /\
     _direction st' = _direction st /\
     _calculate_accuracy st' = _calculate_accuracy st /\
     optimized_model_dict st' = optimized_model_dict st /\
     _optimize_result st' = _optimize_result st) /\
  forall (thrown : exn -> Prop),
    only_converters_raise ext thrown ->
    forall (a' : arguments obj) (st0 : state) (e' : exn) (st'' : state),
      optimize ext a' st0 = (inl e', st'') -> ~ thrown e'.
Proof.
  intros result_map'. split.
  2: { intros thrown Honly a' st0 e' st'' Hrun.
       exact (wp_run_elim _ _ _ (optimize_raises ext thrown Honly a' st0) _ _ Hrun
                e' eq_refl). }
  destruct (try_method ext a l idx result_map (method, true) st) as [r st'] eqn:Hbody.
  exists st'.
  assert (Hspec : r = inr result_map' /\ env st' = w /\
            calls st' = calls st ++ [called_option_optimize method (l_sample_size_for_pot l)] /\
            _direction st' = _direction st /\
            _calculate_accuracy st' = _calculate_accuracy st /\
            optimized_model_dict st' = optimized_model_dict st /\
            _optimize_result st' = _optimize_result st).
  { revert r st' Hbody. apply wp_run_elim. unfold_body. wp_run_known.
    all: try discriminate. repeat split. }
  destruct Hspec as (-> & Hrest).
  split; [reflexivity|]. split; [apply PyDict_get_set_eq|]. split; [|exact Hrest].
  intros rest.
  change (enumerate_methods ext a l idx ((method, true) :: rest) result_map st)
    with (bind (try_method ext a l idx result_map (method, true))
               (enumerate_methods ext a l (S idx) rest) st).
  unfold bind. now rewrite Hbody.
Qed.

(** C4. For a method whose conversion succeeds, the body of the loop calls
    [throughput_calculate_helper] with [latency_sample_num] repetitions (100
    by default), the baseline time, [func_test], the converted model and the
    input sample, in the world the conversion left; the latency the helper
    returns is kept under "latency" in the entry of the method.  In a whole
    run of [optimize], every call of the helper is given the
    [latency_sample_num] of the run. *)
Theorem latency_is_measured (a : arguments obj) (l : locals)
    (idx : nat) (result_map : result_map_t) (method : string)
    (option : TFAccelerationOption) (acce_model : obj) (w : world) (st : state)
    (Hoption : PyDict.get ALL_INFERENCE_ACCELERATION_METHOD method = Some option)
    (Hconverted : TFAccelerationOption_optimize ext option (l_model l) (x a) (y a)
                    (l_thread_num l) (logging a) (l_sample_size_for_pot l) (env st)
                  = (inr acce_model, w)) :
  (forall (model x : obj), latency_sample_num (defaults model x) = 100) /\
  (forall r st',
     try_method ext a l idx result_map (method, true) st = (r, st') ->
     (exists more,
        calls st' =
          calls st ++
          [called_option_optimize method (l_sample_size_for_pot l);
           called_throughput_calculate_helper method (latency_sample_num a)
             (l_baseline_time l) acce_model (l_input_sample l)] ++ more) /\
     forall latency status w',
       throughput_calculate_helper ext (latency_sample_num a) (l_baseline_time l)
         (func_test ext) acce_model (l_input_sample l) w
       = (inr (latency, status), w') ->
       forall result_map',
         r = inr result_map' ->
         exists e,
           PyDict.get result_map' method = Some e /\
           PyDict.get e "latency" = Some (PyFloat latency)) /\
  (forall (a' : arguments obj) (st0 : state) (r' : res unit) (st'' : state),
     optimize ext a' st0 = (r', st'') ->
     exists new,
       calls st'' = calls st0 ++ new /\
       forall m n t o i,
         called_throughput_calculate_helper m n t o i ∈ new ->
         n = latency_sample_num a').
Proof.
  split; [reflexivity|]. split.
  - apply wp_run_elim. unfold_body. wp_run_known.
    all: try discriminate.
    all: split;
      [rewrite <- ?app_assoc; cbn [app];
       first [ eexists; reflexivity
             | exists []; reflexivity ]
      |].
    all: intros latency status w' Hmeasured result_map' Hr;
      try discriminate Hr; injection Hr as <-.
    all: revert Hmeasured;
      match goal with
      | H : throughput_calculate_helper _ _ _ _ _ _ _ = _ |- _ => rewrite H
      end;
      intros Hmeasured; simplify_eq.
    all: rewrite PyDict_get_set_eq; eexists; split; [reflexivity|reflexivity].
  - intros a' st0 r' st'' Hrun.
    destruct (optimize_calls a' st0 r' st'' Hrun) as [[_ Hcalls]|Hloop].
    + exists []. split; [now rewrite app_nil_r|]. intros m n t o i Hin. inversion Hin.
    + destruct Hloop as (p & s1 & b & s2 & new & _ & _ & _ & _ & _ & Hnew & Hok & _).
      exists new. split; [exact Hnew|]. intros m n t o i Hin.
      rewrite Forall_forall in Hok. destruct (Hok _ Hin) as (m' & _ & -> & _).
      reflexivity.
Qed.
(** C10. The method "original" is never given the status "early stopped":
    when its conversion and its latency measurement return, whatever the flag
    the helper returns, the body of the loop ends normally with the status
    "successful", the latency and the model in the entry; and in the result
    of a run of [optimize] the entry of "original" is never "early stopped",
    and, as soon as it holds a latency, it is "successful" and holds a
    model. *)
Theorem original_is_never_early_stopped :
  (forall (a : arguments obj) (l : locals) (idx : nat) (result_map : result_map_t)
          (acce_model : obj) (w w' : world) (latency : float) (status : bool)
          (calculate_accuracy : bool) (st : state),
     TFAccelerationOption_optimize ext no_flag (l_model l) (x a) (y a)
       (l_thread_num l) (logging a) (l_sample_size_for_pot l) (env st)
     = (inr acce_model, w) ->
     throughput_calculate_helper ext (latency_sample_num a) (l_baseline_time l)
       (func_test ext) acce_model (l_input_sample l) w
     = (inr (latency, status), w') ->
     _calculate_accuracy st = Some calculate_accuracy ->
     (calculate_accuracy = true -> l_batched_validation_data l <> None) ->
     exists result_map' st' e,
       try_method ext a l idx result_map ("original", true) st
       = (inr result_map', st') /\
       PyDict.get result_map' "original" = Some e /\
       PyDict.get e "status" = Some (PyStr "successful") /\
       PyDict.get e "latency" = Some (PyFloat latency) /\
       PyDict.get e "model" = Some (PyObj acce_model)) /\
  (forall (a : arguments obj) (st st' : state),
     optimize ext a st = (inr tt, st') ->
     exists result_map,
       optimized_model_dict st' = Some result_map /\
       forall e,
         PyDict.get result_map "original" = Some e ->
         PyDict.get e "status" <> Some (PyStr "early stopped") /\
         (PyDict.get e "latency" <> None ->
            PyDict.get e "status" = Some (PyStr "successful") /\
            PyDict.get e "model" <> None)).
Proof.
  split.
  - intros a l idx result_map acce_model w w' latency status calculate_accuracy st
      Hconverted Hmeasured Hcalc Hbound.
    pose proof (eq_refl : PyDict.get ALL_INFERENCE_ACCELERATION_METHOD "original"
                          = Some no_flag) as Hoption.
    destruct (try_method ext a l idx result_map ("original", true) st)
      as [r st'] eqn:Hbody.
    assert (Hspec : exists e,
              r = inr (PyDict.set "original" e result_map) /\
              PyDict.get e "status" = Some (PyStr "successful") /\
              PyDict.get e "latency" = Some (PyFloat latency) /\
              PyDict.get e "model" = Some (PyObj acce_model)).
    { revert r st' Hbody. apply wp_run_elim. unfold_body. wp_run_known.
      all: try discriminate.
      all: try match goal with
               | H : negb _ && negb (_ =? "original") = true |- _ =>
                   cbn in H; rewrite andb_false_r in H; discriminate H
               end.
      all: try (exfalso; simplify_eq; now apply Hbound).
      all: eexists; split; [reflexivity|]; repeat split. }
    destruct Hspec as (e & -> & Hstatus & Hlatency & Hmodel).
    exists (PyDict.set "original" e result_map), st', e.
    split; [reflexivity|]. split; [apply PyDict_get_set_eq|]. auto.
  - intros a st st' Hrun.
    destruct (optimize_phases ext a st _ _ Hrun) as [[Hne _]|Hloop]; [congruence|].
    destruct Hloop as (p & s1 & b & s2 & st0 & rl & st1 & _ & _ & _ & _ & _ & _ &
                       _ & _ & Hloop & _ & _ & Hrl).
    destruct rl as [e|result_map]; [discriminate|].
    exists result_map. split; [now apply Hrl|].
    destruct (wp_run_elim _ _ _ (enumerate_methods_entries ext a _ _ _ _) _ _ Hloop
                result_map eq_refl) as (_ & _ & Hentries).
    intros e He. destruct (Hentries "original" e He) as (_ & _ & Horiginal).
    now apply Horiginal.
Qed.

(** C5, amended.  The accuracy is optional.  When [optimize] returns, the
    accuracy helper was called for a method only if both [validation_data]
    and [metric] were given, and never for a method of precision fp32 other
    than "original"; when either is absent the "accuracy" of every
    successful entry is [None]; when both are given and
    [_calculate_accuracy] is still [True] at the end (the test of the metric
    on the original model did not fail), the "accuracy" of a successful
    entry is "not recomputed", without a call of the helper, for a method of
    precision fp32 other than "original", and the measured value for the
    others.  The measured value: every number kept as an "accuracy" is what
    [_accuracy_calculate_helper] returned for the model of the entry, the
    metric of the call and [validation_data] batched by [batch_size], in the
    world the latency measurement of that model left. *)
Theorem accuracy_is_optional (a : arguments obj) (st st' : state)
    (Hrun : optimize ext a st = (inr tt, st')) :
  exists result_map new,
    optimized_model_dict st' = Some result_map /\
    calls st' = calls st ++ new /\
    (forall method,
       method ∈ accuracy_measured new ->
       validation_data a <> None /\ metric a <> None /\
       forall option,
         PyDict.get ALL_INFERENCE_ACCELERATION_METHOD method = Some option ->
         get_precision ext option = "fp32" -> method = "original") /\
    (validation_data a = None \/ metric a = None ->
     forall method e,
       PyDict.get result_map method = Some e ->
       PyDict.get e "status" = Some (PyStr "successful") ->
       PyDict.get e "accuracy" = Some PyNone) /\
    (validation_data a <> None -> metric a <> None ->
     _calculate_accuracy st' = Some true ->
     forall method e option,
       PyDict.get result_map method = Some e ->
       PyDict.get e "status" = Some (PyStr "successful") ->
       PyDict.get ALL_INFERENCE_ACCELERATION_METHOD method = Some option ->
       if String.eqb (get_precision ext option) "fp32"
          && negb (String.eqb method "original")
       then PyDict.get e "accuracy" = Some (PyStr "not recomputed") /\
            method ∉ accuracy_measured new
       else (exists v, PyDict.get e "accuracy" = Some (PyFloat v)) /\
            method ∈ accuracy_measured new) /\
    exists p s1 b s2,
      prepare ext a st = (inr p, s1) /\
      measure_baseline ext (p_model p) (p_input_sample p) s1 = (inr b, s2) /\
      batched_validation_data_of ext a p /\
      forall method e v,
        PyDict.get result_map method = Some e ->
        PyDict.get e "accuracy" = Some (PyFloat v) ->
        accuracy_is_measured_value ext a (locals_of p b) method e v.
Proof.
  destruct (optimize_phases ext a st _ _ Hrun) as [[Hne _]|Hloop]; [congruence|].
  destruct Hloop as (p & s1 & b & s2 & st0 & rl & st1 & _ & Hprepare & Hbaseline &
                     Hc0 & Hflag0 & _ & _ & _ & Hloop & Hc1 & Hflag1 & Hrl).
  destruct rl as [e|result_map]; [discriminate|].
  destruct (wp_run_elim _ _ _ (enumerate_methods_accuracy ext a _ _ _ _) _ _ Hloop
              result_map eq_refl) as (Hflag & new & Hcalls & Hoff & Hfp32 & Hentries).
  exists result_map, new. split; [now apply Hrl|]. split; [congruence|].
  assert (Hgiven : both_given a = true <-> validation_data a <> None /\ metric a <> None).
  { unfold both_given. destruct (validation_data a), (metric a); split;
      try discriminate; try tauto; (split; discriminate). }
  split; [|split; [|split]].
  4:{ exists p, s1, b, s2. split; [exact Hprepare|]. split; [exact Hbaseline|].
      split.
      - exact (wp_run_elim _ _ _ (prepare_batched_validation_data ext a st) _ _
                 Hprepare p eq_refl).
      - exact (wp_run_elim _ _ _ (enumerate_methods_measured_value ext a _ _ _ _)
                 _ _ Hloop result_map eq_refl). }
  - intros method Hm.
    assert (both_given a = true) as Hboth.
    { destruct (both_given a) eqn:Hb; [reflexivity|].
      rewrite Hoff in Hm; [inversion Hm|]. rewrite Hflag0. discriminate. }
    apply Hgiven in Hboth as [Hv Hmetric]. split; [exact Hv|]. split; [exact Hmetric|].
    now apply Hfp32.
  - intros Habsent method e He Hstatus.
    apply (Hentries method e He Hstatus). rewrite Hflag0. f_equal.
    unfold both_given. destruct Habsent as [-> | ->]; [reflexivity|].
    now destruct (validation_data a).
  - intros Hv Hmetric Hfinal method e option He Hstatus Hoption.
    destruct (Hentries method e He Hstatus) as [_ Hcalculated].
    specialize (Hcalculated ltac:(congruence) option Hoption).
    destruct (String.eqb (get_precision ext option) "fp32") eqn:Hprecision;
      [|exact Hcalculated].
    destruct (String.eqb method "original") eqn:Horiginal; [exact Hcalculated|].
    cbn [negb andb] in *. split; [exact Hcalculated|].
    intros Hm. apply String.eqb_neq in Horiginal. apply Horiginal.
    apply (Hfp32 method Hm option Hoption). now apply String.eqb_eq.
Qed.
End claims.

(** C5 as stated fails: with validation data and a metric that does not fit
    the model, the test on "original" switches the accuracy off, and the
    successful fp32 method "openvino_fp32" gets the accuracy [None], not
    "not recomputed". *)
Lemma accuracy_not_recomputed_counterexample :
  fst (optimize (small_world metric_broken) measured_arguments (fresh 0)) = inr tt /\
  validation_data measured_arguments <> None /\
  metric measured_arguments <> None /\
  (exists option,
     PyDict.get ALL_INFERENCE_ACCELERATION_METHOD "openvino_fp32" = Some option /\
     get_precision (small_world metric_broken) option = "fp32") /\
  exists result_map e,
    optimized_model_dict
      (snd (optimize (small_world metric_broken) measured_arguments (fresh 0)))
    = Some result_map /\
    PyDict.get result_map "openvino_fp32" = Some e /\
    PyDict.get e "status" = Some (PyStr "successful") /\
    PyDict.get e "accuracy" = Some PyNone /\
    PyDict.get e "accuracy" <> Some (PyStr "not recomputed").
Proof.
  split; [vm_compute; reflexivity|].
  split; [discriminate|]. split; [discriminate|].
  split; [eexists; split; reflexivity|].
  eexists. eexists. split; [vm_compute; reflexivity|].
  split; [vm_compute; reflexivity|].
  split; [vm_compute; reflexivity|].
  split; [vm_compute; reflexivity|].
  vm_compute. discriminate.
Qed.

(** ** The claims on small inputs *)

(** In the world where the OpenVINO converter is broken, the exceptions
    [Raised] come from the converters only. *)
Lemma openvino_broken_only_converters_raise :
  only_converters_raise (small_world openvino_broken)
    (fun e => exists msg, e = Raised msg).
Proof.
  unfold only_converters_raise, raises_none_of.
  repeat match goal with |- _ /\ _ => split end.
  all: intros; intros [raised Hmsg]; try discriminate Hmsg.
  all: subst;
    match goal with H : _ = inl _ |- _ => vm_compute in H; discriminate H
                  | H : _ = (inl _, _) |- _ => vm_compute in H; discriminate H end.
Qed.

(** The OpenVINO converter is broken: "openvino_fp32" fails to convert and
    the body of the loop ends normally; no [Raised] leaves [optimize]. *)
Lemma conversion_failure_is_caught_witness :
  (exists st',
     try_method (small_world openvino_broken) plain_arguments slow_locals 2 []
       ("openvino_fp32", true) (fresh 0)
     = (inr [("openvino_fp32", [("status", PyStr "fail to convert")])], st')) /\
  forall a st msg st',
    optimize (small_world openvino_broken) a st <> (inl (Raised msg), st').
Proof.
  destruct (conversion_failure_is_caught (small_world openvino_broken)
              plain_arguments slow_locals 2 [] "openvino_fp32"
              {| inc := false; openvino := true; pot := false;
                 onnxruntime := false; method := None |}
              (Raised "KerasOpenVINOModel is broken") 0%float (fresh 0)
              eq_refl eq_refl) as ((st' & Hbody & _) & Hwhole).
  split; [exists st'; exact Hbody|].
  intros a st msg st'' Hrun.
  apply (Hwhole _ openvino_broken_only_converters_raise a st _ st'' Hrun).
  now exists msg.
Defined.

(** A run in the quiet world, with validation data and a metric. *)
Lemma optimized_model_dict_entries_witness :
  exists result_map,
    optimized_model_dict
      (snd (optimize (small_world quiet) measured_arguments (fresh 0)))
    = Some result_map /\
    NoDup (PyDict.keys result_map).
Proof.
  destruct (optimized_model_dict_entries (small_world quiet) measured_arguments
              (fresh 0)
              (snd (optimize (small_world quiet) measured_arguments (fresh 0))))
    as (result_map & Hdict & Hkeys & _).
  - vm_compute. reflexivity.
  - exists result_map. split; assumption.
Defined.

(** "int8" in the quiet world: the latency of the quantized model is kept. *)
Lemma latency_is_measured_witness :
  exists result_map' e,
    fst (try_method (small_world quiet) plain_arguments slow_locals 1 []
           ("int8", true) (with_calculate_accuracy false (fresh 0))) = inr result_map' /\
    PyDict.get result_map' "int8" = Some e /\
    PyDict.get e "latency"
    = Some (PyFloat (PrimFloat.mul (forward_seconds quiet) 1000)).
Proof.
  destruct (proj1 (proj2 (latency_is_measured (small_world quiet) plain_arguments
                            slow_locals 1 [] "int8"
                            {| inc := true; openvino := false; pot := false;
                               onnxruntime := false; method := None |}
                            "Quantized(NanoModel(model))" 0%float
                            (with_calculate_accuracy false (fresh 0))
                            eq_refl eq_refl))
              (fst (try_method (small_world quiet) plain_arguments slow_locals 1 []
                      ("int8", true) (with_calculate_accuracy false (fresh 0))))
              (snd (try_method (small_world quiet) plain_arguments slow_locals 1 []
                      ("int8", true) (with_calculate_accuracy false (fresh 0)))))
    as [_ Hkept].
  - vm_compute. reflexivity.
  - destruct (Hkept (PrimFloat.mul (forward_seconds quiet) 1000) true
                (PrimFloat.add 0 (forward_seconds quiet)) eq_refl
                [("int8",
                  [("status", PyStr "successful");
                   ("latency", PyFloat (PrimFloat.mul (forward_seconds quiet) 1000));
                   ("accuracy", PyNone);
                   ("model", PyObj "Quantized(NanoModel(model))")])])
      as (e & Hentry & Hlatency).
    + vm_compute. reflexivity.
    + eexists. exists e. split; [|split; [exact Hentry|exact Hlatency]].
      vm_compute. reflexivity.
Defined.

(** A run in the quiet world, with validation data and a metric. *)
Lemma accuracy_is_optional_witness :
  exists result_map,
    optimized_model_dict
      (snd (optimize (small_world quiet) measured_arguments (fresh 0)))
    = Some result_map.
Proof.
  destruct (accuracy_is_optional (small_world quiet) measured_arguments
              (fresh 0)
              (snd (optimize (small_world quiet) measured_arguments (fresh 0))))
    as (result_map & new & Hdict & _).
  - vm_compute. reflexivity.
  - exists result_map. exact Hdict.
Defined.

(** A run without ONNX Runtime installed. *)
Lemma methods_attempted_in_registration_order_witness :
  exists new,
    calls (snd (optimize (small_world no_onnxruntime) plain_arguments (fresh 0)))
    = calls (fresh 0) ++ new /\
    attempted new = ["original"; "int8"; "openvino_fp32"; "openvino_int8"].
Proof.
  destruct (methods_attempted_in_registration_order (small_world no_onnxruntime)
              (fun o => forallb (fun f => bool_decide (f ∉ missing_flags no_onnxruntime))
                          (flags_of o))
              plain_arguments (fresh 0) (inr tt)
              (snd (optimize (small_world no_onnxruntime) plain_arguments (fresh 0))))
    as (_ & _ & (new & Hcalls & _ & Hall) & _).
  - reflexivity.
  - vm_compute. reflexivity.
  - exists new. split; [exact Hcalls|]. rewrite (Hall eq_refl). vm_compute. reflexivity.
Defined.

(** A call with something that is no Keras model. *)
Lemma optimize_checks_arguments_first_witness :
  exists errMsg,
    optimize (small_world quiet)
      (defaults "not a model" "x") (fresh 0)
    = (inl (InvalidInputError errMsg), fresh 0).
Proof.
  destruct (optimize_checks_arguments_first (small_world quiet)
              (defaults "not a model" "x") (fresh 0)) as (errMsg & Hraise & _).
  - left. reflexivity.
  - exists errMsg. exact Hraise.
Defined.

(** A forward pass of 0.2 s: the sample size is 15. *)
Lemma sample_size_for_pot_from_baseline_witness :
  exists baseline_time st1,
    measure_baseline (small_world openvino_broken) "NanoModel(model)" "Tensor(x)"
      (with_calculate_accuracy false (with_direction "max" (fresh 0)))
    = (inr (baseline_time, 15), st1).
Proof.
  pose proof (sample_size_for_pot_from_baseline (small_world openvino_broken)
                plain_arguments (fresh 0)
                {| p_model := "NanoModel(model)";
                   p_available_dict :=
                     available_acceleration_combination (small_world openvino_broken)
                       None None ALL_INFERENCE_ACCELERATION_METHOD;
                   p_batched_validation_data := None;
                   p_thread_num := None;
                   p_input_sample := "Tensor(x)" |}
                (with_calculate_accuracy false (with_direction "max" (fresh 0)))
                0%float 0%float (inr "Tensor(NanoModel(model))")
                (PrimFloat.add 0 (forward_seconds openvino_broken))
                eq_refl eq_refl eq_refl eq_refl) as [Hrun _].
  destruct (Hrun (PrimFloat.add 0 (forward_seconds openvino_broken))
              (PrimFloat.add 0 (forward_seconds openvino_broken)) eq_refl)
    as [Hbaseline _].
  eexists. eexists. exact Hbaseline.
Defined.

(** "original" with a helper that reports an early stop. *)
Lemma original_is_never_early_stopped_witness :
  exists result_map' st' e,
    try_method (small_world openvino_broken) plain_arguments slow_locals 0 []
      ("original", true) (with_calculate_accuracy false (fresh 0))
    = (inr result_map', st') /\
    PyDict.get result_map' "original" = Some e /\
    PyDict.get e "status" = Some (PyStr "successful").
Proof.
  destruct (proj1 (original_is_never_early_stopped (small_world openvino_broken))
              plain_arguments slow_locals 0%nat [] "NanoModel(model)" 0%float
              (PrimFloat.add 0 (forward_seconds openvino_broken))
              (PrimFloat.mul (forward_seconds openvino_broken) 1000) false false
              (with_calculate_accuracy false (fresh 0))
              eq_refl eq_refl eq_refl ltac:(discriminate))
    as (result_map' & st' & e & Hbody & Hentry & Hstatus & _).
  exists result_map', st', e. auto.
Defined.
(** * The rest of the files: properties *)

(** ** The sequence-file reader *)

Section seq_file_facts.
Import seq_file.

Lemma to_N_byte_of (n : Z) : Z.of_N (Byte.to_N (byte_of n)) = n mod 256.
Proof.
  unfold byte_of.
  assert (Hrange : 0 <= n mod 256 < 256) by (apply Z.mod_pos_bound; lia).
  destruct (Byte.of_N (Z.to_N (n mod 256))) as [b|] eqn:Hb.
  - apply Byte.to_of_N in Hb. rewrite Hb. lia.
  - apply Byte.of_N_None_iff in Hb. lia.
Qed.

Lemma big_endian_4 (a b c d : Byte.byte) :
  big_endian [a; b; c; d] =
  ((Z.of_N (Byte.to_N a) * 256 + Z.of_N (Byte.to_N b)) * 256
   + Z.of_N (Byte.to_N c)) * 256 + Z.of_N (Byte.to_N d).
Proof. unfold big_endian. simpl. lia. Qed.

(** Four bytes read back as an unsigned value. *)
Lemma big_endian_pack_i (n : Z) : big_endian (pack_i n) = n mod 2 ^ 32.
Proof.
  unfold pack_i. rewrite big_endian_4, !to_N_byte_of.
  assert (Hu : 0 <= n mod 2 ^ 32 < 2 ^ 32) by (apply Z.mod_pos_bound; lia).
  generalize dependent (n mod 2 ^ 32). intros u Hu.
  change (2 ^ 24) with (256 * (256 * 256)). change (2 ^ 16) with (256 * 256).
  change (2 ^ 8) with 256. change (2 ^ 32) with (256 * (256 * (256 * 256))) in Hu.
  rewrite <- !Z.div_div by lia.
  set (u1 := u / 256). set (u2 := u1 / 256). set (u3 := u2 / 256).
  pose proof (Z.div_mod u 256 ltac:(lia)) as H0.
  pose proof (Z.div_mod u1 256 ltac:(lia)) as H1.
  pose proof (Z.div_mod u2 256 ltac:(lia)) as H2.
  assert (H3 : u3 mod 256 = u3).
  { apply Z.mod_small.
    assert (0 <= u1 < 256 * (256 * 256))
      by (subst u1; split; [apply Z.div_pos; lia|apply Z.div_lt_upper_bound; lia]).
    assert (0 <= u2 < 256 * 256)
      by (subst u2; split; [apply Z.div_pos; lia|apply Z.div_lt_upper_bound; lia]).
    subst u3; split; [apply Z.div_pos; lia|apply Z.div_lt_upper_bound; lia]. }
  fold u1 in H0. fold u2 in H1. fold u3 in H2. lia.
Qed.

(** The header written for [n] is read back as [n]. *)
Lemma signed32_pack_i (n : Z) :
  - 2 ^ 31 <= n < 2 ^ 31 -> signed32 (big_endian (pack_i n)) = n.
Proof.
  intros Hn. rewrite big_endian_pack_i. unfold signed32.
  destruct (Z_lt_dec n 0) as [Hneg|Hpos].
  - replace (n mod 2 ^ 32) with (n + 2 ^ 32).
    + destruct (Z.ltb_spec (n + 2 ^ 32) (2 ^ 31)); lia.
    + apply (Z.mod_unique n (2 ^ 32) (-1)); lia.
  - rewrite Z.mod_small by lia. destruct (Z.ltb_spec n (2 ^ 31)); lia.
Qed.

Lemma length_pack_i (n : Z) : length (pack_i n) = 4%nat.
Proof. reflexivity. Qed.

Context {ndarray sample : Type}.
Variable np_array_int8 : list Byte.byte -> ndarray.
Variable ndarray_and : ndarray -> Z -> ndarray.
Variable ndarray_div : ndarray -> float -> ndarray.
Variable int_of_text : string -> res Z.
Variable Sample_init : Sample_args ndarray -> res sample.

Local Abbreviation parse :=
  (parse ndarray np_array_int8 ndarray_and ndarray_div int_of_text sample Sample_init).

(** The width and the height [parse] reads from a record of eight bytes or
    more: the two halves of its first eight bytes. *)
Lemma unpack_ii_header (img : list Byte.byte) :
  (8 <= length img)%nat ->
  unpack_ii (take 8 img)
  = inr (signed32 (big_endian (take 4 img)),
         signed32 (big_endian (take 4 (drop 4 img)))).
Proof.
  intros Hlen. unfold unpack_ii.
  rewrite length_take, Nat.min_l by exact Hlen. cbn [Nat.eqb].
  rewrite take_take, skipn_firstn_comm. reflexivity.
Qed.

(** X1. A record whose value is the header [struct.pack('>ii', width,
    height)] followed by the feature bytes is read back: [parse] calls
    [Sample] with the features made of the bytes after the header, the label
    [int(label)] alone in a list, the shape (width, height,
    len(payload)/width/height) and the label shape [1]. *)
Theorem parse_reads_packed_header (normalize : float) (label : string)
    (width height : Z) (payload : list Byte.byte) (n : Z)
    (Hwidth : - 2 ^ 31 <= width < 2 ^ 31)
    (Hheight : - 2 ^ 31 <= height < 2 ^ 31)
    (Hw : width <> 0) (Hh : height <> 0)
    (Hlabel : int_of_text label = inr n) :
  parse normalize (label, pack_i width ++ pack_i height ++ payload)
  = of_res (Sample_init
              {| arg_features :=
                   ndarray_div (ndarray_and (np_array_int8 payload) 255) normalize;
                 arg_label := [n];
                 arg_features_shape :=
                   (width, height, Z.of_nat (length payload) / width / height);
                 arg_label_shape := [1] |}).
Proof.
  unfold seq_file.parse. cbn [fst snd].
  rewrite unpack_ii_header by (rewrite !length_app, !length_pack_i; lia).
  cbn [outcome_bind fst snd].
  replace (take 4 (pack_i width ++ pack_i height ++ payload)) with (pack_i width)
    by reflexivity.
  replace (take 4 (drop 4 (pack_i width ++ pack_i height ++ payload)))
    with (pack_i height) by reflexivity.
  replace (drop 8 (pack_i width ++ pack_i height ++ payload)) with payload
    by reflexivity.
  rewrite !signed32_pack_i by assumption.
  rewrite Hlabel. cbn [of_res outcome_bind]. unfold int_div.
  apply Z.eqb_neq in Hw, Hh. rewrite Hw. cbn [outcome_bind]. rewrite Hh.
  cbn [outcome_bind].
  replace (Z.of_nat (length (pack_i width ++ pack_i height ++ payload)) - 8)
    with (Z.of_nat (length payload))
    by (rewrite !length_app, !length_pack_i; lia).
  reflexivity.
Qed.

(** X2. A record of fewer than eight bytes has no header: [parse] raises
    [struct.error], whatever the label, before [int(label)] and [Sample] are
    reached. *)
Theorem parse_short_record (normalize : float) (label : string)
    (img : list Byte.byte) (Hshort : (length img < 8)%nat) :
  parse normalize (label, img)
  = inl (struct_error "unpack requires a string argument of length 8").
Proof.
  unfold seq_file.parse, unpack_ii. cbn [fst snd].
  rewrite length_take, Nat.min_r by lia.
  destruct (Nat.eqb_spec (length img) 8) as [E|_]; [lia|reflexivity].
Qed.

(** X3. On a record with a header, the errors come in the order of
    evaluation: a label that [int] rejects raises the error of [int], also
    when the width or the height is zero; with a label that [int] accepts, a
    zero width or a zero height raises [ZeroDivisionError], and [Sample] is
    not built. *)
Theorem parse_error_order (normalize : float) (label : string)
    (img : list Byte.byte) (Hheader : (8 <= length img)%nat) :
  let width := signed32 (big_endian (take 4 img)) in
  let height := signed32 (big_endian (take 4 (drop 4 img))) in
  (forall e, int_of_text label = inl e ->
     parse normalize (label, img) = inl (Exception e)) /\
  (forall n, int_of_text label = inr n ->
     width = 0 \/ height = 0 ->
     parse normalize (label, img)
     = inl (ZeroDivisionError "integer division or modulo by zero")).
Proof.
  intros width height. unfold seq_file.parse. cbn [fst snd].
  rewrite unpack_ii_header by exact Hheader. cbn [outcome_bind fst snd].
  fold width height. split.
  - intros e ->. reflexivity.
  - intros n -> Hzero. cbn [of_res outcome_bind]. unfold int_div.
    destruct (Z.eqb_spec width 0) as [_|Hw]; [reflexivity|].
    cbn [outcome_bind]. destruct Hzero as [Hzero|Hzero]; [contradiction|].
    rewrite Hzero. reflexivity.
Qed.

(** X4. The shape fits the data.  When [parse] returns a sample, [Sample]
    was given a width and a height that are not zero, a label of one element
    and the label shape [1]; for a positive width and a positive height the
    depth is the number of whole width x height planes in the bytes after the
    header, so the volume of the shape never exceeds the number of features
    and misses it by less than one plane. *)
Theorem parse_shape_fits (normalize : float) (label : string)
    (img : list Byte.byte) (s : sample)
    (Hparsed : parse normalize (label, img) = inr s) :
  exists args width height depth,
    Sample_init args = inr s /\
    arg_features_shape args = (width, height, depth) /\
    arg_label_shape args = [1] /\
    int_of_text label = inr (hd 0 (arg_label args)) /\
    length (arg_label args) = 1%nat /\
    (8 <= length img)%nat /\
    width <> 0 /\ height <> 0 /\
    (0 < width -> 0 < height ->
     0 <= depth /\
     width * height * depth <= Z.of_nat (length (drop 8 img))
       < width * height * depth + width * height).
Proof.
  unfold seq_file.parse in Hparsed. cbn [fst snd] in Hparsed.
  destruct (le_lt_dec 8 (length img)) as [Hlen|Hshort].
  2:{ unfold unpack_ii in Hparsed. rewrite length_take, Nat.min_r in Hparsed by lia.
      destruct (Nat.eqb_spec (length img) 8); [lia|discriminate]. }
  rewrite unpack_ii_header in Hparsed by exact Hlen.
  cbn [outcome_bind fst snd] in Hparsed.
  set (width := signed32 (big_endian (take 4 img))) in *.
  set (height := signed32 (big_endian (take 4 (drop 4 img)))) in *.
  destruct (int_of_text label) as [e|n] eqn:Hlabel; [discriminate|].
  cbn [of_res outcome_bind] in Hparsed. unfold int_div in Hparsed.
  destruct (Z.eqb_spec width 0) as [|Hw]; [discriminate|].
  cbn [outcome_bind] in Hparsed.
  destruct (Z.eqb_spec height 0) as [|Hh]; [discriminate|].
  cbn [outcome_bind] in Hparsed.
  match type of Hparsed with
  | of_res (Sample_init ?a) = _ => exists a, width, height,
      ((Z.of_nat (length img) - 8) / width / height)
  end.
  destruct (Sample_init _) as [e|s'] eqn:Hinit; [discriminate|].
  injection Hparsed as ->.
  repeat (split; [first [assumption|reflexivity]|]).
  intros Hwidth Hheight.
  assert (Hpayload : Z.of_nat (length (drop 8 img)) = Z.of_nat (length img) - 8)
    by (rewrite length_drop; lia).
  rewrite Hpayload. rewrite Z.div_div by lia.
  set (len := Z.of_nat (length img) - 8) in *.
  assert (0 <= len) by lia.
  assert (0 < width * height) by lia.
  pose proof (Z.div_mod len (width * height) ltac:(lia)) as Hdiv.
  pose proof (Z.mod_pos_bound len (width * height) ltac:(lia)) as Hmod.
  split; [apply Z.div_pos; lia|]. lia.
Qed.
End seq_file_facts.

(** ** The helpers of the estimator *)

(** X5. [data_length] returns [n] exactly when the data has an "x" that
    is an array whose first dimension is [n], or a list or a tuple whose
    first element is such an array.  The other elements are not looked at:
    arrays of different lengths are not detected. *)
Theorem data_length_returns_iff (data : PyDict.t estimator_helpers.value) (n : Z) :
  estimator_helpers.data_length data = inr n <->
  exists shape,
    PyDict.get data "x" = Some (estimator_helpers.ndarray (n :: shape)) \/
    exists rest,
      PyDict.get data "x"
      = Some (estimator_helpers.pylist (estimator_helpers.ndarray (n :: shape) :: rest)) \/
      PyDict.get data "x"
      = Some (estimator_helpers.pytuple (estimator_helpers.ndarray (n :: shape) :: rest)).
Proof.
  unfold estimator_helpers.data_length. split.
  - destruct (PyDict.get data "x") as [[shape|items|items]|]; [| | |discriminate].
    + destruct shape as [|m shape]; [discriminate|]. intros [= <-]. eauto.
    + destruct items as [|[[|m shape]|?|?] rest]; try discriminate.
      intros [= <-]. eauto.
    + destruct items as [|[[|m shape]|?|?] rest]; try discriminate.
      intros [= <-]. eauto 6.
  - intros (shape & [->|(rest & [->| ->])]); reflexivity.
Qed.

(** ** Tracing and quantizing *)

Section PyDict_update_facts.
Context {V : Type}.
Implicit Types (d : PyDict.t V) (k : string) (v : V).

Lemma PyDict_get_None d k : k ∉ PyDict.keys d -> PyDict.get d k = None.
Proof.
  induction d as [|[k0 v0] d IH]; simpl; [reflexivity|].
  intros Hk. destruct (String.eqb_spec k0 k) as [->|Hne].
  - exfalso. apply Hk. apply list_elem_of_here.
  - apply IH. intros Hin. apply Hk. now apply list_elem_of_further.
Qed.

Lemma PyDict_get_Some d k : k ∈ PyDict.keys d -> exists v, PyDict.get d k = Some v.
Proof.
  induction d as [|[k0 v0] d IH]; simpl.
  - intros H. inversion H.
  - intros H. destruct (String.eqb_spec k0 k) as [->|Hne]; [eauto|].
    apply elem_of_cons in H as [H|H]; [congruence|auto].
Qed.

(** [d.update(other)] then [d[k]]: the value of [other] when it has the
    key, the value of [d] otherwise. *)
Lemma PyDict_get_update_from (other d : PyDict.t V) k :
  NoDup (PyDict.keys other) ->
  PyDict.get (PyDict.update_from other d) k =
  match PyDict.get other k with
  | Some v => Some v
  | None => PyDict.get d k
  end.
Proof.
  unfold PyDict.update_from. revert d.
  induction other as [|[k0 v0] other IH]; intros d Hnd; [reflexivity|].
  cbn [fold_left fst snd]. cbn [PyDict.keys map fst] in Hnd.
  apply NoDup_cons in Hnd as [Hk0 Hnd].
  rewrite (IH _ Hnd). cbn [PyDict.get].
  destruct (String.eqb_spec k0 k) as [->|Hne].
  - rewrite (PyDict_get_None other k Hk0). apply PyDict_get_set_eq.
  - destruct (PyDict.get other k); [reflexivity|].
    now apply PyDict_get_set_ne.
Qed.
End PyDict_update_facts.

Section trace_facts.
Context {obj world : Type} (ext : External obj world).

(** X6. [trace] with an accelerator that is neither 'openvino' nor
    'onnxruntime', [None] included, raises the error of [invalidInputError]
    that names it, and calls nothing. *)
Theorem trace_invalid_accelerator (model : obj) (accelerator : option string)
    (input_spec : option obj) (thread_num : option Z)
    (onnxruntime_session_options : option SessionOptions)
    (openvino_config : option (PyDict.t string)) (logging : bool) (w : world)
    (Hopenvino : accelerator <> Some "openvino")
    (Honnxruntime : accelerator <> Some "onnxruntime") :
  trace ext model accelerator input_spec thread_num onnxruntime_session_options
    openvino_config logging w
  = (inl (InvalidInputError
            ("Accelerator " +:+ str_of_optional accelerator +:+ " is invalid.")),
     w).
Proof.
  unfold trace.
  assert (is_str accelerator "openvino" = false) as ->.
  { destruct accelerator as [s|]; [|reflexivity]. cbn.
    apply String.eqb_neq. congruence. }
  assert (is_str accelerator "onnxruntime" = false) as ->.
  { destruct accelerator as [s|]; [|reflexivity]. cbn.
    apply String.eqb_neq. congruence. }
  reflexivity.
Qed.

(** X7. [trace] to OpenVINO gives [KerasOpenVINOModel] the caller's
    [openvino_config] on top of the default
    [{"INFERENCE_PRECISION_HINT": "f32"}]: every key of the caller keeps the
    caller's value, the precision hint is "f32" unless the caller sets it,
    and there is no other key.  [input_spec] and the session options are
    not used. *)
Theorem trace_openvino_config (model : obj) (input_spec : option obj)
    (thread_num : option Z)
    (onnxruntime_session_options : option SessionOptions)
    (openvino_config : PyDict.t string) (logging : bool) (w : world)
    (Hdict : NoDup (PyDict.keys openvino_config)) :
  exists final_openvino_option,
    trace ext model (Some "openvino") input_spec thread_num
      onnxruntime_session_options (Some openvino_config) logging w
    = KerasOpenVINOModel_init ext model thread_num final_openvino_option
        logging w /\
    (forall k v, PyDict.get openvino_config k = Some v ->
                 PyDict.get final_openvino_option k = Some v) /\
    (PyDict.get openvino_config "INFERENCE_PRECISION_HINT" = None ->
     PyDict.get final_openvino_option "INFERENCE_PRECISION_HINT" = Some "f32") /\
    (forall k v, PyDict.get final_openvino_option k = Some v ->
                 PyDict.get openvino_config k = Some v \/
                 (k = "INFERENCE_PRECISION_HINT" /\ v = "f32")).
Proof.
  eexists. split; [reflexivity|].
  split; [|split].
  - intros k v Hk. now rewrite PyDict_get_update_from, Hk.
  - intros Hk. now rewrite PyDict_get_update_from, Hk.
  - intros k v. rewrite PyDict_get_update_from by exact Hdict.
    destruct (PyDict.get openvino_config k); [now left|].
    cbn [PyDict.get].
    destruct (String.eqb_spec "INFERENCE_PRECISION_HINT" k) as [<-|_];
      [|discriminate].
    intros [= <-]. now right.
Qed.

(** X8. [trace] to ONNX Runtime: session options that are given reach
    [KerasONNXRuntimeModel] as they are, and [thread_num] is not used;
    without them, onnxruntime is imported and the options are fresh ones in
    which both thread counts are [thread_num]; if the import fails, its
    exception is the outcome. *)
Theorem trace_onnxruntime_session_options (model : obj)
    (input_spec : option obj) (thread_num : option Z)
    (openvino_config : option (PyDict.t string)) (logging : bool) (w : world) :
  (forall options,
     trace ext model (Some "onnxruntime") input_spec thread_num (Some options)
       openvino_config logging w
     = KerasONNXRuntimeModel_init ext model input_spec options w) /\
  (forall w',
     import_onnxruntime ext w = (inr tt, w') ->
     trace ext model (Some "onnxruntime") input_spec thread_num None
       openvino_config logging w
     = KerasONNXRuntimeModel_init ext model input_spec
         {| intra_op_num_threads := thread_num;
            inter_op_num_threads := thread_num |} w') /\
  (forall e w',
     import_onnxruntime ext w = (inl e, w') ->
     trace ext model (Some "onnxruntime") input_spec thread_num None
       openvino_config logging w
     = (inl e, w')).
Proof.
  unfold trace, bind, ret. cbn [is_str String.eqb Ascii.eqb Bool.eqb].
  split; [reflexivity|]. split.
  - intros w' ->. destruct thread_num; reflexivity.
  - intros e w' ->. reflexivity.
Qed.
End trace_facts.

Section quantize_facts.
Context {obj world : Type} (ext : External obj world).
Variable inc_quantzie_kw : obj -> Quantize.inc_kwargs obj -> SE world obj.
Variable pot_kw : obj -> Quantize.pot_kwargs obj -> SE world obj.

Local Abbreviation quantize_kw := (Quantize.quantize ext inc_quantzie_kw pot_kw).

(** X9. [quantize] as [TFAccelerationOption.optimize] calls it: with the
    arguments the option names and the defaults of the signature for all the
    others, the function with all its arguments is the function the loop of
    [optimize] was checked with, as soon as the two converters are the same
    on the keyword arguments of these calls. *)
Theorem quantize_called_by_option
    (Hinc : forall m k w,
        inc_quantzie_kw m (Quantize.all_inc_kwargs k) w = inc_quantzie ext m k w)
    (Hpot : forall m k w,
        pot_kw m (Quantize.all_pot_kwargs k) w = KerasOpenVINOModel_pot ext m k w)
    (model x : obj) (y : option obj) (precision : string)
    (accelerator method : option string) (thread_num : option Z)
    (sample_size : Z) (logging : bool) (w : world) :
  quantize_kw
    (Quantize.called_by_option model x y precision accelerator method thread_num
       sample_size logging) w
  = quantize ext model x y precision accelerator method thread_num sample_size
      logging w.
Proof.
  unfold Quantize.quantize, quantize, Quantize.called_by_option.
  cbn [Quantize.approach Quantize.y Quantize.x Quantize.accelerator
       Quantize.model Quantize.batch Quantize.metric Quantize.conf
       Quantize.tuning_strategy Quantize.accuracy_criterion Quantize.timeout
       Quantize.max_trials Quantize.inputs Quantize.outputs
       Quantize.thread_num Quantize.openvino_config Quantize.logging
       Quantize.method Quantize.sample_size Quantize.onnxruntime_session_options
       Quantize.pot_criterion].
  unfold bind.
  destruct (invalidInputError _ _ w) as [[e|[]] w0]; [reflexivity|].
  destruct (invalidInputError _ _ w0) as [[e|[]] w1]; [reflexivity|].
  destruct accelerator as [accelerator'|].
  - destruct (String.eqb accelerator' "openvino").
    + destruct (isinstance_KerasOpenVINOModel ext model).
      * cbn [ret]. apply (Hpot model {| pot_x := x; pot_y := y;
                                        pot_sample_size := sample_size;
                                        pot_thread_num := thread_num |}).
      * destruct (trace _ _ _ _ _ _ _ _ w1) as [[e|m] w2]; [reflexivity|].
        apply (Hpot m {| pot_x := x; pot_y := y;
                         pot_sample_size := sample_size;
                         pot_thread_num := thread_num |}).
    + destruct (String.eqb accelerator' "onnxruntime"); [|reflexivity].
      destruct (isinstance_KerasONNXRuntimeModel ext model).
      * cbn [ret].
        apply (Hinc model {| inc_dataloader := x_y x y;
                             inc_framework := _;
                             inc_approach := "static";
                             inc_onnx_option := Some "tensorflow" |}).
      * destruct (trace _ _ _ _ _ _ _ _ w1) as [[e|m] w2]; [reflexivity|].
        apply (Hinc m {| inc_dataloader := x_y x y;
                         inc_framework := _;
                         inc_approach := "static";
                         inc_onnx_option := Some "tensorflow" |}).
  - destruct (isinstance_Dataset ext x).
    + cbn [ret].
      apply (Hinc model {| inc_dataloader := calib_dataset x;
                           inc_framework := Some "tensorflow";
                           inc_approach := "static";
                           inc_onnx_option := None |}).
    + destruct (from_tensor_slices ext x y w1) as [[e|c] w2]; [reflexivity|].
      cbn [ret].
      apply (Hinc model {| inc_dataloader := calib_dataset c;
                           inc_framework := Some "tensorflow";
                           inc_approach := "static";
                           inc_onnx_option := None |}).
Qed.

(** X10. [quantize] checks its arguments before it calls anything: an
    approach other than 'static', then [y] left out while [x] is no
    Dataset, then an accelerator that is none of [None], 'openvino' and
    'onnxruntime', each raise the error of [invalidInputError] with the
    message of the check and leave the world as it was. *)
Theorem quantize_checks_first (a : Quantize.arguments obj) (w : world) :
  (Quantize.approach a <> "static" ->
   quantize_kw a w
   = (inl (InvalidInputError "Only 'static' approach is supported now."), w)) /\
  (Quantize.approach a = "static" ->
   Quantize.y a = None -> isinstance_Dataset ext (Quantize.x a) = false ->
   quantize_kw a w = (inl (InvalidInputError y_omitted_message), w)) /\
  (Quantize.approach a = "static" ->
   Quantize.y a <> None \/ isinstance_Dataset ext (Quantize.x a) = true ->
   forall accelerator,
     Quantize.accelerator a = Some accelerator ->
     accelerator <> "openvino" -> accelerator <> "onnxruntime" ->
     quantize_kw a w
     = (inl (InvalidInputError ("Accelerator " +:+ accelerator +:+ " is invalid.")),
        w)).
Proof.
  unfold Quantize.quantize, bind, invalidInputError, ret, raise.
  split; [|split].
  - intros Happroach. apply String.eqb_neq in Happroach. now rewrite Happroach.
  - intros -> -> ->. reflexivity.
  - intros -> Hy accelerator -> Hopenvino Honnxruntime.
    assert (bool_decide (Quantize.y a <> None)
            || isinstance_Dataset ext (Quantize.x a) = true) as ->.
    { destruct Hy as [Hy| ->]; [|apply orb_true_r].
      now rewrite bool_decide_eq_true_2. }
    apply String.eqb_neq in Hopenvino, Honnxruntime.
    cbn. now rewrite Hopenvino, Honnxruntime.
Qed.

(** X11. What [quantize] tells [pot] about the accuracy.  Without a
    metric the criterion is not used: the three values are [None].  With a
    metric and no dictionary the drop is 'relative', 0.99, higher is better.
    With a metric and a dictionary, 'relative' wins over 'absolute' when the
    dictionary has both; without 'relative' the drop is 'absolute', with
    the value of the dictionary, if any. *)
#[warnings="-inexact-float"] Theorem pot_criterion_cases (metric : obj) :
  (forall accuracy_criterion,
     Quantize.pot_criterion (obj := obj) None accuracy_criterion
     = (None, None, None)) /\
  (forall accuracy_criterion,
     (forall d, accuracy_criterion <> Quantize.criterion_dict d) ->
     Quantize.pot_criterion (Some metric) accuracy_criterion
     = (Some "relative", Some (Quantize.criterion_bool true),
        Some (Quantize.criterion_float 0.99))) /\
  (forall d,
     Quantize.pot_criterion (Some metric) (Quantize.criterion_dict d)
     = (Some (match PyDict.get d "relative" with
              | Some _ => "relative"
              | None => "absolute"
              end),
        PyDict.get d "higher_is_better",
        match PyDict.get d "relative" with
        | Some drop => Some drop
        | None => PyDict.get d "absolute"
        end)).
Proof.
  split; [reflexivity|]. split.
  - intros accuracy_criterion Hother.
    destruct accuracy_criterion as [|d|o]; [reflexivity| |reflexivity].
    now destruct (Hother d).
  - intros d. unfold Quantize.pot_criterion.
    destruct (decide ("relative" ∈ PyDict.keys d)) as [Hin|Hout].
    + rewrite bool_decide_eq_true_2 by exact Hin.
      destruct (PyDict_get_Some d "relative" Hin) as [v ->]. reflexivity.
    + rewrite bool_decide_eq_false_2 by exact Hout.
      now rewrite (PyDict_get_None d "relative" Hout).
Qed.

(** X12. [quantize] for ONNX Runtime, on a model that is not traced yet:
    the model is traced with fresh session options made from [thread_num],
    not with the options given, which go to the quantizer; the framework is
    'onnxrt_qlinearops' for the methods [None] and 'qlinear',
    'onnxrt_integerops' for 'integer', and [None] for any other method,
    which is no error here. *)
Theorem quantize_onnxruntime (a : Quantize.arguments obj) (w : world)
    (Happroach : Quantize.approach a = "static")
    (Hy : Quantize.y a <> None \/ isinstance_Dataset ext (Quantize.x a) = true)
    (Haccelerator : Quantize.accelerator a = Some "onnxruntime")
    (Hmodel : isinstance_KerasONNXRuntimeModel ext (Quantize.model a) = false) :
  let framework :=
    match Quantize.method a with
    | None => Some "onnxrt_qlinearops"
    | Some method =>
        if String.eqb method "qlinear" then Some "onnxrt_qlinearops"
        else if String.eqb method "integer" then Some "onnxrt_integerops"
        else None
    end in
  quantize_kw a w
  = bind (bind (import_onnxruntime ext) (fun _ =>
            KerasONNXRuntimeModel_init ext (Quantize.model a) None
              {| intra_op_num_threads := Quantize.thread_num a;
                 inter_op_num_threads := Quantize.thread_num a |}))
      (fun onnx_model =>
         inc_quantzie_kw onnx_model
           {| Quantize.inc_dataloader := x_y (Quantize.x a) (Quantize.y a);
              Quantize.inc_metric := Quantize.metric a;
              Quantize.inc_framework := framework;
              Quantize.inc_conf := Quantize.conf a;
              Quantize.inc_approach := "static";
              Quantize.inc_tuning_strategy := Quantize.tuning_strategy a;
              Quantize.inc_accuracy_criterion := Quantize.accuracy_criterion a;
              Quantize.inc_timeout := Quantize.timeout a;
              Quantize.inc_max_trials := Quantize.max_trials a;
              Quantize.inc_inputs := Quantize.inputs a;
              Quantize.inc_outputs := Quantize.outputs a;
              Quantize.inc_onnx_option := Some "tensorflow";
              Quantize.inc_onnxruntime_session_options :=
                Some (Quantize.onnxruntime_session_options a) |}) w.
Proof.
  intros framework. unfold Quantize.quantize.
  rewrite Happroach, Haccelerator, Hmodel.
  assert (bool_decide (Quantize.y a <> None)
          || isinstance_Dataset ext (Quantize.x a) = true) as ->.
  { destruct Hy as [Hy| ->]; [|apply orb_true_r].
    now rewrite bool_decide_eq_true_2. }
  assert (Hframework :
            get_or_None [ (Some "qlinear", "onnxrt_qlinearops");
                          (Some "integer", "onnxrt_integerops");
                          (None, "onnxrt_qlinearops") ] (Quantize.method a)
            = framework).
  { subst framework. destruct (Quantize.method a) as [m|]; [|reflexivity].
    cbn [get_or_None].
    destruct (String.eqb_spec m "qlinear") as [->|Hq]; [reflexivity|].
    rewrite bool_decide_eq_false_2 by congruence.
    destruct (String.eqb_spec m "integer") as [->|Hi]; [reflexivity|].
    rewrite bool_decide_eq_false_2 by congruence.
    reflexivity. }
  cbv zeta. rewrite Hframework.
  unfold trace, bind, invalidInputError, ret.
  cbn [String.eqb Ascii.eqb Bool.eqb is_str].
  destruct (import_onnxruntime ext w) as [[e|[]] w0]; [reflexivity|].
  destruct (Quantize.thread_num a); reflexivity.
Qed.
End quantize_facts.

(** ** The loop of [optimize], outcome by outcome *)

Section loop_outcomes.
Context {obj world : Type} (ext : External obj world).
Local Abbreviation state := (state obj world).
Local Abbreviation result_map_t := (PyDict.t (PyDict.t (pyval obj))).

(** The body of the loop, then the rest of the loop. *)
Lemma enumerate_methods_cons a l idx item rest rm st r st' :
  try_method ext a l idx rm item st = (r, st') ->
  enumerate_methods ext a l idx (item :: rest) rm st
  = match r with
    | inl e => (inl e, st')
    | inr rm' => enumerate_methods ext a l (S idx) rest rm' st'
    end.
Proof.
  intros Hbody.
  change (enumerate_methods ext a l idx (item :: rest) rm st)
    with (bind (try_method ext a l idx rm item)
               (enumerate_methods ext a l (S idx) rest) st).
  unfold bind. rewrite Hbody. now destruct r.
Qed.

(** X13. A method whose dependencies are not met is not tried: the body
    of the loop gives it the entry {"status": "lack dependency"} and leaves
    the receiver, the world and the output as they were. *)
Theorem lack_dependency_is_recorded (a : arguments obj) (l : locals)
    (idx : nat) (result_map : result_map_t) (method : string) (st : state) :
  try_method ext a l idx result_map (method, false) st
  = (inr (PyDict.set method [("status", PyStr "lack dependency")] result_map),
     st).
Proof.
  unfold try_method. cbn [negb]. unfold setitem2, getitem, bind.
  rewrite PyDict_get_set_eq. cbn [ret]. rewrite PyDict_set_set. reflexivity.
Qed.

(** X14. A latency measurement that raises is caught: the exception is
    printed, the entry of the method is the status "fail to forward" alone,
    the converted model is dropped, no accuracy is measured, and the loop
    goes on with the next item. *)
Theorem forward_failure_is_caught (a : arguments obj) (l : locals)
    (idx : nat) (result_map : result_map_t) (method : string)
    (option : TFAccelerationOption) (acce_model : obj) (e : exn)
    (w w' : world) (st : state)
    (Hoption : PyDict.get ALL_INFERENCE_ACCELERATION_METHOD method = Some option)
    (Hconverted : TFAccelerationOption_optimize ext option (l_model l) (x a) (y a)
                    (l_thread_num l) (logging a) (l_sample_size_for_pot l) (env st)
                  = (inr acce_model, w))
    (Hraises : throughput_calculate_helper ext (latency_sample_num a)
                 (l_baseline_time l) (func_test ext) acce_model
                 (l_input_sample l) w
               = (inl e, w')) :
  let result_map' :=
    PyDict.set method [("status", PyStr "fail to forward")] result_map in
  exists st',
    try_method ext a l idx result_map (method, true) st = (inr result_map', st') /\
    (forall rest,
       enumerate_methods ext a l idx ((method, true) :: rest) result_map st
       = enumerate_methods ext a l (S idx) rest result_map' st') /\
    env st' = w' /\
    calls st' =
      calls st ++
      [called_option_optimize method (l_sample_size_for_pot l);
       called_throughput_calculate_helper method (latency_sample_num a)
         (l_baseline_time l) acce_model (l_input_sample l)] /\
    stdout st' =
      stdout st ++
      ["----------Start test " +:+ method +:+ " model " +:+ progress idx l
         +:+ "----------";
       exn_str e;
       "----------" +:+ method +:+ " failed to forward----------"] /\
    _calculate_accuracy st' = _calculate_accuracy st /\
    optimized_model_dict st' = optimized_model_dict st.
Proof.
  intros result_map'.
  destruct (try_method ext a l idx result_map (method, true) st) as [r st'] eqn:Hbody.
  exists st'.
  assert (Hspec : r = inr result_map' /\ env st' = w' /\
            calls st' =
              calls st ++
              [called_option_optimize method (l_sample_size_for_pot l);
               called_throughput_calculate_helper method (latency_sample_num a)
                 (l_baseline_time l) acce_model (l_input_sample l)] /\
            stdout st' =
              stdout st ++
              ["----------Start test " +:+ method +:+ " model " +:+ progress idx l
                 +:+ "----------";
               exn_str e;
               "----------" +:+ method +:+ " failed to forward----------"] /\
            _calculate_accuracy st' = _calculate_accuracy st /\
            optimized_model_dict st' = optimized_model_dict st).
  { revert r st' Hbody. apply wp_run_elim. unfold_body. wp_run_known.
    all: try discriminate.
    all: rewrite <- ?app_assoc; repeat split. }
  destruct Hspec as (-> & Hrest).
  split; [reflexivity|]. split; [|exact Hrest].
  intros rest. now rewrite (enumerate_methods_cons _ _ _ _ _ _ _ _ _ Hbody).
Qed.

(** X15. An early stop: for a method other than "original", when the
    latency helper returns with its flag [False], the entry is the status
    "early stopped" and the latency, nothing else; no accuracy is measured,
    the model is dropped, and the loop goes on. *)
Theorem early_stop_keeps_the_latency_only (a : arguments obj) (l : locals)
    (idx : nat) (result_map : result_map_t) (method : string)
    (option : TFAccelerationOption) (acce_model : obj) (latency : float)
    (w w' : world) (st : state)
    (Hmethod : method <> "original")
    (Hoption : PyDict.get ALL_INFERENCE_ACCELERATION_METHOD method = Some option)
    (Hconverted : TFAccelerationOption_optimize ext option (l_model l) (x a) (y a)
                    (l_thread_num l) (logging a) (l_sample_size_for_pot l) (env st)
                  = (inr acce_model, w))
    (Hstopped : throughput_calculate_helper ext (latency_sample_num a)
                  (l_baseline_time l) (func_test ext) acce_model
                  (l_input_sample l) w
                = (inr (latency, false), w')) :
  let result_map' :=
    PyDict.set method
      [("status", PyStr "early stopped"); ("latency", PyFloat latency)]
      result_map in
  exists st',
    try_method ext a l idx result_map (method, true) st = (inr result_map', st') /\
    (forall rest,
       enumerate_methods ext a l idx ((method, true) :: rest) result_map st
       = enumerate_methods ext a l (S idx) rest result_map' st') /\
    env st' = w' /\
    calls st' =
      calls st ++
      [called_option_optimize method (l_sample_size_for_pot l);
       called_throughput_calculate_helper method (latency_sample_num a)
         (l_baseline_time l) acce_model (l_input_sample l)] /\
    _calculate_accuracy st' = _calculate_accuracy st /\
    optimized_model_dict st' = optimized_model_dict st.
Proof.
  intros result_map'.
  destruct (try_method ext a l idx result_map (method, true) st) as [r st'] eqn:Hbody.
  exists st'.
  assert (Hspec : r = inr result_map' /\ env st' = w' /\
            calls st' =
              calls st ++
              [called_option_optimize method (l_sample_size_for_pot l);
               called_throughput_calculate_helper method (latency_sample_num a)
                 (l_baseline_time l) acce_model (l_input_sample l)] /\
            _calculate_accuracy st' = _calculate_accuracy st /\
            optimized_model_dict st' = optimized_model_dict st).
  { apply String.eqb_neq in Hmethod.
    revert r st' Hbody. apply wp_run_elim. unfold_body.
    rewrite Hmethod. cbn [negb andb]. wp_run_known.
    all: try discriminate.
    all: rewrite <- ?app_assoc; repeat split. }
  destruct Hspec as (-> & Hrest).
  split; [reflexivity|]. split; [|exact Hrest].
  intros rest. now rewrite (enumerate_methods_cons _ _ _ _ _ _ _ _ _ Hbody).
Qed.

(** X16. The metric is tested on the original model.  When the accuracy
    is to be calculated and the accuracy helper raises on "original", the
    exception is printed and caught: the entry of "original" is successful,
    with its latency and its model and no "accuracy" key, and
    [_calculate_accuracy] is switched to [False] for the rest of the loop. *)
Theorem metric_failure_on_original_is_caught (a : arguments obj) (l : locals)
    (idx : nat) (result_map : result_map_t) (acce_model data : obj)
    (latency : float) (status : bool) (e : exn) (w w' w'' : world) (st : state)
    (Hconverted : TFAccelerationOption_optimize ext no_flag (l_model l) (x a) (y a)
                    (l_thread_num l) (logging a) (l_sample_size_for_pot l) (env st)
                  = (inr acce_model, w))
    (Hmeasured : throughput_calculate_helper ext (latency_sample_num a)
                   (l_baseline_time l) (func_test ext) acce_model
                   (l_input_sample l) w
                 = (inr (latency, status), w'))
    (Hcalculate : _calculate_accuracy st = Some true)
    (Hdata : l_batched_validation_data l = Some data)
    (Hmetric : _accuracy_calculate_helper ext acce_model (or_None ext (metric a))
                 data w'
               = (inl e, w'')) :
  let result_map' :=
    PyDict.set "original"
      [("status", PyStr "successful"); ("latency", PyFloat latency);
       ("model", PyObj acce_model)]
      result_map in
  exists st',
    try_method ext a l idx result_map ("original", true) st
    = (inr result_map', st') /\
    (forall rest,
       enumerate_methods ext a l idx (("original", true) :: rest) result_map st
       = enumerate_methods ext a l (S idx) rest result_map' st') /\
    env st' = w'' /\
    _calculate_accuracy st' = Some false /\
    calls st' =
      calls st ++
      [called_option_optimize "original" (l_sample_size_for_pot l);
       called_throughput_calculate_helper "original" (latency_sample_num a)
         (l_baseline_time l) acce_model (l_input_sample l);
       called_accuracy_calculate_helper "original" acce_model] /\
    exists before after, stdout st' = stdout st ++ before ++ exn_str e :: after.
Proof.
  intros result_map'.
  pose proof (eq_refl : PyDict.get ALL_INFERENCE_ACCELERATION_METHOD "original"
                        = Some no_flag) as Hoption.
  destruct (try_method ext a l idx result_map ("original", true) st)
    as [r st'] eqn:Hbody.
  exists st'.
  assert (Hspec : r = inr result_map' /\ env st' = w'' /\
            _calculate_accuracy st' = Some false /\
            calls st' =
              calls st ++
              [called_option_optimize "original" (l_sample_size_for_pot l);
               called_throughput_calculate_helper "original" (latency_sample_num a)
                 (l_baseline_time l) acce_model (l_input_sample l);
               called_accuracy_calculate_helper "original" acce_model] /\
            exists before after,
              stdout st' = stdout st ++ before ++ exn_str e :: after).
  { revert r st' Hbody. apply wp_run_elim. unfold_body.
    wp_run_known.
    all: try discriminate.
    all: try match goal with
             | H : _ && negb (_ =? "original") = true |- _ =>
                 cbn in H; rewrite andb_false_r in H; discriminate H
             | H : ("original" =? "original") = false |- _ =>
                 cbn in H; discriminate H
             end.
    all: simplify_eq; wp_known; try discriminate.
    all: rewrite <- ?app_assoc; cbn [app].
    all: split; [reflexivity|]; split; [reflexivity|]; split; [reflexivity|].
    all: split; [reflexivity|].
    all: eexists (cons _ nil); eexists; reflexivity. }
  destruct Hspec as (-> & Hrest).
  split; [reflexivity|]. split; [|exact Hrest].
  intros rest. now rewrite (enumerate_methods_cons _ _ _ _ _ _ _ _ _ Hbody).
Qed.

(** X17. On any other method the accuracy helper is not guarded: when
    the accuracy is to be calculated for a method that is not "original" and
    whose precision is not fp32, an exception of the helper leaves the body
    of the loop and the loop itself; the methods after it are not tried, and
    [optimized_model_dict] is not assigned. *)
Theorem metric_failure_on_other_method_propagates (a : arguments obj)
    (l : locals) (idx : nat) (result_map : result_map_t) (method : string)
    (option : TFAccelerationOption) (acce_model data : obj) (latency : float)
    (e : exn) (w w' w'' : world) (st : state)
    (Hmethod : method <> "original")
    (Hoption : PyDict.get ALL_INFERENCE_ACCELERATION_METHOD method = Some option)
    (Hprecision : get_precision ext option <> "fp32")
    (Hconverted : TFAccelerationOption_optimize ext option (l_model l) (x a) (y a)
                    (l_thread_num l) (logging a) (l_sample_size_for_pot l) (env st)
                  = (inr acce_model, w))
    (Hmeasured : throughput_calculate_helper ext (latency_sample_num a)
                   (l_baseline_time l) (func_test ext) acce_model
                   (l_input_sample l) w
                 = (inr (latency, true), w'))
    (Hcalculate : _calculate_accuracy st = Some true)
    (Hdata : l_batched_validation_data l = Some data)
    (Hmetric : _accuracy_calculate_helper ext acce_model (or_None ext (metric a))
                 data w'
               = (inl e, w'')) :
  exists st',
    try_method ext a l idx result_map (method, true) st = (inl e, st') /\
    (forall rest,
       enumerate_methods ext a l idx ((method, true) :: rest) result_map st
       = (inl e, st')) /\
    env st' = w'' /\
    _calculate_accuracy st' = Some true /\
    optimized_model_dict st' = optimized_model_dict st.
Proof.
  destruct (try_method ext a l idx result_map (method, true) st) as [r st'] eqn:Hbody.
  exists st'.
  assert (Hspec : r = inl e /\ env st' = w'' /\
            _calculate_accuracy st' = Some true /\
            optimized_model_dict st' = optimized_model_dict st).
  { apply String.eqb_neq in Hmethod, Hprecision.
    revert r st' Hbody. apply wp_run_elim. unfold_body.
    wp_run_known.
    all: simplify_eq; wp_known; try discriminate.
    all: try match goal with
             | H : (_ =? "fp32") && _ = true |- _ =>
                 rewrite Hprecision in H; discriminate H
             | H : (method =? "original") = true |- _ =>
                 rewrite Hmethod in H; discriminate H
             end.
    all: repeat split; first [assumption|reflexivity]. }
  destruct Hspec as (-> & Hrest).
  split; [reflexivity|]. split; [|exact Hrest].
  intros rest. now rewrite (enumerate_methods_cons _ _ _ _ _ _ _ _ _ Hbody).
Qed.
End loop_outcomes.

(** ** Whole runs of [optimize] *)

Ltac not_original :=
  match goal with
  | H : _ && negb (?m =? "original") = true |- ?m <> "original" =>
      let E := fresh in
      intros E; rewrite E in H; cbn in H; rewrite andb_false_r in H;
      discriminate H
  end.

Ltac entry_shape_case :=
  unfold entry_shape; cbn;
  first
    [ left; eexists; split; [reflexivity|]; repeat constructor
    | right; left; eexists; split; [reflexivity|]; not_original
    | right; right; left; do 3 eexists; split; [reflexivity|];
      first [ left; reflexivity
            | right; left; split; [reflexivity|not_original]
            | right; right; eexists; reflexivity ]
    | right; right; right; do 2 eexists; split; [reflexivity|];
      match goal with
      | H : (_ =? "original") = true |- _ => now apply String.eqb_eq in H
      end ].

Section whole_runs.
Context {obj world : Type} (ext : External obj world).
Local Abbreviation state := (state obj world).
Local Abbreviation result_map_t := (PyDict.t (PyDict.t (pyval obj))).

Lemma try_method_shape a l idx rm method available st :
  wp (try_method ext a l idx rm (method, available))
     (fun r _ =>
        forall rm', r = inr rm' ->
          exists e, rm' = PyDict.set method e rm /\ entry_shape method e) st.
Proof.
  unfold_body. wp_run.
  all: intros rm' Hr; try discriminate Hr; injection Hr as <-.
  all: eexists; split; [reflexivity|].
  all: entry_shape_case.
Qed.

Lemma enumerate_methods_shapes a l items idx st :
  wp (enumerate_methods ext a l idx items [])
     (fun r _ =>
        forall rm, r = inr rm ->
          forall method e, PyDict.get rm method = Some e -> entry_shape method e) st.
Proof.
  eapply wp_mono.
  - apply (wp_enumerate_methods ext a l
             (fun _ rm _ =>
                forall method e, PyDict.get rm method = Some e ->
                                 entry_shape method e)
             (fun _ _ => True) items).
    + intros idx' done [method available] rest rm s _ Hentries.
      eapply wp_mono; [apply try_method_shape|].
      intros [e|rm'] _ Hstep; [exact I|].
      destruct (Hstep rm' eq_refl) as (entry & -> & Hshape).
      intros m e. destruct (decide (method = m)) as [<-|Hne].
      * rewrite PyDict_get_set_eq. now intros [= <-].
      * rewrite PyDict_get_set_ne by assumption. apply Hentries.
    + discriminate.
  - intros [e|rm] _ H rm' Hr; [discriminate|]. now injection Hr as <-.
Qed.

(** X18. The entries of the result, key by key.  When [optimize]
    returns, every entry of [optimized_model_dict] is one of four: a status
    alone, "lack dependency", "fail to convert" or "fail to forward"; the
    status "early stopped" and a latency, for a method other than
    "original"; the status "successful" with a latency, an accuracy ([None],
    "not recomputed" for a method other than "original", or a number) and a
    model; or, for "original" only, the status "successful" with a latency
    and a model and no accuracy at all. *)
Theorem optimized_model_dict_entry_shapes (a : arguments obj) (st st' : state)
    (Hrun : optimize ext a st = (inr tt, st')) :
  exists result_map,
    optimized_model_dict st' = Some result_map /\
    forall method e,
      PyDict.get result_map method = Some e -> entry_shape method e.
Proof.
  destruct (optimize_phases ext a st _ _ Hrun) as [[Hne _]|Hloop]; [congruence|].
  destruct Hloop as (p & s1 & b & s2 & st0 & rl & st1 & _ & _ & _ & _ & _ & _ &
                     _ & _ & Hloop & _ & _ & Hrl).
  destruct rl as [e|result_map]; [discriminate|].
  exists result_map. split; [now apply Hrl|].
  exact (wp_run_elim _ _ _ (enumerate_methods_shapes a _ _ _ _) _ _ Hloop
           result_map eq_refl).
Qed.

Lemma prepare_keeps_result a st :
  wp (prepare ext a)
     (fun r st' =>
        keeps_result st st' /\
        (forall p, r = inr p -> is_Some (_calculate_accuracy st'))) st.
Proof.
  unfold prepare, keeps_result. wp_run.
  all: state_simpl; split; [split; reflexivity|].
  all: intros p' Hp'; try discriminate Hp'; eexists; reflexivity.
Qed.

Lemma measure_baseline_keeps_result model input_sample st :
  wp (measure_baseline ext model input_sample)
     (fun _ st' =>
        keeps_result st st' /\
        _calculate_accuracy st' = _calculate_accuracy st) st.
Proof.
  unfold measure_baseline, keeps_result. wp_run.
  all: state_simpl; repeat split; reflexivity.
Qed.

Lemma try_method_keeps_result a l idx rm item st :
  wp (try_method ext a l idx rm item)
     (fun _ st' =>
        keeps_result st st' /\
        (is_Some (_calculate_accuracy st) -> is_Some (_calculate_accuracy st'))) st.
Proof.
  destruct item as [method available]. unfold_body. unfold keeps_result. wp_run.
  all: state_simpl; split; [split; reflexivity|].
  all: first [ exact (fun H => H)
             | intros _; eexists; reflexivity
             | intros [flag Hflag]; congruence ].
Qed.

Lemma enumerate_methods_keeps_result a l items idx rm st :
  wp (enumerate_methods ext a l idx items rm)
     (fun _ st' =>
        keeps_result st st' /\
        (is_Some (_calculate_accuracy st) -> is_Some (_calculate_accuracy st'))) st.
Proof.
  eapply wp_mono.
  - apply (wp_enumerate_methods ext a l
             (fun _ _ s =>
                keeps_result st s /\
                (is_Some (_calculate_accuracy st) -> is_Some (_calculate_accuracy s)))
             (fun _ s =>
                keeps_result st s /\
                (is_Some (_calculate_accuracy st) -> is_Some (_calculate_accuracy s)))
             items).
    + intros idx' done item rest rm0 s _ ([Hd Hr] & Hflag).
      eapply wp_mono; [apply try_method_keeps_result|].
      intros r s' ([Hd' Hr'] & Hflag').
      assert (keeps_result st s' /\
              (is_Some (_calculate_accuracy st) -> is_Some (_calculate_accuracy s')))
        by (unfold keeps_result; split; [split; congruence|auto]).
      now destruct r.
    + unfold keeps_result. auto.
  - intros [e|rm'] s'; auto.
Qed.

(** The report assigns the map first and keeps it. *)
Lemma report_assigns result_map start_time st :
  wp (report ext result_map start_time)
     (fun _ st' => optimized_model_dict st' = Some result_map) st.
Proof. unfold report. wp_run. all: state_simpl; reflexivity. Qed.

(** [optimize] is the search, then the report. *)
Lemma optimize_until_report_then_report a st :
  optimize ext a st
  = bind (optimize_until_report ext a)
         (fun found => report ext (fst found) (snd found)) st.
Proof.
  unfold optimize, optimize_until_report, bind.
  destruct (check_arguments ext a st) as [[e|[]] s0]; [reflexivity|].
  destruct (prepare ext a s0) as [[e|p] s1]; [reflexivity|].
  destruct (measure_baseline ext _ _ s1) as [[e|b] s2]; [reflexivity|].
  destruct (print _ s2) as [[e|[]] s3]; [reflexivity|].
  destruct (outside _ s3) as [[e|start_time] s4]; [reflexivity|].
  destruct (enumerate_methods ext a _ _ _ _ s4) as [[e|result_map] s5]; reflexivity.
Qed.

Lemma optimize_until_report_keeps_result a st :
  wp (optimize_until_report ext a) (fun _ st' => keeps_result st st') st.
Proof.
  unfold optimize_until_report. apply wp_bind.
  eapply wp_mono; [apply check_arguments_spec|].
  intros [e0|[]] s0 [-> _]; [split; reflexivity|].
  apply wp_bind. eapply wp_mono; [apply prepare_keeps_result|].
  intros [e1|p] s1 [Hkeep1 _]; [exact Hkeep1|].
  apply wp_bind. eapply wp_mono; [apply measure_baseline_keeps_result|].
  intros [e2|b] s2 [Hkeep2 _];
    [unfold keeps_result in *; split; intuition congruence|].
  apply wp_bind, wp_print. apply wp_bind, wp_outside.
  intros [e3|start_time] w Hw.
  { unfold keeps_result in *. state_simpl. split; intuition congruence. }
  apply wp_bind. eapply wp_mono; [apply enumerate_methods_keeps_result|].
  intros [e4|result_map] s3 [Hkeep3 _].
  - unfold keeps_result in *. state_simpl. split; intuition congruence.
  - apply wp_ret. unfold keeps_result in *. state_simpl.
    split; intuition congruence.
Qed.

(** X19. Nothing is kept of a search that fails.  [optimize] is the
    search of lines 137 to 265 (the checks, the preparation, the baseline,
    the loop) followed by the report of lines 267 to 277.  An exception of
    the search is the outcome of [optimize] and leaves [optimized_model_dict]
    and [_optimize_result] as they were before the call: the results of the
    methods tried so far are lost, those of an earlier call are kept.  Once
    the search is over, the report assigns its map to [optimized_model_dict]
    before anything else, and the map stays there however the report ends. *)
Theorem failed_search_keeps_the_earlier_result (a : arguments obj) (st : state) :
  (forall st0,
     optimize ext a st0
     = bind (optimize_until_report ext a)
            (fun found => report ext (fst found) (snd found)) st0) /\
  (forall e st',
     optimize_until_report ext a st = (inl e, st') ->
     optimize ext a st = (inl e, st') /\
     optimized_model_dict st' = optimized_model_dict st /\
     _optimize_result st' = _optimize_result st) /\
  (forall result_map start_time s r st',
     optimize_until_report ext a st = (inr (result_map, start_time), s) ->
     optimize ext a st = (r, st') ->
     optimized_model_dict st' = Some result_map).
Proof.
  split; [intros st0; apply optimize_until_report_then_report|]. split.
  - intros e st' Hsearch. split.
    + rewrite optimize_until_report_then_report. unfold bind. now rewrite Hsearch.
    + exact (wp_run_elim _ _ _ (optimize_until_report_keeps_result a st) _ _ Hsearch).
  - intros result_map start_time s r st' Hsearch Hrun.
    rewrite optimize_until_report_then_report in Hrun. unfold bind in Hrun.
    rewrite Hsearch in Hrun. cbn [fst snd] in Hrun.
    exact (wp_run_elim _ _ _ (report_assigns result_map start_time s) _ _ Hrun).
Qed.

(** The threads the preparation settles on, from the reading of
    OMP_NUM_THREADS that decides. *)
Lemma prepare_thread_num a st :
  wp (prepare ext a)
     (fun r _ =>
        forall p, r = inr p ->
          exists w w' value,
            getenv ext "OMP_NUM_THREADS" w = (inr value, w') /\
            match value with
            | None => p_thread_num p = thread_num a
            | Some _ =>
                exists w1 w2 s n,
                  getenv ext "OMP_NUM_THREADS" w1 = (inr (Some s), w2) /\
                  int_of_str ext s = inr n /\
                  p_thread_num p = Some (default n (thread_num a))
            end) st.
Proof.
  unfold prepare. wp_run.
  all: intros p' Hp'; try discriminate Hp'; injection Hp' as <-.
  all: cbn [p_thread_num]; simplify_eq.
  all: do 3 eexists; (split; [eassumption|]); cbv beta iota.
  all: first [ now destruct (thread_num a)
             | do 4 eexists; split; [eassumption|]; split; [eassumption|];
               now destruct (thread_num a) ].
Qed.

(** X20. The threads of the conversions.  When OMP_NUM_THREADS is not
    set, the conversions get the [thread_num] of the call.  When it is set
    to a text that [int] reads as [n], they get [thread_num] if it was
    given and [n] otherwise.  When it is set to a text that [int] rejects,
    [optimize] never returns normally and tries no method, also when
    [thread_num] is given. *)
Theorem thread_num_and_OMP_NUM_THREADS (a : arguments obj) (st : state) :
  ((forall w, exists w', getenv ext "OMP_NUM_THREADS" w = (inr None, w')) ->
   forall p s1, prepare ext a st = (inr p, s1) -> p_thread_num p = thread_num a) /\
  (forall s n,
     (forall w, exists w', getenv ext "OMP_NUM_THREADS" w = (inr (Some s), w')) ->
     int_of_str ext s = inr n ->
     forall p s1, prepare ext a st = (inr p, s1) ->
       p_thread_num p = Some (default n (thread_num a))) /\
  (forall s e,
     (forall w, exists w', getenv ext "OMP_NUM_THREADS" w = (inr (Some s), w')) ->
     int_of_str ext s = inl e ->
     forall r st', optimize ext a st = (r, st') ->
       r <> inr tt /\ calls st' = calls st /\
       optimized_model_dict st' = optimized_model_dict st).
Proof.
  split; [|split].
  - intros Hunset p s1 Hprepare.
    destruct (wp_run_elim _ _ _ (prepare_thread_num a st) _ _ Hprepare p eq_refl)
      as (w & w' & value & Hw & Hvalue).
    destruct (Hunset w) as [w'' E]. rewrite E in Hw. injection Hw as <- _.
    exact Hvalue.
  - intros s n Hset Hint p s1 Hprepare.
    destruct (wp_run_elim _ _ _ (prepare_thread_num a st) _ _ Hprepare p eq_refl)
      as (w & w' & value & Hw & Hvalue).
    destruct (Hset w) as [w'' E]. rewrite E in Hw. injection Hw as <- _.
    destruct Hvalue as (w1 & w2 & s' & n' & Hw1 & Hint' & ->).
    destruct (Hset w1) as [w3 E1]. rewrite E1 in Hw1. injection Hw1 as <- _.
    rewrite Hint in Hint'. now injection Hint' as <-.
  - intros s e Hset Hint r st' Hrun.
    destruct (optimize_phases ext a st _ _ Hrun) as [Hstop|Hloop]; [exact Hstop|].
    exfalso.
    destruct Hloop as (p & s1 & _ & _ & _ & _ & _ & _ & Hprepare & _).
    destruct (wp_run_elim _ _ _ (prepare_thread_num a st) _ _ Hprepare p eq_refl)
      as (w & w' & value & Hw & Hvalue).
    destruct (Hset w) as [w'' E]. rewrite E in Hw. injection Hw as <- _.
    destruct Hvalue as (w1 & w2 & s' & n' & Hw1 & Hint' & _).
    destruct (Hset w1) as [w3 E1]. rewrite E1 in Hw1. injection Hw1 as <- _.
    rewrite Hint in Hint'. discriminate Hint'.
Qed.
End whole_runs.

(** ** The folder reader, in order *)

Lemma index_NoDup (l : list string) (x : string) (i : nat) :
  NoDup l -> l !! i = Some x -> imagenet.index l x = inr i.
Proof.
  intros Hnd. revert i. induction Hnd as [|y l Hy Hnd IH]; intros i; [discriminate|].
  destruct i as [|i]; simpl.
  - intros [= ->]. now rewrite String.eqb_refl.
  - intros Hi. destruct (String.eqb_spec y x) as [->|Hne].
    + exfalso. apply Hy. eapply list_elem_of_lookup_2. exact Hi.
    + now rewrite (IH i Hi).
Qed.

Lemma sum_list_Permutation (l l' : list nat) :
  l ≡ₚ l' -> sum_list l = sum_list l'.
Proof. induction 1; simpl; lia. Qed.

Section read_local_order.
Variable ndarray : Type.
Variable listdir : string -> res (list string).
Variable imread : string -> Z -> ndarray.
Variable cv2_resize : ndarray -> Z -> Z -> ndarray.
Variable ndarray_and : ndarray -> Z -> ndarray.
Variable ndarray_div : ndarray -> float -> ndarray.
Variables (folder : string) (dirs : list string).

Lemma outer_loop_in_order (files : string -> list string)
    (done ds : list string) (images : list (string * Z)) :
  NoDup dirs -> dirs = done ++ ds ->
  (forall d, d ∈ ds -> listdir (imagenet.join folder d) = inr (files d)) ->
  res_fold (imagenet.append_directory listdir folder dirs) ds images
  = inr (images ++
         concat (imap (fun j d =>
                         map (fun f => (imagenet.join (imagenet.join folder d) f,
                                        Z.of_nat (length done + j) + 1))
                             (files d)) ds)).
Proof.
  intros Hnd. revert done images.
  induction ds as [|d ds IH]; intros done images Hdirs Hls; simpl.
  - now rewrite app_nil_r.
  - unfold imagenet.append_directory at 1.
    rewrite (Hls d (list_elem_of_here _ _)). simpl.
    assert (Hi : imagenet.index dirs d = inr (length done)).
    { apply index_NoDup; [exact Hnd|]. subst dirs.
      now rewrite lookup_app_r, Nat.sub_diag by lia. }
    rewrite (inner_loop folder dirs d (length done) (files d) images Hi). simpl.
    rewrite (IH (done ++ [d])).
    + rewrite <- !app_assoc, Nat.add_0_r. do 3 f_equal.
      apply (f_equal (@concat _)), imap_ext. intros j d' _. simpl.
      rewrite length_app. simpl.
      replace (length done + 1 + j)%nat with (length done + S j)%nat by lia.
      reflexivity.
    + now rewrite <- app_assoc.
    + intros d' Hd'. apply Hls. now apply list_elem_of_further.
Qed.

(** The first directory that cannot be listed ends the loops with its
    exception. *)
Lemma outer_loop_fails (files : string -> list string)
    (done good : list string) (bad : string) (rest : list string)
    (images : list (string * Z)) (e : exn) :
  NoDup dirs -> dirs = done ++ good ++ bad :: rest ->
  (forall d, d ∈ good -> listdir (imagenet.join folder d) = inr (files d)) ->
  listdir (imagenet.join folder bad) = inl e ->
  res_fold (imagenet.append_directory listdir folder dirs) (good ++ bad :: rest)
    images
  = inl e.
Proof.
  intros Hnd. revert done images.
  induction good as [|d good IH]; intros done images Hdirs Hls Hbad; simpl.
  - unfold imagenet.append_directory at 1. now rewrite Hbad.
  - unfold imagenet.append_directory at 1.
    rewrite (Hls d (list_elem_of_here _ _)). simpl.
    assert (Hi : imagenet.index dirs d = inr (length done)).
    { apply index_NoDup; [exact Hnd|]. subst dirs.
      now rewrite lookup_app_r, Nat.sub_diag by lia. }
    rewrite (inner_loop folder dirs d (length done) (files d) images Hi). simpl.
    apply (IH (done ++ [d])).
    + now rewrite <- app_assoc.
    + intros d' Hd'. apply Hls. now apply list_elem_of_further.
    + exact Hbad.
Qed.
End read_local_order.

(** X21. [read_local] reads the folder in order.  On a folder whose
    listing [names] has no name twice and whose entries can all be listed,
    it returns the Samples directory by directory in the sorted order of the
    names and, inside a directory, in the order of its listing; the images
    of the directory of rank i (from 0) are labelled i + 1, so the labels
    are 1, 2, ... without a gap, and there are as many Samples as files. *)
Theorem read_local_in_order
    (ndarray : Type) (listdir : string -> res (list string))
    (imread : string -> Z -> ndarray) (cv2_resize : ndarray -> Z -> Z -> ndarray)
    (ndarray_and : ndarray -> Z -> ndarray) (ndarray_div : ndarray -> float -> ndarray)
    (folder : string) (normalize : float) (names : list string)
    (files : string -> list string)
    (Hfolder : listdir folder = inr names)
    (Hnames : NoDup names)
    (Hfiles : forall d, d ∈ names ->
                listdir (imagenet.join folder d) = inr (files d)) :
  let images :=
    concat
      (imap (fun i d =>
               map (fun f => (imagenet.join (imagenet.join folder d) f,
                              Z.of_nat i + 1))
                   (files d))
            (imagenet.sort names)) in
  imagenet.read_local ndarray listdir imread cv2_resize ndarray_and ndarray_div
    folder normalize
  = inr (map (imagenet.to_sample ndarray imread cv2_resize ndarray_and ndarray_div
                normalize) images) /\
  length images = sum_list (map (fun d => length (files d)) names).
Proof.
  intros images.
  destruct (sort_sorted names) as [_ Hperm].
  assert (Hnd : NoDup (imagenet.sort names)) by now rewrite Hperm.
  split.
  - unfold imagenet.read_local, imagenet.read_local_images.
    rewrite Hfolder. cbn [res_bind].
    rewrite (outer_loop_in_order listdir folder (imagenet.sort names) files []
               (imagenet.sort names) [] Hnd eq_refl).
    + reflexivity.
    + intros d Hd. apply Hfiles. now rewrite <- Hperm.
  - subst images.
    rewrite <- (sum_list_Permutation _ _ (Permutation_map _ Hperm)).
    generalize (imagenet.sort names). intros l.
    assert (Hgen : forall k,
              length (concat (imap (fun i d =>
                        map (fun f => (imagenet.join (imagenet.join folder d) f,
                                       Z.of_nat (k + i) + 1)) (files d)) l))
              = sum_list (map (fun d => length (files d)) l)).
    { induction l as [|d l IH]; intros k; [reflexivity|].
      cbn [imap concat map sum_list]. rewrite length_app, length_map. f_equal.
      rewrite <- (IH (S k)). apply (f_equal (@length _)), (f_equal (@concat _)), imap_ext.
      intros i d' _. simpl.
      replace (k + S i)%nat with (S k + i)%nat by lia. reflexivity. }
    apply (Hgen 0%nat).
Qed.

(** X22. One entry of the folder that cannot be listed, a plain file for
    instance, makes [read_local] fail as a whole: it raises the exception of
    [listdir] on the first such entry in the sorted order, and returns no
    Sample of the directories read before it. *)
Theorem read_local_fails_on_unlistable_entry
    (ndarray : Type) (listdir : string -> res (list string))
    (imread : string -> Z -> ndarray) (cv2_resize : ndarray -> Z -> Z -> ndarray)
    (ndarray_and : ndarray -> Z -> ndarray) (ndarray_div : ndarray -> float -> ndarray)
    (folder : string) (normalize : float) (names : list string)
    (files : string -> list string)
    (good : list string) (bad : string) (rest : list string) (e : exn)
    (Hfolder : listdir folder = inr names)
    (Hnames : NoDup names)
    (Hsorted : imagenet.sort names = good ++ bad :: rest)
    (Hgood : forall d, d ∈ good ->
               listdir (imagenet.join folder d) = inr (files d))
    (Hbad : listdir (imagenet.join folder bad) = inl e) :
  imagenet.read_local ndarray listdir imread cv2_resize ndarray_and ndarray_div
    folder normalize
  = inl e.
Proof.
  destruct (sort_sorted names) as [_ Hperm].
  assert (Hnd : NoDup (imagenet.sort names)) by now rewrite Hperm.
  unfold imagenet.read_local, imagenet.read_local_images.
  rewrite Hfolder. cbn [res_bind]. rewrite Hsorted at 2.
  rewrite (outer_loop_fails listdir folder (imagenet.sort names) files [] good bad
             rest [] e Hnd Hsorted Hgood Hbad).
  reflexivity.
Qed.

(** ** The options of the optimizer *)

Section option_facts.
Context {obj world : Type} (ext : External obj world).

(** X23. Tracing does not read the data, quantizing needs it.  An option
    of precision fp32 is converted without [x], [y] and the sample size: the
    outcome is the same whatever they are, and it is the model itself, with
    nothing called, when the option has no accelerator.  An option of any
    other precision, given no [y] and an [x] that is no Dataset, raises the
    error of [invalidInputError] on the missing targets before any converter
    is called. *)
Theorem option_optimize_and_the_data (self : TFAccelerationOption)
    (model : obj) (thread_num : option Z) (logging : bool) (w : world) :
  (get_precision ext self = "fp32" ->
   (forall x y n x' y' n',
      TFAccelerationOption_optimize ext self model x y thread_num logging n w
      = TFAccelerationOption_optimize ext self model x' y' thread_num logging n' w) /\
   (get_accelerator ext self = None ->
    forall x y n,
      TFAccelerationOption_optimize ext self model x y thread_num logging n w
      = (inr model, w))) /\
  (get_precision ext self <> "fp32" ->
   forall x n,
     isinstance_Dataset ext x = false ->
     TFAccelerationOption_optimize ext self model x None thread_num logging n w
     = (inl (InvalidInputError y_omitted_message), w)).
Proof.
  unfold TFAccelerationOption_optimize. split.
  - intros ->. cbn. split; [reflexivity|]. now intros ->.
  - intros Hprecision x n Hx. apply String.eqb_neq in Hprecision.
    rewrite Hprecision. unfold quantize, bind, invalidInputError. cbn.
    now rewrite Hx.
Qed.
End option_facts.

(** ** The properties on small inputs *)

(** The record of label 7 is read back with the shape (2, 3, 1). *)
Lemma parse_reads_packed_header_witness :
  small_inputs.parse_bytes 255 small_inputs.record_7
  = inr {| seq_file.arg_features :=
             [Byte.x01; Byte.x02; Byte.x03; Byte.x04; Byte.x05; Byte.x06];
           seq_file.arg_label := [7];
           seq_file.arg_features_shape := (2, 3, 1);
           seq_file.arg_label_shape := [1] |}.
Proof.
  apply (parse_reads_packed_header (fun b => b) (fun a _ => a) (fun a _ => a)
           int_of_digits inr 255 "7" 2 3
           [Byte.x01; Byte.x02; Byte.x03; Byte.x04; Byte.x05; Byte.x06] 7);
    first [lia | reflexivity].
Defined.

(** Seven bytes are no record. *)
Lemma parse_short_record_witness :
  small_inputs.parse_bytes 255 ("7", seq_file.pack_i 2 ++ [Byte.x00; Byte.x00; Byte.x00])
  = inl (struct_error "unpack requires a string argument of length 8").
Proof.
  apply (parse_short_record (fun b => b) (fun a _ => a) (fun a _ => a)
           int_of_digits inr 255 "7").
  vm_compute. lia.
Defined.

(** A label that is no number, on an image of width zero; the same image
    with the label 7. *)
Lemma parse_error_order_witness :
  (exists e,
     small_inputs.parse_bytes 255
       ("seven", seq_file.pack_i 0 ++ seq_file.pack_i 3 ++ [Byte.x01])
     = inl (Exception (ValueError e))) /\
  small_inputs.parse_bytes 255
    ("7", seq_file.pack_i 0 ++ seq_file.pack_i 3 ++ [Byte.x01])
  = inl (ZeroDivisionError "integer division or modulo by zero").
Proof.
  split.
  - eexists.
    apply (proj1 (parse_error_order (fun b => b) (fun a _ => a) (fun a _ => a)
                    int_of_digits inr 255 "seven"
                    (seq_file.pack_i 0 ++ seq_file.pack_i 3 ++ [Byte.x01])
                    ltac:(vm_compute; lia))).
    reflexivity.
  - apply (proj2 (parse_error_order (fun b => b) (fun a _ => a) (fun a _ => a)
                    int_of_digits inr 255 "7"
                    (seq_file.pack_i 0 ++ seq_file.pack_i 3 ++ [Byte.x01])
                    ltac:(vm_compute; lia)) 7).
    + reflexivity.
    + left. reflexivity.
Defined.

(** The record of label 7: six bytes fill the shape (2, 3, 1). *)
Lemma parse_shape_fits_witness :
  exists (args : seq_file.Sample_args (list Byte.byte)) width height depth,
    seq_file.arg_features_shape args = (width, height, depth) /\
    0 < width /\ 0 < height /\ width * height * depth <= 6.
Proof.
  destruct (parse_shape_fits (fun b => b) (fun a _ => a) (fun a _ => a)
              int_of_digits inr 255 "7" (snd small_inputs.record_7)
              {| seq_file.arg_features :=
                   [Byte.x01; Byte.x02; Byte.x03; Byte.x04; Byte.x05; Byte.x06];
                 seq_file.arg_label := [7];
                 seq_file.arg_features_shape := (2, 3, 1);
                 seq_file.arg_label_shape := [1] |}
              eq_refl)
    as (args & width & height & depth & Hinit & Hshape & _ & _ & _ & _ & _ & _ & Hfits).
  exists args, width, height, depth.
  injection Hinit as ->. cbn in Hshape. injection Hshape as <- <- <-.
  split; [reflexivity|]. split; [lia|]. split; [lia|].
  destruct (Hfits ltac:(lia) ltac:(lia)) as [_ [Hle _]]. exact Hle.
Defined.

(** Two inputs of different lengths: the length is that of the first. *)
Lemma data_length_returns_iff_witness :
  estimator_helpers.data_length
    [("x", estimator_helpers.pylist
             [estimator_helpers.ndarray [32; 28; 28];
              estimator_helpers.ndarray [16; 10]]);
     ("y", estimator_helpers.ndarray [32])]
  = inr 32.
Proof.
  apply data_length_returns_iff. exists [28; 28]. right. eexists. left. reflexivity.
Defined.

(** [trace] without an accelerator. *)
Lemma trace_invalid_accelerator_witness :
  trace (small_world quiet) "model" None None None None None true 0%float
  = (inl (InvalidInputError "Accelerator None is invalid."), 0%float).
Proof.
  apply (trace_invalid_accelerator (small_world quiet) "model" None None None None
           None true 0%float); discriminate.
Defined.

(** A configuration with a precision hint and the number of streams. *)
Lemma trace_openvino_config_witness :
  exists final_openvino_option,
    trace (small_world quiet) "model" (Some "openvino") None None None
      (Some [("INFERENCE_PRECISION_HINT", "bf16"); ("NUM_STREAMS", "1")]) true
      0%float
    = KerasOpenVINOModel_init (small_world quiet) "model" None
        final_openvino_option true 0%float /\
    PyDict.get final_openvino_option "INFERENCE_PRECISION_HINT" = Some "bf16" /\
    PyDict.get final_openvino_option "NUM_STREAMS" = Some "1".
Proof.
  destruct (trace_openvino_config (small_world quiet) "model" None None None
              [("INFERENCE_PRECISION_HINT", "bf16"); ("NUM_STREAMS", "1")] true
              0%float)
    as (final & Htrace & Hkept & _).
  - apply (bool_decide_unpack _). reflexivity.
  - exists final. split; [exact Htrace|]. split; apply Hkept; reflexivity.
Defined.

(** The converters of the small world take the same keyword arguments. *)
Lemma quantize_called_by_option_witness :
  Quantize.quantize (small_world quiet)
    (fun m _ => construct quiet "Quantized" m) (fun m _ => construct quiet "POT" m)
    (Quantize.called_by_option "NanoModel(model)" "x" (Some "y") "int8" None None
       None 100 false) 0%float
  = (inr "Quantized(NanoModel(model))", 0%float).
Proof.
  rewrite (quantize_called_by_option (small_world quiet)
             (fun m _ => construct quiet "Quantized" m)
             (fun m _ => construct quiet "POT" m)
             (fun _ _ _ => eq_refl) (fun _ _ _ => eq_refl)).
  reflexivity.
Defined.

(** The method 'dynamic' is none of the map: the framework is [None]. *)
Lemma quantize_onnxruntime_witness :
  Quantize.quantize (small_world quiet)
    (fun m k =>
       match Quantize.inc_framework k with
       | None => raise (Raised "no framework")
       | Some _ => construct quiet "Quantized" m
       end)
    (fun m _ => construct quiet "POT" m)
    (Quantize.called_by_option "NanoModel(model)" "x" (Some "y") "int8"
       (Some "onnxruntime") (Some "dynamic") (Some 4) 100 false) 0%float
  = (inl (Raised "no framework"), 0%float).
Proof.
  pose proof (quantize_onnxruntime (small_world quiet)
                (fun m k =>
                   match Quantize.inc_framework k with
                   | None => raise (Raised "no framework")
                   | Some _ => construct quiet "Quantized" m
                   end)
                (fun m _ => construct quiet "POT" m)
                (Quantize.called_by_option "NanoModel(model)" "x" (Some "y") "int8"
                   (Some "onnxruntime") (Some "dynamic") (Some 4) 100 false)
                0%float) as Hquantize.
  etransitivity; [apply Hquantize|].
  - reflexivity.
  - left. discriminate.
  - reflexivity.
  - vm_compute. reflexivity.
  - vm_compute. reflexivity.
Defined.

(** The model traced to OpenVINO cannot run: "openvino_fp32" fails to
    forward. *)
Lemma forward_failure_is_caught_witness :
  exists st',
    try_method (small_world small_inputs.openvino_cannot_run) plain_arguments
      slow_locals 2 [] ("openvino_fp32", true) (fresh 0)
    = (inr [("openvino_fp32", [("status", PyStr "fail to forward")])], st').
Proof.
  destruct (forward_failure_is_caught (small_world small_inputs.openvino_cannot_run)
              plain_arguments slow_locals 2 [] "openvino_fp32"
              {| inc := false; openvino := true; pot := false;
                 onnxruntime := false; method := None |}
              "KerasOpenVINOModel(NanoModel(model))"
              (Raised "KerasOpenVINOModel(NanoModel(model)) cannot run")
              0%float (PrimFloat.add 0 (forward_seconds quiet)) (fresh 0)
              eq_refl eq_refl eq_refl) as (st' & Hbody & _).
  exists st'. exact Hbody.
Defined.

(** The quantized model is too slow: "int8" is stopped early. *)
Lemma early_stop_keeps_the_latency_only_witness :
  exists st',
    try_method (small_world small_inputs.quantized_too_slow) plain_arguments
      slow_locals 1 [] ("int8", true) (fresh 0)
    = (inr [("int8",
             [("status", PyStr "early stopped");
              ("latency", PyFloat (PrimFloat.mul (forward_seconds quiet) 1000))])],
       st').
Proof.
  destruct (early_stop_keeps_the_latency_only
              (small_world small_inputs.quantized_too_slow)
              plain_arguments slow_locals 1 [] "int8"
              {| inc := true; openvino := false; pot := false;
                 onnxruntime := false; method := None |}
              "Quantized(NanoModel(model))"
              (PrimFloat.mul (forward_seconds quiet) 1000)
              0%float (PrimFloat.add 0 (forward_seconds quiet)) (fresh 0)
              ltac:(discriminate) eq_refl eq_refl eq_refl) as (st' & Hbody & _).
  exists st'. exact Hbody.
Defined.

(** The metric does not fit: the test on "original" switches the accuracy
    off. *)
Lemma metric_failure_on_original_is_caught_witness :
  exists result_map' st',
    try_method (small_world metric_broken) measured_arguments
      small_inputs.measured_locals 0 [] ("original", true)
      (with_calculate_accuracy true (fresh 0))
    = (inr result_map', st') /\
    _calculate_accuracy st' = Some false.
Proof.
  destruct (metric_failure_on_original_is_caught (small_world metric_broken)
              measured_arguments small_inputs.measured_locals 0 []
              "NanoModel(model)" "Dataset.batch(Dataset(validation))"
              (PrimFloat.mul (forward_seconds quiet) 1000) true
              (Raised "metric does not fit")
              0%float (PrimFloat.add 0 (forward_seconds quiet))
              (PrimFloat.add (PrimFloat.add 0 (forward_seconds quiet))
                 (forward_seconds quiet))
              (with_calculate_accuracy true (fresh 0))
              eq_refl eq_refl eq_refl eq_refl eq_refl)
    as (st' & Hbody & _ & _ & Hflag & _).
  eexists. exists st'. split; [exact Hbody|exact Hflag].
Defined.

(** The same metric on "int8": the exception leaves the loop. *)
Lemma metric_failure_on_other_method_propagates_witness :
  exists st',
    enumerate_methods (small_world metric_broken) measured_arguments
      small_inputs.measured_locals 1 [("int8", true); ("openvino_fp32", true)] []
      (with_calculate_accuracy true (fresh 0))
    = (inl (Raised "metric does not fit"), st').
Proof.
  destruct (metric_failure_on_other_method_propagates (small_world metric_broken)
              measured_arguments small_inputs.measured_locals 1 [] "int8"
              {| inc := true; openvino := false; pot := false;
                 onnxruntime := false; method := None |}
              "Quantized(NanoModel(model))" "Dataset.batch(Dataset(validation))"
              (PrimFloat.mul (forward_seconds quiet) 1000)
              (Raised "metric does not fit")
              0%float (PrimFloat.add 0 (forward_seconds quiet))
              (PrimFloat.add (PrimFloat.add 0 (forward_seconds quiet))
                 (forward_seconds quiet))
              (with_calculate_accuracy true (fresh 0))
              ltac:(discriminate) eq_refl ltac:(discriminate)
              eq_refl eq_refl eq_refl eq_refl eq_refl)
    as (st' & _ & Hloop & _).
  exists st'. apply Hloop.
Defined.

(** A run in the quiet world, with validation data and a metric. *)
Lemma optimized_model_dict_entry_shapes_witness :
  exists result_map,
    optimized_model_dict
      (snd (optimize (small_world quiet) measured_arguments (fresh 0)))
    = Some result_map /\
    forall method e,
      PyDict.get result_map method = Some e -> entry_shape method e.
Proof.
  apply (optimized_model_dict_entry_shapes (small_world quiet) measured_arguments
           (fresh 0)).
  vm_compute. reflexivity.
Defined.

(** The metric does not fit the quantized model: the loop fails at "int8",
    after "original" was tried, on a receiver that holds an earlier result. *)
Lemma failed_search_keeps_the_earlier_result_witness :
  optimize (with_picky_metric (small_world quiet)) measured_arguments
    (small_inputs.used 0)
  = (inl (Raised "metric does not fit the quantized model"),
     snd (optimize_until_report (with_picky_metric (small_world quiet))
            measured_arguments (small_inputs.used 0))) /\
  optimized_model_dict
    (snd (optimize_until_report (with_picky_metric (small_world quiet))
            measured_arguments (small_inputs.used 0)))
  = Some [("original", [("status", PyStr "successful")])] /\
  attempted
    (calls (snd (optimize_until_report (with_picky_metric (small_world quiet))
                   measured_arguments (small_inputs.used 0))))
  = ["original"; "int8"].
Proof.
  destruct (proj1 (proj2 (failed_search_keeps_the_earlier_result
                            (with_picky_metric (small_world quiet))
                            measured_arguments (small_inputs.used 0)))
              (Raised "metric does not fit the quantized model")
              (snd (optimize_until_report (with_picky_metric (small_world quiet))
                      measured_arguments (small_inputs.used 0))))
    as (Hrun & Hdict & _).
  - vm_compute. reflexivity.
  - split; [exact Hrun|]. split.
    + etransitivity; [exact Hdict|]. reflexivity.
    + vm_compute. reflexivity.
Defined.

(** OMP_NUM_THREADS is "4", then "four". *)
Lemma thread_num_and_OMP_NUM_THREADS_witness :
  (forall p s1,
     prepare (with_OMP_NUM_THREADS "4" (small_world quiet)) plain_arguments
       (fresh 0) = (inr p, s1) ->
     p_thread_num p = Some 4) /\
  fst (optimize (with_OMP_NUM_THREADS "four" (small_world quiet))
         plain_arguments (fresh 0)) <> inr tt.
Proof.
  split.
  - apply (proj1 (proj2 (thread_num_and_OMP_NUM_THREADS
                           (with_OMP_NUM_THREADS "4" (small_world quiet))
                           plain_arguments (fresh 0))) "4" 4).
    + intros w. exists w. reflexivity.
    + reflexivity.
  - apply (proj2 (proj2 (thread_num_and_OMP_NUM_THREADS
                           (with_OMP_NUM_THREADS "four" (small_world quiet))
                           plain_arguments (fresh 0)))
             "four" (ValueError "invalid literal for int() with base 10: 'four'")
             (fun w => ex_intro _ w eq_refl) eq_refl
             (fst (optimize (with_OMP_NUM_THREADS "four" (small_world quiet))
                     plain_arguments (fresh 0)))
             (snd (optimize (with_OMP_NUM_THREADS "four" (small_world quiet))
                     plain_arguments (fresh 0)))).
    now destruct (optimize _ _ _).
Defined.

(** The folder [pets]: ant has no image, cat has two, dog has one. *)
Lemma read_local_in_order_witness :
  imagenet.read_local (string * Z) pets (fun path _ => (path, 0))
    (fun img _ _ => img) (fun img _ => img) (fun img _ => img) "pets" 255
  = inr [from_ndarray ("pets/cat/1.jpg", 0) 2;
         from_ndarray ("pets/cat/2.jpg", 0) 2;
         from_ndarray ("pets/dog/3.jpg", 0) 3].
Proof.
  pose proof (read_local_in_order (string * Z) pets (fun path _ => (path, 0))
                (fun img _ _ => img) (fun img _ => img) (fun img _ => img)
                "pets" 255 ["dog"; "cat"; "ant"]
                (fun d => if String.eqb d "cat" then ["1.jpg"; "2.jpg"]
                          else if String.eqb d "dog" then ["3.jpg"] else [])
                eq_refl) as [Hread _].
  - apply (bool_decide_unpack _). reflexivity.
  - intros d Hd. apply elem_of_cons in Hd as [->|Hd]; [reflexivity|].
    apply elem_of_cons in Hd as [->|Hd]; [reflexivity|].
    apply list_elem_of_singleton in Hd as ->. reflexivity.
  - etransitivity; [exact Hread|]. vm_compute. reflexivity.
Defined.

(** The same folder with a stray file README beside the directories. *)
Lemma read_local_fails_on_unlistable_entry_witness :
  imagenet.read_local (string * Z)
    (fun path => if String.eqb path "pets" then inr ["dog"; "README"; "cat"]
                 else pets path)
    (fun path _ => (path, 0)) (fun img _ _ => img) (fun img _ => img)
    (fun img _ => img) "pets" 255
  = inl (Raised "No such file or directory").
Proof.
  apply (read_local_fails_on_unlistable_entry (string * Z)
           (fun path => if String.eqb path "pets" then inr ["dog"; "README"; "cat"]
                        else pets path)
           (fun path _ => (path, 0)) (fun img _ _ => img) (fun img _ => img)
           (fun img _ => img) "pets" 255 ["dog"; "README"; "cat"]
           (fun d => []) [] "README" ["cat"; "dog"]
           (Raised "No such file or directory")).
  - reflexivity.
  - apply (bool_decide_unpack _). reflexivity.
  - vm_compute. reflexivity.
  - intros d Hd. inversion Hd.
  - reflexivity.
Defined.

(** "original" in the quiet world: the model comes back as it is. *)
Lemma option_optimize_and_the_data_witness :
  TFAccelerationOption_optimize (small_world quiet) no_flag "NanoModel(model)"
    "x" None None false 100 0%float
  = (inr "NanoModel(model)", 0%float).
Proof.
  apply (proj1 (option_optimize_and_the_data (small_world quiet) no_flag
                  "NanoModel(model)" None false 0%float));
    reflexivity.
Defined.
